(** * Forex trading bot: analysis aggregation, signal fusion and risk control

    A shallow embedding of the deterministic core of the bot
    (level merging, per-timeframe and cross-timeframe aggregation,
    the detectors' point systems, signal fusion, the candidate-signal
    store and the risk manager), followed by the properties proved
    about it.

    Numbers.  The Python code computes with floats; the embedding computes
    with exact rationals [Q], so every result below is a statement about
    the arithmetic the code writes down, free of rounding error.
    Python's [min]/[max] on two arguments coincide with [Qmin]/[Qmax]
    (the first argument wins a tie).

    Failure.  A function whose exception reaches its caller returns an
    [option], [None] being the exception (the level merger dividing by a
    zero level).  The analysis entry points catch every exception and
    return the dictionary [{"error": ...}]; that result is [None] as well.
    The divisions of the signal generator and of the risk manager are
    guarded in the code and never meet a zero denominator.  Where a
    detector divides by a price or by the average bar range the embedding
    uses the division of [Q]; the series used below have positive prices
    and ranges.

    Outside world.  The broker, the data manager, the clock and the
    identifier source are inputs: every call that consults them takes what
    they answer as an argument. *)

From Stdlib Require Import Ascii.
From Stdlib Require Import QArith Qminmax Qabs Qround Lqa Lia ZArith.
From Stdlib Require Import List String Bool Sorted.
Import ListNotations.
Open Scope Q_scope.

(* ================================================================== *)
(** * Part I: the embedding                                            *)
(* ================================================================== *)

(** ** Python built-ins used by the code *)

Module Py.

(** [int(x)]: truncation toward zero. *)
Definition int (x : Q) : Z := Z.quot (Qnum x) (Zpos (Qden x)).

(** [round(x)]: nearest integer, ties to the even one. *)
Definition round (x : Q) : Z :=
  let f := Qfloor x in
  let r := x - inject_Z f in
  match Qcompare r (1 # 2) with
  | Lt => f
  | Gt => (f + 1)%Z
  | Eq => if Z.even f then f else (f + 1)%Z
  end.

(** [x < y] as a test. *)
Definition Qltb (x y : Q) : bool := negb (Qle_bool y x).

(** [sum(xs)]: left-to-right accumulation starting from 0. *)
Definition sum (xs : list Q) : Q := fold_left Qplus xs 0.

(** [sorted(xs)] on numbers: a stable insertion sort. *)
Fixpoint insert (x : Q) (xs : list Q) : list Q :=
  match xs with
  | [] => [x]
  | y :: ys => if Qle_bool x y then x :: y :: ys else y :: insert x ys
  end.

Fixpoint sorted (xs : list Q) : list Q :=
  match xs with
  | [] => []
  | x :: xs' => insert x (sorted xs')
  end.

(** [sorted(xs, key=..., reverse=True)]: stable, largest key first. *)
Fixpoint insert_desc {A : Type} (key : A -> Q) (x : A) (xs : list A) : list A :=
  match xs with
  | [] => [x]
  | y :: ys =>
      if Qle_bool (key y) (key x) then x :: y :: ys
      else y :: insert_desc key x ys
  end.

Fixpoint sorted_desc {A : Type} (key : A -> Q) (xs : list A) : list A :=
  match xs with
  | [] => []
  | x :: xs' => insert_desc key x (sorted_desc key xs')
  end.

(** The order of such a list: the larger key first. *)
Definition descending {A : Type} (key : A -> Q) (a b : A) : Prop :=
  key b <= key a.

(** [needle in haystack] on strings. *)
Definition contains (needle haystack : string) : bool :=
  match String.index 0 needle haystack with
  | Some _ => true
  | None => false
  end.

(** [s.endswith(suffix)]. *)
Definition endswith (s suffix : string) : bool :=
  let n := String.length s in
  let k := String.length suffix in
  (k <=? n)%nat && String.eqb (String.substring (n - k) k s) suffix.

(** [xs[:n]] and [xs[-n:]] for [n >= 0]. *)
Definition take {A : Type} (n : nat) (xs : list A) : list A := firstn n xs.
Definition take_last {A : Type} (n : nat) (xs : list A) : list A :=
  skipn (List.length xs - n) xs.

(** [xs[-n:]] for any integer [n].  The slice starts at index [-n]: counted
    from the end when [n] is positive, and at [0 - n], from the start, when
    it is not, so [xs[-0:]] is the whole list. *)
Definition slice_from_minus {A : Type} (n : Z) (xs : list A) : list A :=
  if (0 <? n)%Z then skipn (List.length xs - Z.to_nat n) xs
  else skipn (Z.to_nat (- n)) xs.

(** [s.split(sep)] for a separator of one character: the words between
    the separators, [[""]] for the empty string. *)
Fixpoint split (sep : Ascii.ascii) (s : string) : list string :=
  match s with
  | EmptyString => [EmptyString]
  | String c rest =>
      if Ascii.eqb c sep then EmptyString :: split sep rest
      else match split sep rest with
           | [] => [String c EmptyString]
           | word :: words => String c word :: words
           end
  end.

(** [d.get(key, default)] on an optional field. *)
Definition get {A : Type} (field : option A) (default : A) : A :=
  match field with
  | Some v => v
  | None => default
  end.

End Py.

(** Trading direction, the three strings ["buy"], ["sell"], ["neutral"]. *)
Inductive Signal : Type := Buy | Sell | Neutral.

Definition Signal_eqb (a b : Signal) : bool :=
  match a, b with
  | Buy, Buy | Sell, Sell | Neutral, Neutral => true
  | _, _ => false
  end.

(** Confidence tier, the strings ["low"], ["medium"], ["high"]. *)
Inductive Confidence : Type := Low | Medium | High.

(** ** core/utils.py: the level merger *)

Module Utils.

(** One iteration of the loop of [merge_close_levels].  The state is the
    list [merged] (or [None] once the division by [merged[-1]] has raised
    ZeroDivisionError). *)
Definition merge_step (threshold : Q) (state : option (list Q)) (level : Q)
  : option (list Q) :=
  match state with
  | None => None
  | Some merged =>
      let prev := last merged 0 in
      if Qeq_bool prev 0 then None
      else if Qle_bool (Qabs (level - prev) / prev) threshold
           then Some (removelast merged ++ [(prev + level) / 2])
           else Some (merged ++ [level])
  end.

Definition merge_close_levels (levels : list Q) (threshold : Q)
  : option (list Q) :=
  match levels with
  | [] => Some []
  | _ =>
      match Py.sorted levels with
      | [] => Some []
      | first :: rest => fold_left (merge_step threshold) rest (Some [first])
      end
  end.

(** The list the loop of [merge_close_levels] produces from the current
    last kept level [m] and the levels still to be read, written as a
    structural recursion (used to reason about the loop). *)
Fixpoint merge_from (threshold m : Q) (rest : list Q) : option (list Q) :=
  match rest with
  | [] => Some [m]
  | level :: rest' =>
      if Qeq_bool m 0 then None
      else if Qle_bool (Qabs (level - m) / m) threshold
           then merge_from threshold ((m + level) / 2) rest'
           else option_map (cons m) (merge_from threshold level rest')
  end.

(** Two neighbouring output levels are separated when their distance,
    relative to the lower one, exceeds the tolerance. *)
Definition separated (threshold lo hi : Q) : Prop :=
  threshold < Qabs (hi - lo) / lo.

(** [calculate_pips]: a price difference in pips. *)
Definition calculate_pips (symbol : string) (price_difference : Q) : Q :=
  let pip_factor := 10000 in
  let pip_factor := if Py.endswith symbol "JPY" then 100 else pip_factor in
  price_difference * pip_factor.

(** [calculate_price_from_pips]: the price a number of pips away from a
    base price. *)
Definition calculate_price_from_pips (symbol : string) (pips base_price : Q)
  : Q :=
  let pip_factor := 10000 in
  let pip_factor := if Py.endswith symbol "JPY" then 100 else pip_factor in
  base_price + pips / pip_factor.


(** A ratio, or [float('inf')]. *)
Inductive Ratio : Type := Finite (ratio : Q) | Infinite.

Definition calculate_risk_reward_ratio (entry_price stop_loss take_profit : Q)
  : Ratio :=
  if Qeq_bool stop_loss entry_price then Finite 0
  else
    let '(risk, reward) :=
      if Py.Qltb entry_price take_profit
      then (Qabs (entry_price - stop_loss), Qabs (take_profit - entry_price))
      else (Qabs (entry_price - stop_loss), Qabs (entry_price - take_profit)) in
    if Qeq_bool risk 0 then Infinite else Finite (reward / risk).

(** [retry].  The wrapped function has effects: [func n] is what its
    call number [n] does (counting from 0), either returning a value or
    raising; [caught] tells whether the exception is an instance of
    [exceptions]. *)
Inductive Outcome (A : Type) : Type :=
  | Returns (value : A)
  | Raises (caught : bool).

Arguments Returns {A} value.
Arguments Raises {A} caught.

(** How a call of the wrapper ends: with the value of [func], with [None]
    when the loop is left without a call, or with the exception of the last
    call. *)
Inductive Completion (A : Type) : Type :=
  | Returned (value : option A)
  | Raised.

Arguments Returned {A} value.
Arguments Raised {A}.

(** A finished call of the wrapper: how it ended, how often [func] was
    called and the arguments of [time.sleep], in order. *)
Record Run (A : Type) : Type := mkRun {
  completion : Completion A;
  calls : nat;
  sleeps : list Q
}.

Arguments mkRun {A} completion calls sleeps.
Arguments completion {A} r.
Arguments calls {A} r.
Arguments sleeps {A} r.

(** The [while attempts < max_attempts] loop; [None] when [fuel] iterations
    do not finish it. *)
Fixpoint wrapper_loop {A : Type} (func : nat -> Outcome A) (max_attempts : Z)
    (backoff : Q) (fuel : nat) (attempts : Z) (called : nat)
    (current_delay : Q) (slept : list Q) : option (Run A) :=
  match fuel with
  | O => None
  | S fuel' =>
      if (attempts <? max_attempts)%Z
      then match func called with
           | Returns value => Some (mkRun (Returned (Some value)) (S called) slept)
           | Raises false => Some (mkRun Raised (S called) slept)
           | Raises true =>
               let attempts := (attempts + 1)%Z in
               if (attempts =? max_attempts)%Z
               then Some (mkRun Raised (S called) slept)
               else wrapper_loop func max_attempts backoff fuel' attempts
                                 (S called) (current_delay * backoff)
                                 (slept ++ [current_delay])
           end
      else Some (mkRun (Returned None) called slept)
  end.

(** The delays [delay], [delay * backoff], [delay * backoff * backoff],
    ..., [n] of them. *)
Fixpoint delays (delay backoff : Q) (n : nat) : list Q :=
  match n with
  | O => []
  | S n' => delay :: delays (delay * backoff) backoff n'
  end.

(** One call of [retry(func, max_attempts, delay, backoff)(...)]. *)
Definition retry {A : Type} (func : nat -> Outcome A) (max_attempts : Z)
    (delay backoff : Q) : option (Run A) :=
  wrapper_loop func max_attempts backoff (S (Z.to_nat max_attempts))
               0%Z 0%nat delay [].

End Utils.

(** ** Python dictionaries keyed by strings, kept in insertion order *)

Module Dict.

Definition t (A : Type) : Type := list (string * A).

Fixpoint lookup {A : Type} (key : string) (d : t A) : option A :=
  match d with
  | [] => None
  | (k, v) :: d' => if String.eqb key k then Some v else lookup key d'
  end.

(** [key in d] *)
Definition mem {A : Type} (key : string) (d : t A) : bool :=
  match lookup key d with
  | Some _ => true
  | None => false
  end.

Definition keys {A : Type} (d : t A) : list string := map fst d.
Definition values {A : Type} (d : t A) : list A := map snd d.

(** [d[key] = v]: an existing key keeps its place, a new key goes last. *)
Fixpoint set {A : Type} (key : string) (v : A) (d : t A) : t A :=
  match d with
  | [] => [(key, v)]
  | (k, x) :: d' =>
      if String.eqb key k then (k, v) :: d' else (k, x) :: set key v d'
  end.

End Dict.

(** Failure of a computation (a raised exception) is [None]. *)
Definition bind {A B : Type} (o : option A) (f : A -> option B) : option B :=
  match o with
  | Some a => f a
  | None => None
  end.

Notation "'do' x <- e ; k" := (bind e (fun x => k))
  (at level 10, x name, e at level 100, k at level 200).

(** Trend labels of the price-action detector. *)
Inductive Trend : Type := Bullish | Bearish | Sideways.

(** ** What the engine reads from a detector's result dictionary.
    A key that is absent (as in the [{"error": ...}] result) is [None]. *)

Module DetectorResult.

Record t : Type := mk {
  signal : option Signal;
  strength : option Q;
  support_levels : option (list Q);
  resistance_levels : option (list Q);
  patterns : option (list string);
  trend : option Trend;
  trend_strength : option Q;
  last_price : option Q;
  atr : option Q
}.

(** The dictionary [{"error": msg}]. *)
Definition error : t := mk None None None None None None None None None.

(** A result that carries a signal and a strength and no levels or
    patterns. *)
Definition verdict (s : Signal) (strength : Q) : t :=
  mk (Some s) (Some strength) (Some []) (Some []) (Some []) None None None None.

End DetectorResult.

(** The per-timeframe verdict built by [_create_timeframe_summary]. *)
Module TimeframeSummary.

Record t : Type := mk {
  signal : Signal;
  confidence : Confidence;
  strength : Q;
  buy_signals : nat;
  sell_signals : nat;
  support_levels : list Q;
  resistance_levels : list Q;
  key_patterns : list string
}.

End TimeframeSummary.

(** The cross-timeframe verdict built by [_create_summary]. *)
Module Summary.

Record t : Type := mk {
  signal : Signal;
  confidence : Confidence;
  strength : Q;
  success_probability : Q;
  buy_weight : Q;
  sell_weight : Q;
  news_impact : Q;
  nearest_support : option Q;
  nearest_resistance : option Q;
  key_timeframes : list string
}.

End Summary.

(** ** analysis/analysis_engine.py *)

Module AnalysisEngine.

(** [timeframe_results]: the three detectors' results for one timeframe. *)
Record TimeframeResults : Type := mkTimeframeResults {
  ict : DetectorResult.t;
  smc : DetectorResult.t;
  price_action : DetectorResult.t
}.

(** An entry of [results["timeframes"]]. *)
Record TimeframeData : Type := mkTimeframeData {
  data_points : nat;
  analysis : option TimeframeResults;
  summary : option TimeframeSummary.t
}.

(** The part of [results] that the summary functions read.  [news] is
    [results["news"]]; its field is the ["impact"] key, absent in an error
    result.  [latest_close tf] is the last close the data manager holds for
    the timeframe ([None] when its frame is empty). *)
Record Results : Type := mkResults {
  symbol : string;
  timeframes : Dict.t TimeframeData;
  news : option (option Q);
  latest_close : string -> option Q
}.

Definition merge_step (threshold : Q) (state : option (list Q)) (level : Q)
  : option (list Q) :=
  match state with
  | None => None
  | Some merged =>
      let prev := last merged 0 in
      if Qeq_bool prev 0 then None
      else if Qle_bool (Qabs (level - prev) / prev) threshold
           then Some (removelast merged ++ [(prev + level) / 2])
           else Some (merged ++ [level])
  end.

Definition _merge_levels (levels : list Q) (threshold : Q) : option (list Q) :=
  match levels with
  | [] => Some []
  | _ =>
      match Py.sorted levels with
      | [] => Some []
      | first :: rest => fold_left (merge_step threshold) rest (Some [first])
      end
  end.

(** The default value of the [threshold] parameter. *)
Definition default_threshold : Q := 0.0005.

Definition _extract_key_patterns (r : TimeframeResults) : list string :=
  map (String.append "ICT: ") (Py.get (DetectorResult.patterns (ict r)) [])
  ++ map (String.append "SMC: ") (Py.get (DetectorResult.patterns (smc r)) [])
  ++ map (String.append "PA: ")
         (Py.get (DetectorResult.patterns (price_action r)) []).

(** [sum(1 for signal in signals if signal == s)] *)
Definition count_signal (s : Signal) (signals : list Signal) : nat :=
  List.length (filter (Signal_eqb s) signals).

Definition _create_timeframe_summary (r : TimeframeResults)
  : option TimeframeSummary.t :=
  let ict_signal := Py.get (DetectorResult.signal (ict r)) Neutral in
  let smc_signal := Py.get (DetectorResult.signal (smc r)) Neutral in
  let pa_signal := Py.get (DetectorResult.signal (price_action r)) Neutral in
  let buy_count := count_signal Buy [ict_signal; smc_signal; pa_signal] in
  let sell_count := count_signal Sell [ict_signal; smc_signal; pa_signal] in
  let final_signal :=
    if (sell_count <? buy_count)%nat then Buy
    else if (buy_count <? sell_count)%nat then Sell
    else Neutral in
  let confidence :=
    if (buy_count =? 3)%nat || (sell_count =? 3)%nat then High
    else if (buy_count =? 2)%nat || (sell_count =? 2)%nat then Medium
    else Low in
  let ict_strength := Py.get (DetectorResult.strength (ict r)) 0 in
  let smc_strength := Py.get (DetectorResult.strength (smc r)) 0 in
  let pa_strength := Py.get (DetectorResult.strength (price_action r)) 0 in
  let avg_strength := (ict_strength + smc_strength + pa_strength) / 3 in
  let support_levels :=
    Py.get (DetectorResult.support_levels (ict r)) []
    ++ Py.get (DetectorResult.support_levels (smc r)) []
    ++ Py.get (DetectorResult.support_levels (price_action r)) [] in
  let resistance_levels :=
    Py.get (DetectorResult.resistance_levels (ict r)) []
    ++ Py.get (DetectorResult.resistance_levels (smc r)) []
    ++ Py.get (DetectorResult.resistance_levels (price_action r)) [] in
  do support_levels <- _merge_levels support_levels default_threshold;
  do resistance_levels <- _merge_levels resistance_levels default_threshold;
  Some (TimeframeSummary.mk final_signal confidence avg_strength
          buy_count sell_count support_levels resistance_levels
          (_extract_key_patterns r)).

(** The prior weight of each known timeframe. *)
Definition timeframe_weights : Dict.t Q :=
  [("M5", 0.05); ("M15", 0.10); ("H1", 0.20); ("H4", 0.30); ("D1", 0.35)]%string.

(** [sum(timeframe_weights.get(tf, 0.0) for tf in results["timeframes"].keys())] *)
Definition total_weight (present : list string) : Q :=
  Py.sum (map (fun tf => Py.get (Dict.lookup tf timeframe_weights) 0) present).

(** The weight table after the renormalisation loop: the entry of every
    timeframe that is present is divided by the total, when the total is
    positive. *)
Definition normalized_weights (present : list string) : Dict.t Q :=
  let total := total_weight present in
  if Py.Qltb 0 total
  then map (fun '(tf, w) =>
              if existsb (String.eqb tf) present then (tf, w / total)
              else (tf, w))
           timeframe_weights
  else timeframe_weights.

(** The loop that accumulates the weight of the timeframes voting buy
    and of those voting sell. *)
Definition accumulate_weights (weights : Dict.t Q)
    (tfs : Dict.t TimeframeData) : Q * Q :=
  fold_left
    (fun '(buy_weight, sell_weight) '(tf, tf_data) =>
       match summary tf_data with
       | Some s =>
           let tf_weight := Py.get (Dict.lookup tf weights) 0 in
           match TimeframeSummary.signal s with
           | Buy => (buy_weight + tf_weight, sell_weight)
           | Sell => (buy_weight, sell_weight + tf_weight)
           | Neutral => (buy_weight, sell_weight)
           end
       | None => (buy_weight, sell_weight)
       end)
    tfs (0, 0).

(** The sentiment step: a positive impact raises the buy weight, a
    negative one the sell weight. *)
Definition add_news_impact (weights : Q * Q) (news_impact : Q) : Q * Q :=
  let '(buy_weight, sell_weight) := weights in
  if Py.Qltb 0 news_impact
  then (buy_weight + 0.1 * Qmin news_impact 1.0, sell_weight)
  else if Py.Qltb news_impact 0
       then (buy_weight, sell_weight + 0.1 * Qmin (Qabs news_impact) 1.0)
       else (buy_weight, sell_weight).

(** [max(xs)] and [min(xs)] of a non-empty list. *)
Definition max_of (x : Q) (xs : list Q) : Q := fold_left Qmax xs x.
Definition min_of (x : Q) (xs : list Q) : Q := fold_left Qmin xs x.

Definition nearest_below (levels : list Q) (price : Q) : option Q :=
  match filter (fun s => Py.Qltb s price) levels with
  | [] => None
  | s :: below => Some (max_of s below)
  end.

Definition nearest_above (levels : list Q) (price : Q) : option Q :=
  match filter (fun r => Py.Qltb price r) levels with
  | [] => None
  | r :: above => Some (min_of r above)
  end.

(** The first timeframe of the search order that is present and has
    data gives the current price. *)
Fixpoint current_price (results : Results) (order : list string) : option Q :=
  match order with
  | [] => None
  | tf :: order' =>
      if Dict.mem tf (timeframes results)
      then match latest_close results tf with
           | Some close => Some close
           | None => current_price results order'
           end
      else current_price results order'
  end.

Definition all_levels (pick : TimeframeSummary.t -> list Q)
    (tfs : Dict.t TimeframeData) : list Q :=
  flat_map (fun tf_data =>
              match summary tf_data with
              | Some s => pick s
              | None => []
              end)
           (Dict.values tfs).

Definition _find_nearest_levels (results : Results) : option Q * option Q :=
  match current_price results ["H1"; "M15"; "M5"; "H4"; "D1"]%string with
  | None => (None, None)
  | Some price =>
      let all_supports :=
        all_levels TimeframeSummary.support_levels (timeframes results) in
      let all_resistances :=
        all_levels TimeframeSummary.resistance_levels (timeframes results) in
      (nearest_below all_supports price, nearest_above all_resistances price)
  end.

Definition _identify_key_timeframes (results : Results) : list string :=
  flat_map (fun '(tf, tf_data) =>
              match summary tf_data with
              | Some s =>
                  match TimeframeSummary.signal s, TimeframeSummary.confidence s with
                  | Neutral, _ => []
                  | _, Low => []
                  | _, _ => [tf]
                  end
              | None => []
              end)
           (timeframes results).

(** The price-action result of the first of D1, H4 that is present and
    carries an analysis; the loop stops there. *)
Fixpoint higher_timeframe_price_action (tfs : Dict.t TimeframeData)
    (order : list string) : option DetectorResult.t :=
  match order with
  | [] => None
  | tf :: order' =>
      match Dict.lookup tf tfs with
      | Some tf_data =>
          match analysis tf_data with
          | Some a => Some (price_action a)
          | None => higher_timeframe_price_action tfs order'
          end
      | None => higher_timeframe_price_action tfs order'
      end
  end.

Definition _calculate_success_probability (results : Results)
    (signal : Signal) (signal_strength : Q) : Q :=
  let base_probability := signal_strength in
  let timeframe_confirmations :=
    List.length
      (filter (fun tf_data =>
                 match summary tf_data with
                 | Some s => Signal_eqb (TimeframeSummary.signal s) signal
                 | None => false
                 end)
              (Dict.values (timeframes results))) in
  let confirmation_bonus :=
    Qmin (inject_Z (Z.of_nat timeframe_confirmations) * 5) 20 in
  let news_correction :=
    match news results with
    | Some impact =>
        let news_impact := Py.get impact 0 in
        if (Signal_eqb signal Buy && Py.Qltb 0 news_impact)
           || (Signal_eqb signal Sell && Py.Qltb news_impact 0)
        then Qmin (Qabs news_impact * 10) 10
        else if (Signal_eqb signal Buy && Py.Qltb news_impact 0)
                || (Signal_eqb signal Sell && Py.Qltb 0 news_impact)
             then - Qmin (Qabs news_impact * 10) 15
             else 0
    | None => 0
    end in
  let trend_correction :=
    match higher_timeframe_price_action (timeframes results)
            ["D1"; "H4"]%string with
    | Some pa_data =>
        let trend := Py.get (DetectorResult.trend pa_data) Sideways in
        let trend_strength := Py.get (DetectorResult.trend_strength pa_data) 0 in
        match signal, trend with
        | Buy, Bullish | Sell, Bearish => Qmin (trend_strength * 0.15) 15
        | Buy, Bearish | Sell, Bullish => - Qmin (trend_strength * 0.2) 20
        | _, _ => 0
        end
    | None => 0
    end in
  let total_probability :=
    base_probability + confirmation_bonus + news_correction + trend_correction in
  Qmax 0 (Qmin total_probability 100).

Definition _create_summary (results : Results) : Summary.t :=
  let weights := normalized_weights (Dict.keys (timeframes results)) in
  let news_impact :=
    match news results with
    | Some (Some impact) => impact
    | _ => 0.0
    end in
  let '(buy_weight, sell_weight) :=
    add_news_impact (accumulate_weights weights (timeframes results))
                    news_impact in
  let '(final_signal, signal_strength) :=
    if Py.Qltb (sell_weight + 0.1) buy_weight then (Buy, buy_weight)
    else if Py.Qltb (buy_weight + 0.1) sell_weight then (Sell, sell_weight)
    else (Neutral, Qmax buy_weight sell_weight) in
  let signal_strength := Qmin (signal_strength * 100) 100 in
  let confidence :=
    if Py.Qltb 70 signal_strength then High
    else if Py.Qltb 40 signal_strength then Medium
    else Low in
  let '(nearest_support, nearest_resistance) := _find_nearest_levels results in
  let success_probability :=
    _calculate_success_probability results final_signal signal_strength in
  Summary.mk final_signal confidence signal_strength success_probability
             (buy_weight * 100) (sell_weight * 100) news_impact
             nearest_support nearest_resistance
             (_identify_key_timeframes results).

(** No timeframe of the results votes for [direction]. *)
Definition no_vote (direction : Signal) (tfs : Dict.t TimeframeData) : Prop :=
  forall tf tf_data s,
    In (tf, tf_data) tfs -> summary tf_data = Some s ->
    TimeframeSummary.signal s <> direction.

End AnalysisEngine.

(** ** Bar series

    A data frame of OHLC bars in time order.  The timestamp and the volume
    of a bar are never read by the detectors and are left out. *)

Record Bar : Type := mkBar { open : Q; high : Q; low : Q; close : Q }.

Definition DataFrame : Type := list Bar.

(** A bar with positive prices whose low and high enclose its open and
    close; a frame of such bars is what the data feed delivers. *)
Definition ohlc_ok (bar : Bar) : bool :=
  Py.Qltb 0 (low bar)
  && Qle_bool (low bar) (open bar) && Qle_bool (low bar) (close bar)
  && Qle_bool (open bar) (high bar) && Qle_bool (close bar) (high bar).

Definition well_formed (df : DataFrame) : bool := forallb ohlc_ok df.

(** [df.iloc[i]] for an index inside the frame. *)
Definition iloc (df : DataFrame) (i : nat) : Bar := nth i df (mkBar 0 0 0 0).

(** [df.iloc[-k]] for [1 <= k <= len(df)]. *)
Definition iloc_back (df : DataFrame) (k : nat) : Bar :=
  iloc df (List.length df - k).

(** [range(a, b)] *)
Definition range (a b : nat) : list nat := seq a (b - a).

(** [np.mean(df['high'] - df['low'])] *)
Definition mean_range (df : DataFrame) : Q :=
  Py.sum (map (fun bar => high bar - low bar) df)
  / inject_Z (Z.of_nat (List.length df)).

(** A price region with a strength: order block, breaker block or
    fair-value gap.  The fields that nothing reads afterwards (datetime,
    gap size, the kind of structure break) are left out. *)
Record Zone : Type := mkZone {
  top : Q;
  bottom : Q;
  zone_index : nat;
  zone_strength : Q
}.

Record Zones : Type := mkZones { bullish : list Zone; bearish : list Zone }.

(** ** core/utils.py: indicators over a bar series *)

Module Indicators.

(** [delta = df['close'].diff()] at row [i]; row 0 holds NaN, which
    neither [delta > 0] nor [delta < 0] accepts. *)
Definition delta (df : DataFrame) (i : nat) : option Q :=
  if (0 <? i)%nat then Some (close (iloc df i) - close (iloc df (i - 1)))
  else None.

(** [gain = delta.where(delta > 0, 0)] at row [i]. *)
Definition gain (df : DataFrame) (i : nat) : Q :=
  match delta df i with
  | Some d => if Py.Qltb 0 d then d else 0
  | None => 0
  end.

(** [loss = -delta.where(delta < 0, 0)] at row [i]. *)
Definition loss (df : DataFrame) (i : nat) : Q :=
  match delta df i with
  | Some d => if Py.Qltb d 0 then - d else - 0
  | None => - 0
  end.

(** [series.rolling(window=period).mean().iloc[-1]] for a series without
    NaN, [1 <= period <= len(df)]: the mean of the last [period] rows. *)
Definition rolling_mean_last (series : nat -> Q) (len period : nat) : Q :=
  Py.sum (map series (range (len - period) len))
  / inject_Z (Z.of_nat period).

(** [calculate_rsi], for a period of at least 1. *)
Definition calculate_rsi (df : DataFrame) (period : nat) : Q :=
  if (List.length df <? period + 1)%nat then 50
  else
    let avg_gain := rolling_mean_last (gain df) (List.length df) period in
    let avg_loss := rolling_mean_last (loss df) (List.length df) period in
    if Qeq_bool avg_loss 0 then 100
    else
      let rs := avg_gain / avg_loss in
      100 - 100 / (1 + rs).

End Indicators.

(** ** analysis/ict_strategy.py *)

Module ICTStrategy.

Inductive LevelType : Type := swing_high | swing_low.

Record Level : Type := mkLevel {
  price : Q;
  index : nat;
  type : LevelType;
  equal_points : nat;
  strength : Q
}.

Record LiquidityLevels : Type := mkLiquidityLevels {
  buy_side : list Level;
  sell_side : list Level
}.

(** The swing tests on bar [i]: strictly above (below) the two bars on
    either side. *)
Definition is_swing_high (df : DataFrame) (i : nat) : bool :=
  Py.Qltb (high (iloc df (i - 1))) (high (iloc df i))
  && Py.Qltb (high (iloc df (i - 2))) (high (iloc df i))
  && Py.Qltb (high (iloc df (i + 1))) (high (iloc df i))
  && Py.Qltb (high (iloc df (i + 2))) (high (iloc df i)).

Definition is_swing_low (df : DataFrame) (i : nat) : bool :=
  Py.Qltb (low (iloc df i)) (low (iloc df (i - 1)))
  && Py.Qltb (low (iloc df i)) (low (iloc df (i - 2)))
  && Py.Qltb (low (iloc df i)) (low (iloc df (i + 1)))
  && Py.Qltb (low (iloc df i)) (low (iloc df (i + 2))).

(** The bars among the 50 before [i] whose value is within 0.1% of
    bar [i]'s. *)
Definition equal_bars (field : Bar -> Q) (df : DataFrame) (i : nat) : list nat :=
  let base := field (iloc df i) in
  filter (fun j => Py.Qltb (Qabs (field (iloc df j) - base) / base) 0.001)
         (range (i - 50) i).

Definition liquidity_level (field : Bar -> Q) (kind : LevelType)
    (df : DataFrame) (i : nat) : Level :=
  let n := List.length (equal_bars field df i) in
  mkLevel (field (iloc df i)) i kind n (1 + inject_Z (Z.of_nat n) * 0.2).

Definition _find_liquidity_levels (df : DataFrame) : LiquidityLevels :=
  if (List.length df <? 30)%nat then mkLiquidityLevels [] []
  else
    let bars := range 5 (List.length df - 5) in
    let sell :=
      flat_map (fun i => if is_swing_high df i
                         then [liquidity_level high swing_high df i] else [])
               bars in
    let buy :=
      flat_map (fun i => if is_swing_low df i
                         then [liquidity_level low swing_low df i] else [])
               bars in
    mkLiquidityLevels (Py.take 5 (Py.sorted_desc strength buy))
                      (Py.take 5 (Py.sorted_desc strength sell)).

Definition is_green (bar : Bar) : bool := Py.Qltb (open bar) (close bar).
Definition is_red (bar : Bar) : bool := Py.Qltb (close bar) (open bar).
Definition bar_range (bar : Bar) : Q := high bar - low bar.

(** The inner loop with [break]: the first index of the range that passes
    the test. *)
Definition first_index (test : nat -> bool) (a b : nat) : option nat :=
  find test (range a b).

Definition _find_order_blocks (df : DataFrame) : Zones :=
  if (List.length df <? 20)%nat then mkZones [] []
  else
    let avg_range := mean_range df in
    let strong_move_threshold := 2 * avg_range in
    let moves := range 3 (List.length df - 1) in
    let bearish_blocks :=
      flat_map
        (fun i =>
           let bar := iloc df i in
           if is_green bar && Py.Qltb strong_move_threshold (bar_range bar)
           then match first_index
                        (fun j => is_red (iloc df j)
                                  && Py.Qltb (low (iloc df j)) (low bar))
                        (i - 3) i with
                | Some j => [mkZone (open (iloc df j)) (close (iloc df j)) j
                                    (bar_range bar / avg_range)]
                | None => []
                end
           else [])
        moves in
    let bullish_blocks :=
      flat_map
        (fun i =>
           let bar := iloc df i in
           if is_green bar && Py.Qltb strong_move_threshold (bar_range bar)
           then []
           else if is_red bar && Py.Qltb strong_move_threshold (bar_range bar)
           then match first_index
                        (fun j => is_green (iloc df j)
                                  && Py.Qltb (high bar) (high (iloc df j)))
                        (i - 3) i with
                | Some j => [mkZone (close (iloc df j)) (open (iloc df j)) j
                                    (bar_range bar / avg_range)]
                | None => []
                end
           else [])
        moves in
    mkZones (Py.take 3 (Py.sorted_desc zone_strength bullish_blocks))
            (Py.take 3 (Py.sorted_desc zone_strength bearish_blocks)).

(** Swing points as pairs (index, value). *)
Definition swings (test : DataFrame -> nat -> bool) (field : Bar -> Q)
    (df : DataFrame) : list (nat * Q) :=
  flat_map (fun i => if test df i then [(i, field (iloc df i))] else [])
           (range 5 (List.length df - 5)).

(** Consecutive pairs [(xs[i-1], xs[i])] for [i] from 1. *)
Fixpoint consecutive {A : Type} (xs : list A) : list (A * A) :=
  match xs with
  | x :: ((y :: _) as rest) => (x, y) :: consecutive rest
  | _ => []
  end.

Definition _find_breaker_blocks (df : DataFrame) : Zones :=
  if (List.length df <? 50)%nat then mkZones [] []
  else
    let highs := swings is_swing_high high df in
    let lows := swings is_swing_low low df in
    let bullish_blocks :=
      flat_map
        (fun '((_, prev), (start_idx, cur)) =>
           if Py.Qltb cur prev
           then let end_idx := Nat.min (start_idx + 20) (List.length df - 1) in
                match first_index (fun j => is_green (iloc df j))
                                  start_idx end_idx with
                | Some j => [mkZone (close (iloc df j)) (open (iloc df j)) j
                                    (1 + (prev - cur) / prev)]
                | None => []
                end
           else [])
        (consecutive highs) in
    let bearish_blocks :=
      flat_map
        (fun '((_, prev), (start_idx, cur)) =>
           if Py.Qltb prev cur
           then let end_idx := Nat.min (start_idx + 20) (List.length df - 1) in
                match first_index (fun j => is_red (iloc df j))
                                  start_idx end_idx with
                | Some j => [mkZone (open (iloc df j)) (close (iloc df j)) j
                                    (1 + (cur - prev) / prev)]
                | None => []
                end
           else [])
        (consecutive lows) in
    mkZones (Py.sorted_desc zone_strength bullish_blocks)
            (Py.sorted_desc zone_strength bearish_blocks).

Definition _find_fair_value_gaps (df : DataFrame) : Zones :=
  if (List.length df <? 10)%nat then mkZones [] []
  else
    let avg_range := mean_range df in
    let min_gap_size := 0.3 * avg_range in
    let middles := range 1 (List.length df - 1) in
    let bullish_gaps :=
      flat_map
        (fun i =>
           let before := high (iloc df (i - 1)) in
           let after := low (iloc df (i + 1)) in
           if Py.Qltb before after && Py.Qltb min_gap_size (after - before)
           then [mkZone after before i ((after - before) / avg_range)]
           else [])
        middles in
    let bearish_gaps :=
      flat_map
        (fun i =>
           let before := low (iloc df (i - 1)) in
           let after := high (iloc df (i + 1)) in
           if Py.Qltb after before && Py.Qltb min_gap_size (before - after)
           then [mkZone before after i ((before - after) / avg_range)]
           else [])
        middles in
    mkZones (Py.take 3 (Py.sorted_desc zone_strength bullish_gaps))
            (Py.take 3 (Py.sorted_desc zone_strength bearish_gaps)).

(** [df['close'].iloc[-1]] *)
Definition last_close (df : DataFrame) : Q := close (iloc_back df 1).

(** [list(set(patterns))]: duplicates removed (the order Python gives the
    result is unspecified and nothing downstream depends on it). *)
Definition unique (patterns : list string) : list string :=
  nodup string_dec patterns.

(** One tag per element of [outer] that has a partner in [inner]. *)
Definition tag_each {A B : Type} (tag : string) (test : A -> B -> bool)
    (outer : list A) (inner : list B) : list string :=
  flat_map (fun x => if existsb (test x) inner then [tag] else []) outer.

(** One tag if some element passes, the loop breaking at the first. *)
Definition tag_once {A : Type} (tag : string) (test : A -> bool)
    (xs : list A) : list string :=
  if existsb test xs then [tag] else [].

Definition overlaps (gap block : Zone) : bool :=
  Qle_bool (bottom gap) (top block) && Qle_bool (bottom block) (top gap).

Definition _identify_ict_patterns (df : DataFrame)
    (liquidity_levels : LiquidityLevels) (order_blocks fair_value_gaps : Zones)
  : list string :=
  let last_price := last_close df in
  let sweep :=
    match buy_side liquidity_levels with
    | [] => []
    | _ =>
        if (100 <? List.length df)%nat
        then
          let recent_liquidity :=
            filter (fun level => (List.length df - 60 <? index level)%nat)
                   (buy_side liquidity_levels) in
          match map (fun '(l1, l2) => Qabs (price l1 - price l2))
                    (consecutive recent_liquidity) with
          | [] => []
          | r :: ranges =>
              if Py.Qltb (AnalysisEngine.min_of r ranges) (0.5 * mean_range df)
              then ["Liquidity Sweep Pattern (Buy Side)"%string] else []
          end
        else []
    end in
  let ipda :=
    match bullish order_blocks with
    | b1 :: ((_ :: _) as others) =>
        let range_size :=
          AnalysisEngine.max_of (top b1) (map top others)
          - AnalysisEngine.min_of (bottom b1) (map bottom others) in
        if Py.Qltb range_size (2 * mean_range df)
        then ["Internal Price Delivery Area (Bullish)"%string] else []
    | _ => []
    end in
  unique
    (sweep ++ ipda
     ++ tag_each "Bullish Order Block with Fair Value Gap" overlaps
          (bullish fair_value_gaps) (bullish order_blocks)
     ++ tag_each "Bearish Order Block with Fair Value Gap" overlaps
          (bearish fair_value_gaps) (bearish order_blocks)
     ++ tag_each "Bullish Order Block at Buy Side Liquidity"
          (fun level block =>
             Py.Qltb (Qabs (price level - bottom block) / price level) 0.002)
          (buy_side liquidity_levels) (bullish order_blocks)
     ++ tag_each "Bearish Order Block at Sell Side Liquidity"
          (fun level block =>
             Py.Qltb (Qabs (price level - top block) / price level) 0.002)
          (sell_side liquidity_levels) (bearish order_blocks)
     ++ tag_once "Price Approaching Bullish Fair Value Gap"
          (fun gap =>
             Py.Qltb last_price (bottom gap)
             && Py.Qltb ((bottom gap - last_price) / last_price) 0.005)
          (bullish fair_value_gaps)
     ++ tag_once "Price Approaching Bearish Fair Value Gap"
          (fun gap =>
             Py.Qltb (top gap) last_price
             && Py.Qltb ((last_price - top gap) / last_price) 0.005)
          (bearish fair_value_gaps)).

(** The private copy of the level merger, with its default threshold. *)
Definition _merge_levels (levels : list Q) : option (list Q) :=
  AnalysisEngine._merge_levels levels 0.0005.

(** Support and resistance.  When a merge raises, the handler returns the
    lists as they stand at that point. *)
Definition _find_support_resistance (df : DataFrame)
    (liquidity_levels : LiquidityLevels) (order_blocks : Zones)
  : list Q * list Q :=
  let last_price := last_close df in
  let support :=
    map price (filter (fun level => Py.Qltb (price level) last_price)
                      (buy_side liquidity_levels))
    ++ flat_map (fun block => if Py.Qltb (top block) last_price
                              then [top block; bottom block] else [])
                (bullish order_blocks) in
  let resistance :=
    map price (filter (fun level => Py.Qltb last_price (price level))
                      (sell_side liquidity_levels))
    ++ flat_map (fun block => if Py.Qltb last_price (bottom block)
                              then [top block; bottom block] else [])
                (bearish order_blocks) in
  match _merge_levels support with
  | None => (support, resistance)
  | Some support' =>
      match _merge_levels resistance with
      | None => (support', resistance)
      | Some resistance' => (support', resistance')
      end
  end.

(** The result dictionary of a successful analysis. *)
Record Analysis : Type := mkAnalysis {
  liquidity_levels : LiquidityLevels;
  order_blocks : Zones;
  breaker_blocks : Zones;
  fair_value_gaps : Zones;
  patterns : list string;
  support_levels : list Q;
  resistance_levels : list Q;
  signal : Signal;
  signal_strength : Q
}.

(** The points one list of structures adds to a score. *)
Definition points {A : Type} (score : A -> Q) (xs : list A) : Q :=
  fold_left (fun acc x => acc + score x) xs 0.

(** The final step shared by the point systems: a side wins when it leads
    by more than [margin]. *)
Definition decide (margin buy_score sell_score neutral_strength : Q)
  : Signal * Q :=
  if Py.Qltb (sell_score + margin) buy_score
  then (Buy, Qmin 100 (buy_score * 10))
  else if Py.Qltb (buy_score + margin) sell_score
       then (Sell, Qmin 100 (sell_score * 10))
       else (Neutral, neutral_strength).

Definition liquidity_points (diff_pct : Q) (level : Level) : Q :=
  if Py.Qltb (-0.005) diff_pct && Py.Qltb diff_pct 0.002
  then 2 * strength level
  else if Qle_bool 0.002 diff_pct && Py.Qltb diff_pct 0.01
       then 1 * strength level
       else 0.

Definition inside (price : Q) (zone : Zone) : bool :=
  Qle_bool (bottom zone) price && Qle_bool price (top zone).

Definition pattern_points (bullish_words bearish_words : list string)
    (value : Q) (patterns : list string) : Q * Q :=
  fold_left
    (fun '(buy_score, sell_score) pattern =>
       if existsb (fun w => Py.contains w pattern) bullish_words
       then (buy_score + value, sell_score)
       else if existsb (fun w => Py.contains w pattern) bearish_words
            then (buy_score, sell_score + value)
            else (buy_score, sell_score))
    patterns (0, 0).

Definition _generate_signal (df : DataFrame)
    (liquidity_levels : LiquidityLevels)
    (order_blocks fair_value_gaps : Zones) (patterns : list string)
  : Signal * Q :=
  let last_price := last_close df in
  let buy_liquidity :=
    points (fun level =>
              liquidity_points ((last_price - price level) / last_price) level)
           (buy_side liquidity_levels) in
  let sell_liquidity :=
    points (fun level =>
              liquidity_points ((price level - last_price) / last_price) level)
           (sell_side liquidity_levels) in
  let buy_blocks :=
    points (fun block =>
              if inside last_price block then 3 * zone_strength block
              else if Py.Qltb 0 ((last_price - top block) / last_price)
                      && Py.Qltb ((last_price - top block) / last_price) 0.005
                   then 1.5 * zone_strength block
                   else 0)
           (bullish order_blocks) in
  let sell_blocks :=
    points (fun block =>
              if inside last_price block then 3 * zone_strength block
              else if Py.Qltb 0 ((bottom block - last_price) / last_price)
                      && Py.Qltb ((bottom block - last_price) / last_price) 0.005
                   then 1.5 * zone_strength block
                   else 0)
           (bearish order_blocks) in
  let buy_gaps :=
    points (fun gap =>
              if Py.Qltb last_price (bottom gap)
                 && Py.Qltb ((bottom gap - last_price) / last_price) 0.005
              then 2 * zone_strength gap
              else if inside last_price gap then 1 * zone_strength gap
                   else 0)
           (bullish fair_value_gaps) in
  let sell_gaps :=
    points (fun gap =>
              if Py.Qltb (top gap) last_price
                 && Py.Qltb ((last_price - top gap) / last_price) 0.005
              then 2 * zone_strength gap
              else if inside last_price gap then 1 * zone_strength gap
                   else 0)
           (bearish fair_value_gaps) in
  let '(buy_patterns, sell_patterns) :=
    pattern_points ["Bullish"%string] ["Bearish"%string] 2 patterns in
  let buy_score := buy_liquidity + buy_blocks + buy_gaps + buy_patterns in
  let sell_score := sell_liquidity + sell_blocks + sell_gaps + sell_patterns in
  decide 2 buy_score sell_score 0.

(** [analyze]: the frame is what the data manager returns for the symbol
    and timeframe.  [None] is the dictionary [{"error": ...}]. *)
Definition analyze (df : DataFrame) : option Analysis :=
  match df with
  | [] => None
  | _ =>
      let liquidity_levels := _find_liquidity_levels df in
      let order_blocks := _find_order_blocks df in
      let breaker_blocks := _find_breaker_blocks df in
      let fair_value_gaps := _find_fair_value_gaps df in
      let patterns :=
        _identify_ict_patterns df liquidity_levels order_blocks fair_value_gaps in
      let '(support, resistance) :=
        _find_support_resistance df liquidity_levels order_blocks in
      let '(signal, strength) :=
        _generate_signal df liquidity_levels order_blocks fair_value_gaps
                         patterns in
      Some (mkAnalysis liquidity_levels order_blocks breaker_blocks
                       fair_value_gaps patterns support resistance
                       signal strength)
  end.

(** The analysis with every structure list empty, a neutral signal and
    zero strength. *)
Definition empty_analysis : Analysis :=
  mkAnalysis (mkLiquidityLevels [] []) (mkZones [] []) (mkZones [] [])
             (mkZones [] []) [] [] [] Neutral 0.

(** The keys of the result that the engine reads. *)
Definition result (df : DataFrame) : DetectorResult.t :=
  match analyze df with
  | None => DetectorResult.error
  | Some a =>
      DetectorResult.mk (Some (signal a)) (Some (signal_strength a))
                        (Some (support_levels a)) (Some (resistance_levels a))
                        (Some (patterns a)) None None None None
  end.

End ICTStrategy.

(** The term [add_news_impact] adds to a weight: a tenth of the impact's
    magnitude, the magnitude being capped at 1. *)
Definition sentiment_increment (impact : Q) : Q := 0.1 * Qmin (Qabs impact) 1.0.

(** ** analysis/smc_strategy.py: the point system *)

Module SMCStrategy.

Inductive StructureTrend : Type := uptrend | downtrend | sideways_trend.

(** [current_phase]; any other string scores nothing. *)
Inductive Phase : Type :=
  accumulation | distribution | markup | markdown | other_phase.

Record MarketStructure : Type := mkMarketStructure {
  trend : StructureTrend;
  current_phase : Phase
}.

(** A premium or discount area; [area_type] names the trend it was
    measured in. *)
Record Area : Type := mkArea {
  area_top : Q;
  area_bottom : Q;
  area_type : string
}.

Inductive Direction : Type := up | down.

Record Move : Type := mkMove {
  end_index : nat;
  move_direction : Direction;
  depth : Q
}.

(** The keys of [analysis_results] the point system reads. *)
Record Structures : Type := mkStructures {
  market_structure : MarketStructure;
  demand_zones : list Zone;
  supply_zones : list Zone;
  premium_areas : list Area;
  discount_areas : list Area;
  impulse_moves : list Move;
  corrective_moves : list Move;
  patterns : list string
}.

Definition area_points (last_price in_uptrend in_downtrend : Q) (area : Area)
  : Q :=
  if Qle_bool (area_bottom area) last_price
     && Qle_bool last_price (area_top area)
  then if Py.contains "uptrend" (area_type area) then in_uptrend
       else if Py.contains "downtrend" (area_type area) then in_downtrend
       else 0
  else 0.

(** The continuation bonus: the last corrective move ends after the last
    impulse, runs against it and retraces less than 61.8%. *)
Definition continuation_points (impulse_direction : Direction)
    (impulse_moves corrective_moves : list Move) : Q :=
  match rev impulse_moves, rev corrective_moves with
  | last_impulse :: _, last_corrective :: _ =>
      if (end_index last_impulse <? end_index last_corrective)%nat
      then match move_direction last_impulse, move_direction last_corrective,
                 impulse_direction with
           | up, down, up | down, up, down =>
               if Py.Qltb (depth last_corrective) 0.618 then 3 else 0
           | _, _, _ => 0
           end
      else 0
  | _, _ => 0
  end.

Definition _generate_signal (df : DataFrame) (results : Structures)
  : Signal * Q :=
  let last_price := ICTStrategy.last_close df in
  let '(buy_trend, sell_trend) :=
    match trend (market_structure results) with
    | uptrend => (2, 0)
    | downtrend => (0, 2)
    | sideways_trend => (0, 0)
    end in
  let '(buy_phase, sell_phase) :=
    match current_phase (market_structure results) with
    | accumulation => (1, 0)
    | distribution => (0, 1)
    | markup => (2, 0)
    | markdown => (0, 2)
    | other_phase => (0, 0)
    end in
  let buy_zones :=
    ICTStrategy.points
      (fun zone =>
         if Qle_bool (bottom zone) last_price
            && Qle_bool last_price (top zone * 1.01)
         then 3
         else if Py.Qltb last_price (bottom zone)
                 && Py.Qltb ((bottom zone - last_price) / last_price) 0.003
              then 2
              else 0)
      (demand_zones results) in
  let sell_zones :=
    ICTStrategy.points
      (fun zone =>
         if Qle_bool (bottom zone * 0.99) last_price
            && Qle_bool last_price (top zone)
         then 3
         else if Py.Qltb (top zone) last_price
                 && Py.Qltb ((last_price - top zone) / last_price) 0.003
              then 2
              else 0)
      (supply_zones results) in
  let sell_areas :=
    ICTStrategy.points (area_points last_price 2 3) (premium_areas results) in
  let buy_areas :=
    ICTStrategy.points (area_points last_price 3 2) (discount_areas results) in
  let buy_moves :=
    continuation_points up (impulse_moves results) (corrective_moves results) in
  let sell_moves :=
    continuation_points down (impulse_moves results) (corrective_moves results) in
  let '(buy_patterns, sell_patterns) :=
    ICTStrategy.pattern_points ["Bullish"%string] ["Bearish"%string] 2
                               (patterns results) in
  let buy_score :=
    buy_trend + buy_phase + buy_zones + buy_areas + buy_moves + buy_patterns in
  let sell_score :=
    sell_trend + sell_phase + sell_zones + sell_areas + sell_moves
    + sell_patterns in
  ICTStrategy.decide 2 buy_score sell_score 0.

End SMCStrategy.

(** ** analysis/price_action_strategy.py *)

Module PriceActionStrategy.

Inductive CandleSignal : Type := bullish_candle | bearish_candle | indecision.

Record CandlePattern : Type := mkCandlePattern {
  candle_index : nat;
  pattern : string;
  candle_signal : CandleSignal;
  candle_strength : Q
}.

(** What later steps read of the trend analysis (the per-average
    diagnostics are only stored). *)
Record TrendAnalysis : Type := mkTrendAnalysis {
  trend : Trend;
  trend_strength : Q
}.

Record MomentumSignal : Type := mkMomentumSignal {
  indicator : string;
  momentum_signal : Signal;
  momentum_strength : Q
}.

Record PivotSet : Type := mkPivotSet {
  pp : Q; s1 : Q; s2 : Q; s3 : Q; r1 : Q; r2 : Q; r3 : Q
}.

Record Camarilla : Type := mkCamarilla {
  c_pp : Q; c_s1 : Q; c_s2 : Q; c_s3 : Q; c_s4 : Q;
  c_r1 : Q; c_r2 : Q; c_r3 : Q; c_r4 : Q
}.

(** The levels of a pivot set in ascending order around its pivot. *)
Definition ordered (p : PivotSet) : Prop :=
  s3 p <= s2 p /\ s2 p <= s1 p /\ s1 p <= pp p /\
  pp p <= r1 p /\ r1 p <= r2 p /\ r2 p <= r3 p.

(** The Camarilla levels in ascending order around a price. *)
Definition ordered_around (m : Camarilla) (price : Q) : Prop :=
  c_s4 m <= c_s3 m /\ c_s3 m <= c_s2 m /\ c_s2 m <= c_s1 m /\
  c_s1 m <= price /\ price <= c_r1 m /\
  c_r1 m <= c_r2 m /\ c_r2 m <= c_r3 m /\ c_r3 m <= c_r4 m.

(** The four pivot families; an empty dictionary is [None]. *)
Record Pivots : Type := mkPivots {
  classic : option PivotSet;
  fibonacci : option PivotSet;
  woodie : option PivotSet;
  camarilla : option Camarilla
}.

(** The single-candle formation of bar [idx], if any. *)
Definition single_candle (idx : nat) (curr : Bar) : list CandlePattern :=
  let curr_body := Qabs (close curr - open curr) in
  let curr_range := high curr - low curr in
  let curr_upper_shadow := high curr - Qmax (close curr) (open curr) in
  let curr_lower_shadow := Qmin (close curr) (open curr) - low curr in
  let curr_is_bullish := Py.Qltb (open curr) (close curr) in
  if Py.Qltb curr_body (0.1 * curr_range)
  then [mkCandlePattern idx "Doji" indecision 50]
  else if Py.Qltb (2 * curr_body) curr_lower_shadow
          && Py.Qltb curr_upper_shadow (0.3 * curr_body)
  then if curr_is_bullish
       then [mkCandlePattern idx "Hammer" bullish_candle 70]
       else [mkCandlePattern idx "Hanging Man" bearish_candle 70]
  else if Py.Qltb (2 * curr_body) curr_upper_shadow
          && Py.Qltb curr_lower_shadow (0.3 * curr_body)
  then if curr_is_bullish
       then [mkCandlePattern idx "Inverted Hammer" bullish_candle 60]
       else [mkCandlePattern idx "Shooting Star" bearish_candle 70]
  else if Py.Qltb (0.7 * curr_range) curr_body
  then if curr_is_bullish
       then [mkCandlePattern idx "Bullish Marubozu" bullish_candle 80]
       else [mkCandlePattern idx "Bearish Marubozu" bearish_candle 80]
  else [].

(** The two-candle formation of bar [idx] with the bar before it. *)
Definition double_candle (idx : nat) (prev curr : Bar) : list CandlePattern :=
  let curr_body := Qabs (close curr - open curr) in
  let curr_is_bullish := Py.Qltb (open curr) (close curr) in
  let prev_body := Qabs (close prev - open prev) in
  let prev_is_bullish := Py.Qltb (open prev) (close prev) in
  if Py.Qltb prev_body curr_body
     && ((curr_is_bullish && negb prev_is_bullish
          && Qle_bool (open curr) (close prev)
          && Qle_bool (open prev) (close curr))
         || (negb curr_is_bullish && prev_is_bullish
             && Qle_bool (close prev) (open curr)
             && Qle_bool (close curr) (open prev)))
  then if curr_is_bullish
       then [mkCandlePattern idx "Bullish Engulfing" bullish_candle 90]
       else [mkCandlePattern idx "Bearish Engulfing" bearish_candle 90]
  else if Py.Qltb curr_body prev_body
          && ((curr_is_bullish && negb prev_is_bullish
               && Qle_bool (high curr) (open prev)
               && Qle_bool (close prev) (low curr))
              || (negb curr_is_bullish && prev_is_bullish
                  && Qle_bool (high curr) (close prev)
                  && Qle_bool (open prev) (low curr)))
  then if curr_is_bullish
       then [mkCandlePattern idx "Bullish Harami" bullish_candle 60]
       else [mkCandlePattern idx "Bearish Harami" bearish_candle 60]
  else [].

Definition _identify_candle_patterns (df : DataFrame) : list CandlePattern :=
  if (List.length df <? 10)%nat then []
  else
    Py.sorted_desc candle_strength
      (flat_map
         (fun idx =>
            single_candle idx (iloc df idx)
            ++ (if (0 <? idx)%nat
                then double_candle idx (iloc df (idx - 1)) (iloc df idx)
                else []))
         (range (List.length df - 5) (List.length df))).

Definition _calculate_pivot_points (df : DataFrame) : Pivots :=
  if (List.length df <? 1)%nat then mkPivots None None None None
  else
    let high := high (iloc_back df 1) in
    let low := low (iloc_back df 1) in
    let close := close (iloc_back df 1) in
    let pp := (high + low + close) / 3 in
    let s1 := 2 * pp - high in
    let s2 := pp - (high - low) in
    let s3 := low - 2 * (high - pp) in
    let r1 := 2 * pp - low in
    let r2 := pp + (high - low) in
    let r3 := high + 2 * (pp - low) in
    let pp_woodie := (high + low + 2 * close) / 4 in
    let range_cm := high - low in
    mkPivots
      (Some (mkPivotSet pp s1 s2 s3 r1 r2 r3))
      (Some (mkPivotSet pp
               (pp - 0.382 * (high - low)) (pp - 0.618 * (high - low))
               (pp - 1.0 * (high - low))
               (pp + 0.382 * (high - low)) (pp + 0.618 * (high - low))
               (pp + 1.0 * (high - low))))
      (Some (mkPivotSet pp_woodie
               (2 * pp_woodie - high) (pp_woodie - (high - low))
               (s1 - (high - low))
               (2 * pp_woodie - low) (pp_woodie + (high - low))
               (r1 + (high - low))))
      (Some (mkCamarilla pp
               (close - range_cm * 1.1 / 12) (close - range_cm * 1.1 / 6)
               (close - range_cm * 1.1 / 4) (close - range_cm * 1.1 / 2)
               (close + range_cm * 1.1 / 12) (close + range_cm * 1.1 / 6)
               (close + range_cm * 1.1 / 4) (close + range_cm * 1.1 / 2))).

(** The points a classic pivot level adds when the price is within 0.5%
    on the far side of it: 1.5 for s1/r1, 1.0 for s2/r2, 0.5 for s3/r3. *)
Definition pivot_points (distance last_price : Q) (rank : Z) : Q :=
  if Py.Qltb 0 (distance / last_price) && Py.Qltb (distance / last_price) 0.005
  then inject_Z (4 - rank) * 0.5
  else 0.

Definition _generate_signal (df : DataFrame)
    (trend_analysis : TrendAnalysis) (candle_patterns : list CandlePattern)
    (momentum_signals : list MomentumSignal) (patterns : list string)
    (pivots : Pivots) : Signal * Q :=
  let '(buy_trend, sell_trend) :=
    match trend trend_analysis with
    | Bullish => (trend_strength trend_analysis / 20, 0)
    | Bearish => (0, trend_strength trend_analysis / 20)
    | Sideways => (0, 0)
    end in
  let buy_candles :=
    ICTStrategy.points
      (fun p => match candle_signal p with
                | bullish_candle => candle_strength p / 20
                | _ => 0
                end) candle_patterns in
  let sell_candles :=
    ICTStrategy.points
      (fun p => match candle_signal p with
                | bearish_candle => candle_strength p / 20
                | _ => 0
                end) candle_patterns in
  let buy_momentum :=
    ICTStrategy.points
      (fun m => match momentum_signal m with
                | Buy => momentum_strength m / 20
                | _ => 0
                end) momentum_signals in
  let sell_momentum :=
    ICTStrategy.points
      (fun m => match momentum_signal m with
                | Sell => momentum_strength m / 20
                | _ => 0
                end) momentum_signals in
  let '(buy_patterns, sell_patterns) :=
    ICTStrategy.pattern_points
      ["Bullish"; "Support"; "Bottom"]%string
      ["Bearish"; "Resistance"; "Top"]%string 2.5 patterns in
  let last_price := ICTStrategy.last_close df in
  let '(buy_pivots, sell_pivots) :=
    match classic pivots with
    | Some levels =>
        (pivot_points (last_price - s1 levels) last_price 1
         + pivot_points (last_price - s2 levels) last_price 2
         + pivot_points (last_price - s3 levels) last_price 3,
         pivot_points (r1 levels - last_price) last_price 1
         + pivot_points (r2 levels - last_price) last_price 2
         + pivot_points (r3 levels - last_price) last_price 3)
    | None => (0, 0)
    end in
  let buy_score :=
    buy_trend + buy_candles + buy_momentum + buy_patterns + buy_pivots in
  let sell_score :=
    sell_trend + sell_candles + sell_momentum + sell_patterns + sell_pivots in
  ICTStrategy.decide 3 buy_score sell_score (Qmax buy_score sell_score * 5).

Record Analysis : Type := mkAnalysis {
  trend_data : TrendAnalysis;
  candle_patterns : list CandlePattern;
  support_levels : list Q;
  resistance_levels : list Q;
  pivots : Pivots;
  momentum_signals : list MomentumSignal;
  patterns : list string;
  signal : Signal;
  signal_strength : Q
}.

Section Analyze.

(** The numerical bodies of four sub-features (moving averages and swing
    comparison; swing, histogram and round-number levels; RSI, stochastic
    and CCI; double tops, flags and regression triangles) are parameters
    of the embedding.  Each runs only when its minimum bar count is met;
    nothing proved below depends on what they compute. *)
Variable trend_body : DataFrame -> TrendAnalysis.
Variable support_resistance_body : DataFrame -> list Q * list Q.
Variable momentum_body : DataFrame -> list MomentumSignal.
Variable price_patterns_body :
  DataFrame -> list Q * list Q -> TrendAnalysis -> list string.

Definition _analyze_trend (df : DataFrame) : TrendAnalysis :=
  if (List.length df <? 200)%nat then mkTrendAnalysis Sideways 0
  else trend_body df.

Definition _find_support_resistance (df : DataFrame) : list Q * list Q :=
  if (List.length df <? 50)%nat then ([], [])
  else support_resistance_body df.

Definition _calculate_momentum (df : DataFrame) : list MomentumSignal :=
  if (List.length df <? 20)%nat then []
  else momentum_body df.

Definition _identify_price_patterns (df : DataFrame)
    (support_resistance : list Q * list Q) (trend_analysis : TrendAnalysis)
  : list string :=
  if (List.length df <? 50)%nat then []
  else price_patterns_body df support_resistance trend_analysis.

(** [analyze]; [None] is the dictionary [{"error": ...}]. *)
Definition analyze (df : DataFrame) : option Analysis :=
  match df with
  | [] => None
  | _ =>
      let trend_analysis := _analyze_trend df in
      let candle_patterns := _identify_candle_patterns df in
      let support_resistance := _find_support_resistance df in
      let pivots := _calculate_pivot_points df in
      let momentum := _calculate_momentum df in
      let patterns :=
        _identify_price_patterns df support_resistance trend_analysis in
      let '(signal, strength) :=
        _generate_signal df trend_analysis candle_patterns momentum
                         patterns pivots in
      Some (mkAnalysis trend_analysis candle_patterns
                       (fst support_resistance) (snd support_resistance)
                       pivots momentum patterns signal strength)
  end.

(** The keys of the result that the engine reads. *)
Definition result (df : DataFrame) : DetectorResult.t :=
  match analyze df with
  | None => DetectorResult.error
  | Some a =>
      DetectorResult.mk (Some (signal a)) (Some (signal_strength a))
                        (Some (support_levels a)) (Some (resistance_levels a))
                        (Some (patterns a))
                        (Some (trend (trend_data a)))
                        (Some (trend_strength (trend_data a)))
                        None None
  end.

End Analyze.

End PriceActionStrategy.

(** ** trading/signal_generator.py *)

Module SignalGenerator.

(** [analysis_results]: either the engine's error result or its results. *)
Record AnalysisResults : Type := mkAnalysisResults {
  analysis_error : bool;
  summary : option Summary.t;
  timeframes : Dict.t AnalysisEngine.TimeframeData
}.

(** [prediction_results] of the forecaster. *)
Record Prediction : Type := mkPrediction {
  prediction_error : bool;
  direction : option Signal;
  confidence : option Q
}.

(** The settings the generator reads; an absent key is [None]. *)
Record Settings : Type := mkSettings {
  min_risk_reward : option Q;
  default_stop_loss_pips : option Q;
  default_take_profit_pips : option Q
}.

(** What the generator obtains from outside during one call: the latest
    tick (bid, ask), the last H1 close, the ATR computed from H1 history
    (each [None] when unavailable), a fresh identifier and the clock. *)
Record Env : Type := mkEnv {
  tick : option (Q * Q);
  h1_close : option Q;
  computed_atr : option Q;
  new_id : string;
  now : Z
}.

(** A candidate signal, the dictionary appended to [signal_history]. *)
Record CandidateSignal : Type := mkCandidateSignal {
  id : string;
  symbol : string;
  signal : Signal;
  entry_price : Q;
  stop_loss : Q;
  take_profit : Q;
  risk_reward : Q;
  strength : Q;
  success_probability : Q;
  timestamp : Z;
  key_timeframes : list string;
  analysis_summary : option Summary.t;
  prediction : Prediction;
  executed : bool;
  status : string;
  execution_details : option string
}.

Definition set_status (s : CandidateSignal) (new_status : string)
  : CandidateSignal :=
  mkCandidateSignal (id s) (symbol s) (signal s) (entry_price s) (stop_loss s)
    (take_profit s) (risk_reward s) (strength s) (success_probability s)
    (timestamp s) (key_timeframes s) (analysis_summary s) (prediction s)
    (executed s) new_status (execution_details s).

Definition set_executed (s : CandidateSignal) (details : string)
  : CandidateSignal :=
  mkCandidateSignal (id s) (symbol s) (signal s) (entry_price s) (stop_loss s)
    (take_profit s) (risk_reward s) (strength s) (success_probability s)
    (timestamp s) (key_timeframes s) (analysis_summary s) (prediction s)
    true (status s) (Some details).

(** The first timeframe of [order] whose price-action result has the
    field. *)
Fixpoint price_action_field (field : DetectorResult.t -> option Q)
    (tfs : Dict.t AnalysisEngine.TimeframeData) (order : list string)
  : option Q :=
  match order with
  | [] => None
  | tf :: order' =>
      match Dict.lookup tf tfs with
      | Some tf_data =>
          match AnalysisEngine.analysis tf_data with
          | Some a =>
              match field (AnalysisEngine.price_action a) with
              | Some v => Some v
              | None => price_action_field field tfs order'
              end
          | None => price_action_field field tfs order'
          end
      | None => price_action_field field tfs order'
      end
  end.

Definition _get_last_price (env : Env) (analysis_results : AnalysisResults)
  : option Q :=
  match price_action_field DetectorResult.last_price
          (timeframes analysis_results) ["H1"; "M15"; "H4"; "D1"]%string with
  | Some p => Some p
  | None =>
      match tick env with
      | Some (bid, ask) => Some ((bid + ask) / 2)
      | None => h1_close env
      end
  end.

Definition _get_atr_value (env : Env) (analysis_results : AnalysisResults)
  : option Q :=
  match price_action_field DetectorResult.atr
          (timeframes analysis_results) ["H1"; "H4"; "M15"; "D1"]%string with
  | Some a => Some a
  | None => computed_atr env
  end.

(** The dictionary [combined] returned by [_combine_signals]. *)
Record Combined : Type := mkCombined {
  combined_signal : Signal;
  combined_strength : Q;
  combined_probability : Q;
  combined_timeframes : list string
}.

Definition _combine_signals (analysis_results : AnalysisResults)
    (prediction_results : Prediction) : Combined :=
  let analysis_signal :=
    match summary analysis_results with
    | Some s => Summary.signal s | None => Neutral end in
  let analysis_strength :=
    match summary analysis_results with
    | Some s => Summary.strength s | None => 0 end in
  let analysis_probability :=
    match summary analysis_results with
    | Some s => Summary.success_probability s | None => 0 end in
  let analysis_timeframes :=
    match summary analysis_results with
    | Some s => Summary.key_timeframes s | None => [] end in
  let prediction_signal := Py.get (direction prediction_results) Neutral in
  let prediction_confidence := Py.get (confidence prediction_results) 0 in
  let analysis_weight := 0.7 in
  let prediction_weight := 0.3 in
  let buy_score :=
    (match analysis_signal with
     | Buy => analysis_strength * analysis_weight | _ => 0 end)
    + (match prediction_signal with
       | Buy => prediction_confidence * prediction_weight | _ => 0 end) in
  let sell_score :=
    (match analysis_signal with
     | Sell => analysis_strength * analysis_weight | _ => 0 end)
    + (match prediction_signal with
       | Sell => prediction_confidence * prediction_weight | _ => 0 end) in
  let probability :=
    analysis_probability * analysis_weight
    + prediction_confidence * prediction_weight in
  if Py.Qltb (sell_score + 10) buy_score
  then mkCombined Buy buy_score probability analysis_timeframes
  else if Py.Qltb (buy_score + 10) sell_score
       then mkCombined Sell sell_score probability analysis_timeframes
       else mkCombined Neutral (Qmax buy_score sell_score / 2) 0
                       analysis_timeframes.

Definition _pips_to_price (symbol : string) (pips : Q) : Q :=
  let pip_value := if Py.contains "JPY" symbol then 0.01 else 0.0001 in
  let pip_value := if Py.contains "XAU" symbol then 0.1 else pip_value in
  pips * pip_value.

(** Python truth value of an optional number: [None] and 0 are false. *)
Definition truthy (x : option Q) : bool :=
  match x with
  | Some v => negb (Qeq_bool v 0)
  | None => false
  end.

Definition _calculate_sl_tp (settings : Settings) (env : Env)
    (symbol : string) (signal : Signal) (entry_price : Q)
    (analysis_results : AnalysisResults) : Q * Q :=
  let default_sl_pips := Py.get (default_stop_loss_pips settings) 50 in
  let default_tp_pips := Py.get (default_take_profit_pips settings) 100 in
  match _get_atr_value env analysis_results with
  | None =>
      let pip_value := _pips_to_price symbol 1 in
      match signal with
      | Buy => (entry_price - default_sl_pips * pip_value,
                entry_price + default_tp_pips * pip_value)
      | _ => (entry_price + default_sl_pips * pip_value,
              entry_price - default_tp_pips * pip_value)
      end
  | Some atr =>
      let support_levels :=
        AnalysisEngine.all_levels TimeframeSummary.support_levels
          (timeframes analysis_results) in
      let resistance_levels :=
        AnalysisEngine.all_levels TimeframeSummary.resistance_levels
          (timeframes analysis_results) in
      let nearest_support :=
        AnalysisEngine.nearest_below support_levels entry_price in
      let nearest_resistance :=
        AnalysisEngine.nearest_above resistance_levels entry_price in
      let support := Py.get nearest_support 0 in
      let resistance := Py.get nearest_resistance 0 in
      let atr_sl_multiplier := 1.5 in
      let atr_tp_multiplier := 3.0 in
      let '(stop_loss, take_profit) :=
        match signal with
        | Buy =>
            (if truthy nearest_support
                && Py.Qltb (entry_price - support) (atr * 2)
             then support - 0.1 * atr
             else entry_price - atr * atr_sl_multiplier,
             if truthy nearest_resistance
                && Py.Qltb (resistance - entry_price) (atr * 4)
             then resistance
             else entry_price + atr * atr_tp_multiplier)
        | _ =>
            (if truthy nearest_resistance
                && Py.Qltb (resistance - entry_price) (atr * 2)
             then resistance + 0.1 * atr
             else entry_price + atr * atr_sl_multiplier,
             if truthy nearest_support
                && Py.Qltb (entry_price - support) (atr * 4)
             then support
             else entry_price - atr * atr_tp_multiplier)
        end in
      let min_sl_distance := atr * 0.5 in
      let stop_loss :=
        match signal with
        | Buy => if Py.Qltb (entry_price - stop_loss) min_sl_distance
                 then entry_price - min_sl_distance else stop_loss
        | Sell => if Py.Qltb (stop_loss - entry_price) min_sl_distance
                  then entry_price + min_sl_distance else stop_loss
        | Neutral => stop_loss
        end in
      let min_tp_distance := atr * 1.0 in
      let take_profit :=
        match signal with
        | Buy => if Py.Qltb (take_profit - entry_price) min_tp_distance
                 then entry_price + min_tp_distance else take_profit
        | Sell => if Py.Qltb (entry_price - take_profit) min_tp_distance
                  then entry_price - min_tp_distance else take_profit
        | Neutral => take_profit
        end in
      (stop_loss, take_profit)
  end.

Definition _calculate_risk_reward (signal : Signal)
    (entry_price stop_loss take_profit : Q) : Q :=
  let '(risk, reward) :=
    match signal with
    | Buy => (entry_price - stop_loss, take_profit - entry_price)
    | _ => (stop_loss - entry_price, entry_price - take_profit)
    end in
  if Qle_bool risk 0 then 0 else reward / risk.

(** [generate_signal] on resolved analysis and prediction results: the
    returned candidate (or [None]) and the new [signal_history]. *)
Definition generate_signal (settings : Settings) (env : Env)
    (signal_history : list CandidateSignal) (symbol : string)
    (analysis_results : AnalysisResults) (prediction_results : Prediction)
  : option CandidateSignal * list CandidateSignal :=
  if analysis_error analysis_results || prediction_error prediction_results
  then (None, signal_history)
  else
    match _get_last_price env analysis_results with
    | None => (None, signal_history)
    | Some last_price =>
        let signal_data :=
          _combine_signals analysis_results prediction_results in
        if Signal_eqb (combined_signal signal_data) Neutral
           || Py.Qltb (combined_strength signal_data) 40
        then (None, signal_history)
        else
          let sl_tp :=
            _calculate_sl_tp settings env symbol (combined_signal signal_data)
                             last_price analysis_results in
          let risk_reward :=
            _calculate_risk_reward (combined_signal signal_data) last_price
                                   (fst sl_tp) (snd sl_tp) in
          let min_rr := Py.get (min_risk_reward settings) 1.5 in
          if Py.Qltb risk_reward min_rr
          then (None, signal_history)
          else
            let signal :=
              mkCandidateSignal (new_id env) symbol
                (combined_signal signal_data) last_price
                (fst sl_tp) (snd sl_tp) risk_reward
                (combined_strength signal_data)
                (combined_probability signal_data) (now env)
                (combined_timeframes signal_data)
                (summary analysis_results) prediction_results
                false "pending" None in
            let signal_history := signal_history ++ [signal] in
            let signal_history :=
              if (100 <? List.length signal_history)%nat
              then Py.take_last 100 signal_history else signal_history in
            (Some signal, signal_history)
    end.

Definition get_signal_history (signal_history : list CandidateSignal)
    (limit : Z) : list CandidateSignal :=
  match signal_history with
  | [] => []
  | _ => Py.slice_from_minus limit signal_history
  end.

Definition get_signal_by_id (signal_history : list CandidateSignal)
    (signal_id : string) : option CandidateSignal :=
  find (fun s => String.eqb (id s) signal_id) signal_history.

(** The in-place update of the dictionary [get_signal_by_id] returns: the
    first entry with the identifier is replaced. *)
Fixpoint update_first (signal_id : string)
    (f : CandidateSignal -> CandidateSignal)
    (signal_history : list CandidateSignal) : list CandidateSignal :=
  match signal_history with
  | [] => []
  | s :: rest =>
      if String.eqb (id s) signal_id then f s :: rest
      else s :: update_first signal_id f rest
  end.

(** [update_signal_status]: the returned flag and the new store. *)
Definition update_signal_status (signal_history : list CandidateSignal)
    (signal_id : string) (new_status : string)
    (details : option string) : bool * list CandidateSignal :=
  match get_signal_by_id signal_history signal_id with
  | None => (false, signal_history)
  | Some _ =>
      (true,
       update_first signal_id
         (fun s =>
            let s := set_status s new_status in
            match details with
            | Some d =>
                if String.eqb new_status "executed" then set_executed s d else s
            | None => s
            end)
         signal_history)
  end.

End SignalGenerator.

(** ** Calendar: [datetime.date] of the Python standard library

    A date is its proleptic Gregorian ordinal ([date.toordinal()]):
    day 1 is 0001-01-01, a Monday. *)

Module Calendar.

Definition date : Type := Z.

Open Scope Z_scope.

(** Number of days before January 1st of [year]. *)
Definition days_before_year (year : Z) : Z :=
  let y := year - 1 in
  y * 365 + y / 4 - y / 100 + y / 400.

(** The year a day falls in, by 400-, 100-, 4- and 1-year cycles. *)
Definition year_of (d : date) : Z :=
  let n := d - 1 in
  let n400 := n / 146097 in
  let n := n mod 146097 in
  let n100 := n / 36524 in
  let n := n mod 36524 in
  let n4 := n / 1461 in
  let n := n mod 1461 in
  let n1 := n / 365 in
  let year := n400 * 400 + 1 + n100 * 100 + n4 * 4 + n1 in
  if (n1 =? 4) || (n100 =? 4) then year - 1 else year.

(** Index of the Monday-to-Sunday week a day falls in. *)
Definition week_index (d : date) : Z := (d - 1) / 7.

(** [date.isocalendar()[1]]: the ISO 8601 week number, the number of the
    week within the year that holds its Thursday. *)
Definition iso_week (d : date) : Z :=
  let thursday := 7 * week_index d + 4 in
  (thursday - days_before_year (year_of thursday) - 1) / 7 + 1.

End Calendar.

(** ** trading/risk_manager.py *)

Module RiskManager.

Record AccountInfo : Type := mkAccountInfo {
  balance : option Q;
  free_margin : option Q
}.

Record SymbolInfo : Type := mkSymbolInfo {
  contract_size : option Q;
  digits : option Z;
  volume_min : option Q;
  volume_max : option Q
}.

(** What the broker and the clock answer during one call of the risk
    manager.  An unavailable (or empty) answer is [None];
    [get_positions] lists the symbol of every open position. *)
Record Broker : Type := mkBroker {
  get_account_info : option AccountInfo;
  get_symbol_info : string -> option SymbolInfo;
  calculate_margin : string -> Signal -> Q -> option Q;
  get_positions : list string;
  today : Calendar.date
}.

(** [settings["risk_management"]] and [settings["signal"]]. *)
Record Settings : Type := mkSettings {
  max_risk_percent : option Q;
  max_daily_risk_percent : option Q;
  max_weekly_risk_percent : option Q;
  max_lot_size : option Q;
  max_open_positions : option nat;
  max_positions_per_symbol : option nat;
  min_risk_reward : option Q
}.

Record RiskEntry : Type := mkRiskEntry {
  entry_timestamp : Calendar.date;
  entry_symbol : string;
  entry_direction : Signal;
  entry_lot_size : Q;
  entry_risk_amount : Q;
  entry_risk_percent : Q;
  entry_balance : Q
}.

(** The mutable fields of the manager. *)
Record State : Type := mkState {
  risk_history : list RiskEntry;
  daily_risk : Q;
  weekly_risk : Q;
  last_reset_day : Calendar.date;
  last_reset_week : Z
}.

(** The manager as [__init__] leaves it on day [d]. *)
Definition init (d : Calendar.date) : State :=
  mkState [] 0.0 0.0 d (Calendar.iso_week d).

Record Params : Type := mkParams {
  lot_size : Q;
  risk_amount : Q;
  risk_percent : Q;
  max_allowed : bool;
  sl_pips : Z;
  tp_pips : Z;
  pip_value : Q;
  risk_reward_ratio : Q;
  margin_required : Q;
  max_lot_allowed : Q
}.

Definition default_params : Params :=
  mkParams 0.01 0.0 0.0 true 0 0 0.0 0.0 0.0 0.0.

Definition _get_week_number (d : Calendar.date) : Z := Calendar.iso_week d.

Definition _update_risk_tracking (current_date : Calendar.date) (st : State)
  : State :=
  let current_week := _get_week_number current_date in
  let st :=
    if Z.eqb current_date (last_reset_day st) then st
    else mkState (risk_history st) 0.0 (weekly_risk st)
                 current_date (last_reset_week st) in
  if Z.eqb current_week (last_reset_week st) then st
  else mkState (risk_history st) (daily_risk st) 0.0
               (last_reset_day st) current_week.

(** The share of [max_risk_percent] granted for a success probability. *)
Definition risk_percent_for (max_risk_percent success_probability : Q) : Q :=
  if Qle_bool 80 success_probability then max_risk_percent
  else if Qle_bool 70 success_probability then max_risk_percent * 0.8
  else if Qle_bool 60 success_probability then max_risk_percent * 0.6
  else max_risk_percent * 0.5.

(** The budget left for the day and the week, in account currency. *)
Definition remaining_daily_risk (settings : Settings) (st : State)
    (balance : Q) : Q :=
  (Py.get (max_daily_risk_percent settings) 5.0 - daily_risk st) / 100 * balance.

Definition remaining_weekly_risk (settings : Settings) (st : State)
    (balance : Q) : Q :=
  (Py.get (max_weekly_risk_percent settings) 10.0 - weekly_risk st) / 100 * balance.

(** [calculate_risk_params]: the parameters and the state after the lazy
    reset.  The two early returns leave the state as it is. *)
Definition calculate_risk_params (settings : Settings) (broker : Broker)
    (st : State) (signal : SignalGenerator.CandidateSignal) : Params * State :=
  match get_account_info broker with
  | None => (default_params, st)
  | Some account_info =>
      let balance := Py.get (balance account_info) 0.0 in
      let symbol := SignalGenerator.symbol signal in
      match get_symbol_info broker symbol with
      | None => (default_params, st)
      | Some symbol_info =>
          let contract_size := Py.get (contract_size symbol_info) 100000 in
          let digits := Py.get (digits symbol_info) 5%Z in
          let pip_factor := if Py.endswith symbol "JPY" then 0.01 else 0.0001 in
          let pip_value := (pip_factor * contract_size) / Qpower 10 digits in
          let entry_price := SignalGenerator.entry_price signal in
          let stop_loss := SignalGenerator.stop_loss signal in
          let take_profit := SignalGenerator.take_profit signal in
          let '(sl_distance, tp_distance) :=
            match SignalGenerator.signal signal with
            | Buy => (entry_price - stop_loss, take_profit - entry_price)
            | _ => (stop_loss - entry_price, entry_price - take_profit)
            end in
          let sl_pips := Py.int (sl_distance / pip_factor) in
          let tp_pips := Py.int (tp_distance / pip_factor) in
          let risk_reward :=
            if Py.Qltb 0 sl_distance then tp_distance / sl_distance else 0 in
          let max_risk_percent := Py.get (max_risk_percent settings) 2.0 in
          let st := _update_risk_tracking (today broker) st in
          let success_probability :=
            SignalGenerator.success_probability signal in
          let risk_percent :=
            risk_percent_for max_risk_percent success_probability in
          let available_risk :=
            Qmin (remaining_daily_risk settings st balance)
                 (remaining_weekly_risk settings st balance) in
          let risk_amount := balance * risk_percent / 100 in
          let '(risk_amount, risk_percent) :=
            if Py.Qltb available_risk risk_amount
            then (available_risk, available_risk / balance * 100)
            else (risk_amount, risk_percent) in
          let lot_size :=
            if (0 <? sl_pips)%Z && Py.Qltb 0 pip_value
            then risk_amount / (inject_Z sl_pips * pip_value)
            else 0.01 in
          let lot_size := inject_Z (Py.round (lot_size / 0.01)) * 0.01 in
          let min_lot := Py.get (volume_min symbol_info) 0.01 in
          let max_lot := Py.get (volume_max symbol_info) 100.0 in
          let max_allowed_lot := Py.get (max_lot_size settings) 1.0 in
          let lot_size :=
            Qmax min_lot (Qmin (Qmin lot_size max_lot) max_allowed_lot) in
          let margin_required :=
            Py.get (calculate_margin broker symbol
                      (SignalGenerator.signal signal) lot_size) 0.0 in
          (mkParams lot_size risk_amount risk_percent
                    (Qle_bool risk_amount available_risk)
                    sl_pips tp_pips pip_value risk_reward margin_required
                    max_allowed_lot,
           st)
      end
  end.

Record Limits : Type := mkLimits {
  max_positions_reached : bool;
  max_positions_per_symbol_reached : Dict.t bool;
  current_open_positions : nat;
  positions_per_symbol : Dict.t nat;
  max_positions : nat;
  limit_per_symbol : nat
}.

(** [positions_df['symbol'].value_counts().to_dict()] *)
Definition value_counts (symbols : list string) : Dict.t nat :=
  map (fun s => (s, count_occ string_dec symbols s)) (nodup string_dec symbols).

Definition check_position_limits (settings : Settings) (broker : Broker)
  : Limits :=
  let max_positions := Py.get (max_open_positions settings) 5%nat in
  let per_symbol := Py.get (max_positions_per_symbol settings) 2%nat in
  match get_positions broker with
  | [] => mkLimits false [] 0 [] max_positions per_symbol
  | positions =>
      let total_positions := List.length positions in
      let counts := value_counts positions in
      mkLimits (max_positions <=? total_positions)%nat
               (map (fun '(s, n) => (s, (per_symbol <=? n)%nat)) counts)
               total_positions counts max_positions per_symbol
  end.

(** The reason strings of [can_open_position]. *)
Inductive Reason : Type :=
  | NoAccountInfo
  | MaxPositionsReached (limit : nat)
  | MaxPositionsPerSymbolReached (symbol : string) (limit : nat)
  | InsufficientMargin (required available : Q)
  | RiskLimitReached
  | LotTooSmall
  | RiskRewardTooLow (ratio minimum : Q)
  | CanOpen.

Definition can_open_position (settings : Settings) (broker : Broker)
    (st : State) (signal : SignalGenerator.CandidateSignal)
  : (bool * Reason) * State :=
  match get_account_info broker with
  | None => ((false, NoAccountInfo), st)
  | Some account_info =>
      let free_margin := Py.get (free_margin account_info) 0.0 in
      let symbol := SignalGenerator.symbol signal in
      let limits := check_position_limits settings broker in
      if max_positions_reached limits
      then ((false, MaxPositionsReached (max_positions limits)), st)
      else if Py.get (Dict.lookup symbol (max_positions_per_symbol_reached limits))
                     false
      then ((false, MaxPositionsPerSymbolReached symbol (limit_per_symbol limits)),
            st)
      else
        let '(risk_params, st) :=
          calculate_risk_params settings broker st signal in
        if Py.Qltb free_margin (margin_required risk_params)
        then ((false, InsufficientMargin (margin_required risk_params) free_margin),
              st)
        else if negb (max_allowed risk_params)
        then ((false, RiskLimitReached), st)
        else if Py.Qltb (lot_size risk_params) 0.01
        then ((false, LotTooSmall), st)
        else
          let min_rr := Py.get (min_risk_reward settings) 1.5 in
          if Py.Qltb (risk_reward_ratio risk_params) min_rr
          then ((false, RiskRewardTooLow (risk_reward_ratio risk_params) min_rr),
                st)
          else ((true, CanOpen), st)
  end.

(** [trade_data] handed to [update_risk_history]. *)
Record TradeData : Type := mkTradeData {
  trade_symbol : option string;
  trade_signal : option Signal;
  trade_lot_size : option Q;
  trade_risk_amount : option Q
}.

(** [update_risk_history]: the single commit point of the counters. *)
Definition update_risk_history (broker : Broker) (st : State)
    (trade_data : TradeData) : State :=
  match get_account_info broker with
  | None => st
  | Some account_info =>
      let balance := Py.get (balance account_info) 0.0 in
      let risk_amount := Py.get (trade_risk_amount trade_data) 0.0 in
      let risk_percent :=
        if Py.Qltb 0 balance then risk_amount / balance * 100 else 0 in
      let risk_entry :=
        mkRiskEntry (today broker)
                    (Py.get (trade_symbol trade_data) ""%string)
                    (Py.get (trade_signal trade_data) Neutral)
                    (Py.get (trade_lot_size trade_data) 0.0)
                    risk_amount risk_percent balance in
      let history := risk_history st ++ [risk_entry] in
      let history :=
        if (100 <? List.length history)%nat
        then Py.take_last 100 history else history in
      mkState history (daily_risk st + risk_percent)
              (weekly_risk st + risk_percent)
              (last_reset_day st) (last_reset_week st)
  end.

End RiskManager.

(** ** communication/telegram_bot.py: the handlers that move a signal out
    of "pending" and commit risk *)

Module TelegramBot.

(** The candidate-signal store and the risk manager's state. *)
Definition BotState : Type :=
  (list SignalGenerator.CandidateSignal * RiskManager.State)%type.

Definition is_pending (s : SignalGenerator.CandidateSignal) : bool :=
  String.eqb (SignalGenerator.status s) "pending".

(** [_confirm_signal].  [at_check], [at_sizing] and [at_commit] are the
    broker's answers during [can_open_position], the following
    [calculate_risk_params] and [update_risk_history]; [opened] is the
    result of [open_position], [None] when it reports an error. *)
Definition _confirm_signal (settings : RiskManager.Settings)
    (at_check at_sizing at_commit : RiskManager.Broker)
    (opened : option string) (signal_id : string) (bot : BotState)
  : BotState :=
  let '(store, st) := bot in
  match SignalGenerator.get_signal_by_id store signal_id with
  | None => (store, st)
  | Some signal =>
      if negb (is_pending signal) then (store, st)
      else
        let '((can_open, _), st) :=
          RiskManager.can_open_position settings at_check st signal in
        if negb can_open then (store, st)
        else
          let '(risk_params, st) :=
            RiskManager.calculate_risk_params settings at_sizing st signal in
          match opened with
          | None => (store, st)
          | Some result =>
              let store :=
                snd (SignalGenerator.update_signal_status store
                       (SignalGenerator.id signal) "executed" (Some result)) in
              let trade_data :=
                RiskManager.mkTradeData
                  (Some (SignalGenerator.symbol signal))
                  (Some (SignalGenerator.signal signal))
                  (Some (RiskManager.lot_size risk_params))
                  (Some (RiskManager.risk_amount risk_params)) in
              (store, RiskManager.update_risk_history at_commit st trade_data)
          end
  end.

(** [_reject_signal] *)
Definition _reject_signal (signal_id : string) (bot : BotState) : BotState :=
  let '(store, st) := bot in
  match SignalGenerator.get_signal_by_id store signal_id with
  | None => (store, st)
  | Some signal =>
      if negb (is_pending signal) then (store, st)
      else (snd (SignalGenerator.update_signal_status store
                   (SignalGenerator.id signal) "rejected" None), st)
  end.

(** [_handle_confirmation_timeout], once the waiting time is over;
    [waiting] tells whether the identifier is still in [pending_signals]. *)
Definition _handle_confirmation_timeout (waiting : bool) (signal_id : string)
    (bot : BotState) : BotState :=
  let '(store, st) := bot in
  if negb waiting then (store, st)
  else
    match SignalGenerator.get_signal_by_id store signal_id with
    | None => (store, st)
    | Some signal =>
        if is_pending signal
        then (snd (SignalGenerator.update_signal_status store signal_id
                     "expired" None), st)
        else (store, st)
    end.

(** What can happen to the bot between two observations: one of the three
    handlers runs, or the scan loop sizes a fresh signal. *)
Inductive Request : Type :=
  | Confirm (at_check at_sizing at_commit : RiskManager.Broker)
            (opened : option string) (signal_id : string)
  | Reject (signal_id : string)
  | Timeout (waiting : bool) (signal_id : string)
  | Scan (broker : RiskManager.Broker)
         (signal : SignalGenerator.CandidateSignal).

Definition handle (settings : RiskManager.Settings) (bot : BotState)
    (request : Request) : BotState :=
  match request with
  | Confirm at_check at_sizing at_commit opened signal_id =>
      _confirm_signal settings at_check at_sizing at_commit opened signal_id bot
  | Reject signal_id => _reject_signal signal_id bot
  | Timeout waiting signal_id =>
      _handle_confirmation_timeout waiting signal_id bot
  | Scan broker signal =>
      (fst bot,
       snd (RiskManager.calculate_risk_params settings broker (snd bot) signal))
  end.

Definition run (settings : RiskManager.Settings) (bot : BotState)
    (requests : list Request) : BotState :=
  fold_left (handle settings) requests bot.

(** The balance the broker reports, 0 when it reports none. *)
Definition balance_of (broker : RiskManager.Broker) : Q :=
  match RiskManager.get_account_info broker with
  | Some account_info => Py.get (RiskManager.balance account_info) 0.0
  | None => 0
  end.

(** A confirmation sees a stable account when the balance read at the
    commit is the balance the trade was sized with. *)
Definition stable_balance (request : Request) : Prop :=
  match request with
  | Confirm _ at_sizing at_commit _ _ =>
      balance_of at_commit == balance_of at_sizing
  | _ => True
  end.

(** The status of the signal with the given identifier. *)
Definition status_of (store : list SignalGenerator.CandidateSignal)
    (signal_id : string) : option string :=
  option_map SignalGenerator.status
             (SignalGenerator.get_signal_by_id store signal_id).

End TelegramBot.

(** ** prediction/ai_predictor.py: how [predict] reads the model's output *)

Module AIPredictor.

Record Forecast : Type := mkForecast {
  price_1h : option Q;
  price_4h : option Q;
  price_24h : option Q
}.

(** The result dictionary, without the symbol, timeframe and timestamp it
    echoes. *)
Record Result : Type := mkResult {
  prediction : option Q;
  direction : Signal;
  confidence : Q;
  forecast : Forecast
}.

(** [predict].  [model_output] is the value the network returns for the
    latest window ([pred_value]) with the last close of the frame; it is
    [None] when the model cannot be loaded, when no prediction data can be
    prepared or when an exception is caught, in which case the initial
    result is returned. *)
Definition predict (model_output : option (Q * Q)) : Result :=
  match model_output with
  | None => mkResult None Neutral 0.0 (mkForecast None None None)
  | Some (pred_value, last_price) =>
      let '(direction, confidence) :=
        if Py.Qltb 0.01 pred_value
        then (Buy, Qmin (Qabs (pred_value * 100)) 100)
        else if Py.Qltb pred_value (- 0.01)
             then (Sell, Qmin (Qabs (pred_value * 100)) 100)
             else (Neutral, Qabs (pred_value * 100)) in
      let forecast_1h := last_price * (1 + pred_value) in
      let forecast_4h := last_price * (1 + pred_value * 2) in
      let forecast_24h := last_price * (1 + pred_value * 4) in
      mkResult (Some pred_value) direction confidence
               (mkForecast (Some forecast_1h) (Some forecast_4h)
                           (Some forecast_24h))
  end.

(** What the signal generator reads of the result: it has no ["error"]
    key, a direction and a confidence. *)
Definition prediction_results (r : Result) : SignalGenerator.Prediction :=
  SignalGenerator.mkPrediction false (Some (direction r)) (Some (confidence r)).

End AIPredictor.

(** ** core/settings_manager.py: reading and writing a setting *)

Module SettingsManager.

(** A settings value as [json.load] returns it. *)
#[warnings="-register-all"]
Inductive Value : Type :=
  | Null
  | Boolean (b : bool)
  | Number (x : Q)
  | Text (s : string)
  | Array (items : list Value)
  | Object (fields : Dict.t Value).

(** The loop of [get_setting] over the words of the key: [None] when a
    word is missing or the value reached is not a dictionary. *)
Fixpoint get_path (keys : list string) (value : Value) : option Value :=
  match keys with
  | [] => Some value
  | k :: keys' =>
      match value with
      | Object fields =>
          match Dict.lookup k fields with
          | Some v => get_path keys' v
          | None => None
          end
      | _ => None
      end
  end.

Definition get_setting (settings : Value) (key : string) (default : Value)
  : Value :=
  Py.get (get_path (Py.split "."%char key) settings) default.

(** The loop of [set_setting] over [keys[:-1]] followed by the assignment
    to [keys[-1]], on the dictionary [target].  A missing word is created
    as an empty dictionary.  [None] is the TypeError raised when [target] is
    not a dictionary; that can only happen before anything is created, so
    the settings are then unchanged. *)
Fixpoint set_path (path : list string) (final : string) (value target : Value)
  : option Value :=
  match target with
  | Object fields =>
      match path with
      | [] => Some (Object (Dict.set final value fields))
      | k :: path' =>
          let child := Py.get (Dict.lookup k fields) (Object []) in
          do child' <- set_path path' final value child;
          Some (Object (Dict.set k child' fields))
      end
  | _ => None
  end.

(** [set_setting]: the flag returned by [save_settings] ([saved] tells
    whether the file could be written) and the new settings. *)
Definition set_setting (saved : bool) (settings : Value) (key : string)
    (value : Value) : option (bool * Value) :=
  let keys := Py.split "."%char key in
  do settings' <- set_path (removelast keys) (last keys EmptyString) value
                           settings;
  Some (saved, settings').

End SettingsManager.

(** ** Concrete inputs used in the examples *)

Module Examples.

(** Ten bars: a jump between bar 0 and bar 2 leaves a bullish fair-value
    gap (100.1 to 100.4), after which the price drifts back to 100.0. *)
Definition gap_series : DataFrame :=
  [ mkBar 100.0 100.1 99.9 100.0;
    mkBar 100.0 100.6 100.0 100.5;
    mkBar 100.5 100.7 100.4 100.6;
    mkBar 100.6 100.7 100.3 100.4;
    mkBar 100.4 100.5 100.2 100.3;
    mkBar 100.3 100.4 100.1 100.2;
    mkBar 100.2 100.3 100.0 100.1;
    mkBar 100.1 100.2 99.9 100.0;
    mkBar 100.0 100.15 99.9 100.0;
    mkBar 100.0 100.1 99.9 100.0 ].

(** Ten bars whose last five are full-bodied candles of alternating
    colour, each engulfing the one before it: 99.4-99.6 up, 99.7-99.3 down,
    99.2-99.8 up, 99.9-99.1 down, 99.0-100.0 up. *)
Definition engulfing_series : DataFrame :=
  [ mkBar 99.4 99.5 99.4 99.5;
    mkBar 99.4 99.5 99.4 99.5;
    mkBar 99.4 99.5 99.4 99.5;
    mkBar 99.4 99.5 99.4 99.5;
    mkBar 99.4 99.5 99.4 99.5;
    mkBar 99.4 99.6 99.4 99.6;
    mkBar 99.7 99.7 99.3 99.3;
    mkBar 99.2 99.8 99.2 99.8;
    mkBar 99.9 99.9 99.1 99.1;
    mkBar 99.0 100.0 99.0 100.0 ].

(** Thirty bars around 100 (open and close 100.0, high 100.2, low 99.8)
    with a swing low of 99.0 at bar 10 and a swing high of 101.0 at
    bar 20. *)
Definition swing_series : DataFrame :=
  List.repeat (mkBar 100.0 100.2 99.8 100.0) 10
  ++ [mkBar 100.0 100.2 99.0 100.0]
  ++ List.repeat (mkBar 100.0 100.2 99.8 100.0) 9
  ++ [mkBar 100.0 101.0 99.8 100.0]
  ++ List.repeat (mkBar 100.0 100.2 99.8 100.0) 9.

(** A forecast: buy with confidence 60. *)
Definition forecast : SignalGenerator.Prediction :=
  SignalGenerator.mkPrediction false (Some Buy) (Some 60).

(** An aggregate verdict: buy, strength 80, success probability 90. *)
Definition verdict : Summary.t :=
  Summary.mk Buy High 80 90 80 0 0 None None ["H4"; "D1"]%string.

Definition analysis : SignalGenerator.AnalysisResults :=
  SignalGenerator.mkAnalysisResults false (Some verdict) [].

(** The outside world of one [generate_signal] call: bid 1.0999, ask
    1.1001, ATR 0.0010. *)
Definition market : SignalGenerator.Env :=
  SignalGenerator.mkEnv (Some (1.0999, 1.1001)) None (Some 0.0010)
                        "signal-1" 739924%Z.

Definition signal_settings : SignalGenerator.Settings :=
  SignalGenerator.mkSettings None None None.

(** A EURUSD buy candidate with the given identifier, status and success
    probability: entry 1.1000, stop 1.0985, target 1.1030. *)
Definition candidate (id status : string) (success_probability : Q)
  : SignalGenerator.CandidateSignal :=
  SignalGenerator.mkCandidateSignal id "EURUSD" Buy 1.1000 1.0985 1.1030 2
    74 success_probability 739924%Z ["H4"; "D1"]%string (Some verdict) forecast
    false status None.

(** Risk settings with every key absent: 2% per trade, 5% per day, 10% per
    week. *)
Definition risk_settings : RiskManager.Settings :=
  RiskManager.mkSettings None None None None None None None.

(** A broker reporting the given balance on the given day, ample free
    margin, no open position and default symbol metadata. *)
Definition broker (balance : Q) (day : Calendar.date) : RiskManager.Broker :=
  RiskManager.mkBroker
    (Some (RiskManager.mkAccountInfo (Some balance) (Some 100000)))
    (fun _ => Some (RiskManager.mkSymbolInfo None None None None))
    (fun _ _ _ => Some 100)
    [] day.

(** A manager that has already committed 4% today, Wednesday
    2026-11-04 (ordinal 739924, ISO week 45). *)
Definition used_four_percent : RiskManager.State :=
  RiskManager.mkState [] 4 4 739924%Z 45%Z.

End Examples.

(** ** The specification's wording, for comparison with the code *)

Module Spec.

(** "majority vote over the three detector signals sets direction": the
    signal that at least two detectors give, neutral when no two agree. *)
Definition majority (a b c : Signal) : Signal :=
  if Signal_eqb a b || Signal_eqb a c then a
  else if Signal_eqb b c then b
  else Neutral.

(** "confidence tier high if all three agree, medium if two agree,
    else low". *)
Definition confidence (a b c : Signal) : Confidence :=
  if Signal_eqb a b && Signal_eqb b c then High
  else if Signal_eqb a b || Signal_eqb a c || Signal_eqb b c then Medium
  else Low.

(** "the added term equals min(0.1 x |impact|, 1.0)". *)
Definition sentiment_term (impact : Q) : Q := Qmin (0.1 * Qabs impact) 1.0.

End Spec.

(* ================================================================== *)
(** * Part II: properties                                              *)
(* ================================================================== *)

(** ** Level merger *)

Section LevelMerger.

Variable threshold : Q.

Lemma fold_merge_step_None rest :
  fold_left (Utils.merge_step threshold) rest None = None.
Proof. induction rest as [|l rest IH]; simpl; auto. Qed.

Lemma fold_merge_step_from rest : forall pre m,
  fold_left (Utils.merge_step threshold) rest (Some (pre ++ [m]))
  = option_map (app pre) (Utils.merge_from threshold m rest).
Proof.
  induction rest as [|level rest IH]; intros pre m;
    cbn [fold_left Utils.merge_from Utils.merge_step].
  - reflexivity.
  - rewrite last_last, removelast_last.
    destruct (Qeq_bool m 0); [apply fold_merge_step_None|].
    destruct (Qle_bool (Qabs (level - m) / m) threshold).
    + apply IH.
    + rewrite IH.
      destruct (Utils.merge_from threshold level rest) as [out|]; simpl; auto.
      now rewrite <- app_assoc.
Qed.

Lemma insert_sorted_head x xs :
  Sorted Qle (x :: xs) -> Py.insert x xs = x :: xs.
Proof.
  intros H. destruct xs as [|y ys]; simpl; auto.
  apply Sorted_inv in H as [_ H]. apply HdRel_inv in H.
  apply Qle_bool_iff in H. now rewrite H.
Qed.

Lemma sorted_of_sorted xs : Sorted Qle xs -> Py.sorted xs = xs.
Proof.
  induction xs as [|x xs IH]; intros H; simpl; auto.
  rewrite IH by (now apply Sorted_inv in H).
  now apply insert_sorted_head.
Qed.

Lemma insert_Forall (P : Q -> Prop) x xs :
  P x -> Forall P xs -> Forall P (Py.insert x xs).
Proof.
  intros Hx H. induction H as [|y ys Hy Hys IH]; simpl.
  - auto.
  - destruct (Qle_bool x y); auto.
Qed.

Lemma sorted_Forall (P : Q -> Prop) xs :
  Forall P xs -> Forall P (Py.sorted xs).
Proof.
  induction 1; simpl; auto using insert_Forall.
Qed.

Lemma insert_HdRel a x xs :
  a <= x -> HdRel Qle a xs -> HdRel Qle a (Py.insert x xs).
Proof.
  intros Hax H. destruct xs as [|y ys]; simpl.
  - auto.
  - apply HdRel_inv in H. destruct (Qle_bool x y); auto.
Qed.

Lemma insert_Sorted x xs : Sorted Qle xs -> Sorted Qle (Py.insert x xs).
Proof.
  induction 1 as [|y ys Hys IH Hy]; simpl.
  - auto.
  - destruct (Qle_bool x y) eqn:E.
    + apply Qle_bool_iff in E. auto.
    + constructor; auto. apply insert_HdRel; auto.
      assert (~ x <= y) by (rewrite <- Qle_bool_iff; congruence). lra.
Qed.

Lemma sorted_Sorted xs : Sorted Qle (Py.sorted xs).
Proof. induction xs; simpl; auto using insert_Sorted. Qed.

Lemma Sorted_Qle_Forall x xs : Sorted Qle (x :: xs) -> Forall (Qle x) xs.
Proof.
  intros H. apply Sorted_StronglySorted in H.
  - now apply StronglySorted_inv in H.
  - intros a b c. apply Qle_trans.
Qed.

Lemma positive_not_zero m : 0 < m -> Qeq_bool m 0 = false.
Proof.
  intros H. destruct (Qeq_bool m 0) eqn:E; auto.
  apply Qeq_bool_iff in E. lra.
Qed.

Lemma relative_distance_mono m l h :
  0 < m -> m <= l -> l <= h -> Qabs (l - m) / m <= Qabs (h - m) / m.
Proof.
  intros Hm Hl Hh.
  rewrite (Qabs_pos (l - m)) by lra. rewrite (Qabs_pos (h - m)) by lra.
  unfold Qdiv. apply Qmult_le_compat_r; [lra|].
  apply Qlt_le_weak, Qinv_lt_0_compat, Hm.
Qed.

Lemma midpoint_bounds m l :
  m <= l -> m <= (m + l) / 2 /\ (m + l) / 2 <= l.
Proof.
  intros H. split.
  - apply Qle_shift_div_l; lra.
  - apply Qle_shift_div_r; lra.
Qed.

(** The loop, started at a positive level below the sorted positive
    levels still to come, returns a list that starts at or above it, is
    ascending and has separated neighbours. *)
Lemma merge_from_spec rest : forall m,
  0 < m -> Forall (Qlt 0) rest -> Sorted Qle (m :: rest) ->
  exists h t,
    Utils.merge_from threshold m rest = Some (h :: t) /\ m <= h /\
    Forall (Qlt 0) (h :: t) /\ Sorted Qle (h :: t) /\
    Sorted (Utils.separated threshold) (h :: t).
Proof.
  induction rest as [|l rest IH]; intros m Hm Hpos Hs;
    cbn [Utils.merge_from].
  - exists m, []. repeat split; auto; lra.
  - rewrite (positive_not_zero m Hm).
    pose proof (Sorted_Qle_Forall _ _ Hs) as Hall.
    apply Sorted_inv in Hs as [Hs Hhd]. apply HdRel_inv in Hhd.
    apply Forall_inv_tail in Hall.
    pose proof (Forall_inv Hpos) as Hl. apply Forall_inv_tail in Hpos.
    destruct (Qle_bool (Qabs (l - m) / m) threshold) eqn:E.
    + destruct (midpoint_bounds m l Hhd) as [Hlo Hhi].
      destruct (IH ((m + l) / 2)) as (h & t & -> & Hh & Hp & Hq & Hsep).
      * lra.
      * exact Hpos.
      * constructor; [now apply Sorted_inv in Hs|].
        apply Sorted_inv in Hs as [_ Hs]. destruct rest; constructor.
        apply HdRel_inv in Hs. lra.
      * exists h, t. repeat split; auto. lra.
    + destruct (IH l Hl Hpos Hs) as (h & t & -> & Hh & Hp & Hq & Hsep).
      exists m, (h :: t). cbn [option_map]. repeat split; auto.
      * lra.
      * constructor; auto. constructor. lra.
      * constructor; auto. constructor. unfold Utils.separated.
        assert (~ Qabs (l - m) / m <= threshold)
          by (rewrite <- Qle_bool_iff; congruence).
        pose proof (relative_distance_mono m l h Hm Hhd Hh). lra.
Qed.

(** On a list whose neighbours are already separated the loop changes
    nothing. *)
Lemma merge_from_fixpoint t : forall h,
  Forall (Qlt 0) (h :: t) -> Sorted (Utils.separated threshold) (h :: t) ->
  Utils.merge_from threshold h t = Some (h :: t).
Proof.
  induction t as [|l t IH]; intros h Hpos Hsep; cbn [Utils.merge_from].
  - reflexivity.
  - rewrite (positive_not_zero h (Forall_inv Hpos)).
    apply Forall_inv_tail in Hpos.
    apply Sorted_inv in Hsep as [Hsep Hhd]. apply HdRel_inv in Hhd.
    unfold Utils.separated in Hhd.
    destruct (Qle_bool (Qabs (l - h) / h) threshold) eqn:E.
    + apply Qle_bool_iff in E. lra.
    + now rewrite IH.
Qed.

Lemma merge_close_levels_from x xs :
  Utils.merge_close_levels (x :: xs) threshold
  = match Py.sorted (x :: xs) with
    | [] => Some []
    | first :: rest => Utils.merge_from threshold first rest
    end.
Proof.
  unfold Utils.merge_close_levels.
  destruct (Py.sorted (x :: xs)) as [|first rest]; auto.
  change (Some [first]) with (Some ([] ++ [first])).
  rewrite (fold_merge_step_from rest [] first).
  now destruct (Utils.merge_from threshold first rest).
Qed.

End LevelMerger.

Lemma merge_close_levels_properties (levels : list Q) (threshold : Q) :
  Forall (Qlt 0) levels ->
  exists merged,
    Utils.merge_close_levels levels threshold = Some merged /\
    Sorted Qle merged /\
    Sorted (Utils.separated threshold) merged /\
    Utils.merge_close_levels merged threshold = Some merged.
Proof.
  intros Hpos. destruct levels as [|x xs].
  - exists []. repeat split; auto.
  - rewrite merge_close_levels_from.
    pose proof (sorted_Sorted (x :: xs)) as Hs.
    pose proof (sorted_Forall _ _ Hpos) as Hp.
    destruct (Py.sorted (x :: xs)) as [|first rest] eqn:E.
    + exists []. repeat split; auto.
    + destruct (merge_from_spec threshold rest first)
        as (h & t & Hm & _ & Hp' & Hs' & Hsep).
      * exact (Forall_inv Hp).
      * exact (Forall_inv_tail Hp).
      * exact Hs.
      * exists (h :: t). repeat split; auto.
        rewrite merge_close_levels_from, (sorted_of_sorted _ Hs').
        now apply merge_from_fixpoint.
Qed.

(** The engine's private copy of the merger is the same function. *)
Lemma _merge_levels_is_merge_close_levels levels threshold :
  AnalysisEngine._merge_levels levels threshold
  = Utils.merge_close_levels levels threshold.
Proof. reflexivity. Qed.

(** Claim C5.  For every list of (positive) price levels and every relative
    tolerance, [merge_close_levels] returns a list that is sorted ascending,
    in which every two neighbouring levels are farther apart, relative to
    the lower one, than the tolerance, and which the merger maps to itself:
    [merge(merge(x)) = merge(x)]; the engine's [_merge_levels] is the same
    function. *)
Theorem merge_close_levels_sorted_separated_idempotent
    (levels : list Q) (threshold : Q) :
  Forall (Qlt 0) levels ->
  exists merged,
    Utils.merge_close_levels levels threshold = Some merged /\
    AnalysisEngine._merge_levels levels threshold = Some merged /\
    Sorted Qle merged /\
    Sorted (Utils.separated threshold) merged /\
    Utils.merge_close_levels merged threshold = Some merged.
Proof.
  intros Hpos.
  destruct (merge_close_levels_properties levels threshold Hpos)
    as (merged & H1 & H2 & H3 & H4).
  exists merged. repeat split; auto.
Qed.

Lemma merge_close_levels_sorted_separated_idempotent_witness :
  Forall (Qlt 0) [1.1000; 1.1003; 1.1050] /\
  exists merged,
    Utils.merge_close_levels [1.1000; 1.1003; 1.1050] 0.0005 = Some merged /\
    AnalysisEngine._merge_levels [1.1000; 1.1003; 1.1050] 0.0005 = Some merged /\
    Sorted Qle merged /\
    Sorted (Utils.separated 0.0005) merged /\
    Utils.merge_close_levels merged 0.0005 = Some merged.
Proof.
  split.
  - repeat constructor.
  - apply (merge_close_levels_sorted_separated_idempotent
             [1.1000; 1.1003; 1.1050] 0.0005).
    repeat constructor.
Defined.

(** The worked example of the level merger: 1.1000 and 1.1003 are within
    0.05% and are averaged, 1.1050 is kept. *)
Example merge_close_levels_example :
  option_map (map Qred) (Utils.merge_close_levels [1.1003; 1.1050; 1.1000] 0.0005)
  = Some [Qred 1.10015; Qred 1.1050].
Proof. vm_compute. reflexivity. Qed.

(** A level equal to zero makes the division by [merged[-1]] fail. *)
Example merge_close_levels_zero_level :
  Utils.merge_close_levels [0; 1] 0.0005 = None.
Proof. reflexivity. Qed.

(** ** Arithmetic of [sum], [min], [max] *)

Lemma Qltb_lt x y : Py.Qltb x y = true <-> x < y.
Proof.
  unfold Py.Qltb. rewrite negb_true_iff.
  destruct (Qle_bool y x) eqn:E.
  - apply Qle_bool_iff in E. split; [discriminate | lra].
  - assert (~ y <= x) by (rewrite <- Qle_bool_iff; congruence).
    split; [lra | reflexivity].
Qed.

Lemma Qltb_ge x y : Py.Qltb x y = false <-> y <= x.
Proof.
  destruct (Py.Qltb x y) eqn:E.
  - apply Qltb_lt in E. split; [discriminate | lra].
  - assert (~ x < y) by (rewrite <- Qltb_lt; congruence).
    split; [lra | reflexivity].
Qed.

Lemma fold_Qplus_acc xs : forall a,
  fold_left Qplus xs a == a + fold_left Qplus xs 0.
Proof.
  induction xs as [|x xs IH]; intros a; simpl.
  - lra.
  - rewrite (IH (a + x)), (IH (0 + x)). lra.
Qed.

Lemma sum_cons x xs : Py.sum (x :: xs) == x + Py.sum xs.
Proof.
  unfold Py.sum. simpl. rewrite fold_Qplus_acc. lra.
Qed.

Lemma sum_map_ext {A : Type} (f g : A -> Q) xs :
  (forall x, In x xs -> f x == g x) ->
  Py.sum (map f xs) == Py.sum (map g xs).
Proof.
  induction xs as [|x xs IH]; intros H; simpl.
  - reflexivity.
  - rewrite !sum_cons.
    assert (E1 : f x == g x) by (apply H; simpl; auto).
    assert (E2 : Py.sum (map f xs) == Py.sum (map g xs))
      by (apply IH; intros; apply H; simpl; auto).
    lra.
Qed.

Lemma sum_map_div {A : Type} (f : A -> Q) c xs :
  Py.sum (map (fun x => f x / c) xs) == Py.sum (map f xs) / c.
Proof.
  induction xs as [|x xs IH]; simpl.
  - unfold Py.sum; simpl. unfold Qdiv. lra.
  - rewrite !sum_cons, IH. unfold Qdiv. lra.
Qed.

Lemma sum_map_positive {A : Type} (f : A -> Q) xs :
  xs <> [] -> (forall x, In x xs -> 0 < f x) -> 0 < Py.sum (map f xs).
Proof.
  intros Hne H. destruct xs as [|x xs]; [congruence|]. clear Hne.
  revert x H. induction xs as [|y ys IH]; intros x H; simpl map.
  - rewrite sum_cons. unfold Py.sum; simpl.
    pose proof (H x (or_introl eq_refl)). lra.
  - rewrite sum_cons.
    pose proof (H x (or_introl eq_refl)).
    assert (0 < Py.sum (map f (y :: ys))) by (apply IH; intros; apply H; simpl; auto).
    simpl map in *. lra.
Qed.

(** ** Cross-timeframe aggregation: weight renormalisation *)

Lemma existsb_eqb_In tf present :
  In tf present -> existsb (String.eqb tf) present = true.
Proof.
  intros H. apply existsb_exists. exists tf. split; auto.
  apply String.eqb_refl.
Qed.

Lemma lookup_scaled (table : Dict.t Q) present total tf :
  In tf present ->
  Dict.lookup tf
    (map (fun '(k, w) =>
            if existsb (String.eqb k) present then (k, w / total) else (k, w))
         table)
  = option_map (fun w => w / total) (Dict.lookup tf table).
Proof.
  intros Hin. induction table as [|[k w] table IH]; simpl; auto.
  destruct (existsb (String.eqb k) present) eqn:Ek; simpl;
    destruct (String.eqb tf k) eqn:E; auto.
  apply String.eqb_eq in E. subst k.
  rewrite (existsb_eqb_In _ _ Hin) in Ek. discriminate.
Qed.

Lemma known_weight_positive tf :
  In tf (Dict.keys AnalysisEngine.timeframe_weights) ->
  0 < Py.get (Dict.lookup tf AnalysisEngine.timeframe_weights) 0.
Proof.
  simpl. intros [<-|[<-|[<-|[<-|[<-|[]]]]]]; reflexivity.
Qed.

Lemma total_weight_positive present :
  present <> [] ->
  (forall tf, In tf present ->
              In tf (Dict.keys AnalysisEngine.timeframe_weights)) ->
  0 < AnalysisEngine.total_weight present.
Proof.
  intros Hne Hknown. unfold AnalysisEngine.total_weight.
  apply sum_map_positive; auto using known_weight_positive.
Qed.

(** Claim C7.  For every non-empty collection of known timeframes
    (M5, M15, H1, H4, D1) present in the analysis results, the renormalised
    weights of the present timeframes sum to 1. *)
Theorem renormalized_weights_sum_to_one (present : list string) :
  present <> [] ->
  (forall tf, In tf present ->
              In tf (Dict.keys AnalysisEngine.timeframe_weights)) ->
  Py.sum (map (fun tf =>
                 Py.get (Dict.lookup tf (AnalysisEngine.normalized_weights present)) 0)
              present)
  == 1.
Proof.
  intros Hne Hknown.
  pose proof (total_weight_positive present Hne Hknown) as Htotal.
  unfold AnalysisEngine.normalized_weights.
  rewrite (proj2 (Qltb_lt _ _) Htotal).
  rewrite (sum_map_ext _
             (fun tf => Py.get (Dict.lookup tf AnalysisEngine.timeframe_weights) 0
                        / AnalysisEngine.total_weight present)).
  - rewrite sum_map_div. fold (AnalysisEngine.total_weight present).
    field. lra.
  - intros tf Hin. rewrite (lookup_scaled _ present _ tf Hin).
    destruct (Dict.lookup tf AnalysisEngine.timeframe_weights); simpl.
    + reflexivity.
    + unfold Qdiv. lra.
Qed.

Lemma renormalized_weights_sum_to_one_witness :
  ["H1"; "D1"]%string <> [] /\
  (forall tf, In tf ["H1"; "D1"]%string ->
              In tf (Dict.keys AnalysisEngine.timeframe_weights)) /\
  Py.sum (map (fun tf =>
                 Py.get (Dict.lookup tf
                           (AnalysisEngine.normalized_weights ["H1"; "D1"]%string)) 0)
              ["H1"; "D1"]%string)
  == 1.
Proof.
  assert (Hne : ["H1"; "D1"]%string <> []) by discriminate.
  assert (Hknown : forall tf, In tf ["H1"; "D1"]%string ->
                     In tf (Dict.keys AnalysisEngine.timeframe_weights))
    by (simpl; intuition).
  split; [exact Hne | split; [exact Hknown |]].
  exact (renormalized_weights_sum_to_one ["H1"; "D1"]%string Hne Hknown).
Defined.

(** With H1 and D1 present the weights 0.20 and 0.35 become 4/11 and 7/11. *)
Example normalized_weights_example :
  map (fun '(tf, w) => (tf, Qred w))
      (AnalysisEngine.normalized_weights ["H1"; "D1"]%string)
  = [("M5", 1 # 20); ("M15", 1 # 10); ("H1", 4 # 11); ("H4", 3 # 10);
     ("D1", 7 # 11)]%string.
Proof. vm_compute. reflexivity. Qed.

(** ** Cross-timeframe aggregation: the sentiment term *)

Lemma sentiment_increment_bounds impact :
  0 <= sentiment_increment impact <= 0.1.
Proof.
  unfold sentiment_increment.
  pose proof (Qabs_nonneg impact).
  destruct (Q.min_spec (Qabs impact) 1.0) as [[H1 H2]|[H1 H2]];
    rewrite H2; lra.
Qed.

(** Claim C4, as the code has it.  A positive impact adds
    [0.1 * min(|impact|, 1.0)] to the buy weight and leaves the sell weight,
    a negative impact adds it to the sell weight and leaves the buy weight,
    a zero impact changes nothing; the added term lies between 0 and 0.1. *)
Theorem sentiment_term_added_to_matching_side (buy_weight sell_weight impact : Q) :
  let after := AnalysisEngine.add_news_impact (buy_weight, sell_weight) impact in
  (0 < impact ->
     fst after == buy_weight + sentiment_increment impact /\
     snd after = sell_weight) /\
  (impact < 0 ->
     fst after = buy_weight /\
     snd after == sell_weight + sentiment_increment impact) /\
  (impact == 0 -> after = (buy_weight, sell_weight)) /\
  0 <= sentiment_increment impact <= 0.1.
Proof.
  cbn zeta. unfold AnalysisEngine.add_news_impact.
  repeat split; try apply sentiment_increment_bounds.
  - apply Qltb_lt in H. rewrite H. cbn [fst].
    unfold sentiment_increment. rewrite (Qabs_pos impact) by (apply Qltb_lt in H; lra).
    reflexivity.
  - apply Qltb_lt in H. now rewrite H.
  - assert (E : Py.Qltb 0 impact = false) by (apply Qltb_ge; lra).
    rewrite E. apply Qltb_lt in H. now rewrite H.
  - assert (E : Py.Qltb 0 impact = false) by (apply Qltb_ge; lra).
    rewrite E. apply Qltb_lt in H. rewrite H. reflexivity.
  - intros H.
    assert (E1 : Py.Qltb 0 impact = false) by (apply Qltb_ge; lra).
    assert (E2 : Py.Qltb impact 0 = false) by (apply Qltb_ge; lra).
    now rewrite E1, E2.
Qed.

Lemma sentiment_term_added_to_matching_side_witness :
  0 < 5 /\
  fst (AnalysisEngine.add_news_impact (0.62, 0.30) 5)
  == 0.62 + sentiment_increment 5.
Proof.
  assert (H : 0 < 5) by reflexivity.
  split; [exact H |].
  exact (proj1 (proj1 (sentiment_term_added_to_matching_side 0.62 0.30 5) H)).
Defined.

(** Claim C4 as stated fails: for an impact of 5 the code adds 0.1 to the
    buy weight, whereas [min(0.1 * |impact|, 1.0)] is 0.5. *)
Lemma sentiment_term_is_not_min_of_scaled_impact :
  fst (AnalysisEngine.add_news_impact (0, 0) 5) - 0 == 0.1 /\
  Spec.sentiment_term 5 == 0.5 /\
  ~ fst (AnalysisEngine.add_news_impact (0, 0) 5) - 0 == Spec.sentiment_term 5.
Proof.
  repeat split; vm_compute; congruence.
Qed.

(** ** Timeframe summarizer *)

Section TimeframeSummarizer.

Import AnalysisEngine.

Variable r : TimeframeResults.

Let a := Py.get (DetectorResult.signal (ict r)) Neutral.
Let b := Py.get (DetectorResult.signal (smc r)) Neutral.
Let c := Py.get (DetectorResult.signal (price_action r)) Neutral.
Let buys := count_signal Buy [a; b; c].
Let sells := count_signal Sell [a; b; c].

(** What the summary holds whenever it is built. *)
Lemma timeframe_summary_fields s :
  _create_timeframe_summary r = Some s ->
  TimeframeSummary.signal s
  = (if (sells <? buys)%nat then Buy
     else if (buys <? sells)%nat then Sell else Neutral) /\
  TimeframeSummary.confidence s
  = (if (buys =? 3)%nat || (sells =? 3)%nat then High
     else if (buys =? 2)%nat || (sells =? 2)%nat then Medium else Low) /\
  TimeframeSummary.strength s
  = (Py.get (DetectorResult.strength (ict r)) 0
     + Py.get (DetectorResult.strength (smc r)) 0
     + Py.get (DetectorResult.strength (price_action r)) 0) / 3.
Proof.
  unfold _create_timeframe_summary.
  destruct (_merge_levels _ _) as [sup|]; cbn [bind]; [|discriminate].
  destruct (_merge_levels _ _) as [res|]; cbn [bind]; [|discriminate].
  intros [= <-]. cbn. auto.
Qed.

(** The summary is built whenever all collected levels are positive. *)
Lemma timeframe_summary_exists :
  Forall (Qlt 0)
    (Py.get (DetectorResult.support_levels (ict r)) []
     ++ Py.get (DetectorResult.support_levels (smc r)) []
     ++ Py.get (DetectorResult.support_levels (price_action r)) []) ->
  Forall (Qlt 0)
    (Py.get (DetectorResult.resistance_levels (ict r)) []
     ++ Py.get (DetectorResult.resistance_levels (smc r)) []
     ++ Py.get (DetectorResult.resistance_levels (price_action r)) []) ->
  exists s, _create_timeframe_summary r = Some s.
Proof.
  intros Hs Hr. unfold _create_timeframe_summary.
  destruct (merge_close_levels_properties _ default_threshold Hs) as (sup & E1 & _).
  destruct (merge_close_levels_properties _ default_threshold Hr) as (res & E2 & _).
  rewrite <- _merge_levels_is_merge_close_levels in E1, E2.
  rewrite E1. cbn [bind]. rewrite E2. cbn [bind]. eauto.
Qed.

End TimeframeSummarizer.

Ltac settle_votes :=
  repeat split; intros; cbn in *;
  try congruence; try lia; try tauto;
  intuition (congruence || lia).

(** Claim C6, as the code has it.  The direction is buy when more detectors
    say buy than sell, sell when more say sell than buy, neutral otherwise
    (neutral votes are not counted); confidence is high iff all three say
    buy or all three say sell, medium iff exactly two say buy or exactly two
    say sell, low otherwise; strength is the arithmetic mean of the three
    strengths.  When no detector is neutral this is the majority vote and
    the agreement count of the specification.  The summary is built
    whenever the collected levels are positive. *)
Theorem timeframe_summary_votes_and_mean (r : AnalysisEngine.TimeframeResults) :
  let a := Py.get (DetectorResult.signal (AnalysisEngine.ict r)) Neutral in
  let b := Py.get (DetectorResult.signal (AnalysisEngine.smc r)) Neutral in
  let c := Py.get (DetectorResult.signal (AnalysisEngine.price_action r)) Neutral in
  let buys := AnalysisEngine.count_signal Buy [a; b; c] in
  let sells := AnalysisEngine.count_signal Sell [a; b; c] in
  (forall s, AnalysisEngine._create_timeframe_summary r = Some s ->
     (TimeframeSummary.signal s = Buy <-> (sells < buys)%nat) /\
     (TimeframeSummary.signal s = Sell <-> (buys < sells)%nat) /\
     (TimeframeSummary.signal s = Neutral <-> buys = sells) /\
     (TimeframeSummary.confidence s = High <->
        (a = Buy /\ b = Buy /\ c = Buy) \/ (a = Sell /\ b = Sell /\ c = Sell)) /\
     (TimeframeSummary.confidence s = Medium <-> buys = 2%nat \/ sells = 2%nat) /\
     (TimeframeSummary.confidence s = Low <-> (buys <= 1)%nat /\ (sells <= 1)%nat) /\
     (a <> Neutral -> b <> Neutral -> c <> Neutral ->
        TimeframeSummary.signal s = Spec.majority a b c /\
        TimeframeSummary.confidence s = Spec.confidence a b c) /\
     TimeframeSummary.strength s
     == (Py.get (DetectorResult.strength (AnalysisEngine.ict r)) 0
         + Py.get (DetectorResult.strength (AnalysisEngine.smc r)) 0
         + Py.get (DetectorResult.strength (AnalysisEngine.price_action r)) 0) / 3) /\
  (Forall (Qlt 0)
     (Py.get (DetectorResult.support_levels (AnalysisEngine.ict r)) []
      ++ Py.get (DetectorResult.support_levels (AnalysisEngine.smc r)) []
      ++ Py.get (DetectorResult.support_levels (AnalysisEngine.price_action r)) []) ->
   Forall (Qlt 0)
     (Py.get (DetectorResult.resistance_levels (AnalysisEngine.ict r)) []
      ++ Py.get (DetectorResult.resistance_levels (AnalysisEngine.smc r)) []
      ++ Py.get (DetectorResult.resistance_levels (AnalysisEngine.price_action r)) []) ->
   exists s, AnalysisEngine._create_timeframe_summary r = Some s).
Proof.
  cbn zeta. split; [|apply timeframe_summary_exists].
  intros s Hs.
  destruct (timeframe_summary_fields r s Hs) as (E1 & E2 & E3).
  rewrite E1, E2, E3. clear E1 E2 E3 Hs.
  destruct (Py.get (DetectorResult.signal (AnalysisEngine.ict r)) Neutral),
           (Py.get (DetectorResult.signal (AnalysisEngine.smc r)) Neutral),
           (Py.get (DetectorResult.signal (AnalysisEngine.price_action r)) Neutral);
    settle_votes.
Qed.

(** The worked example: signals {buy, buy, sell} with strengths
    {80, 60, 50} give buy, medium and the mean 190/3 = 63.33... *)
Lemma timeframe_summary_votes_and_mean_witness :
  let r := AnalysisEngine.mkTimeframeResults
             (DetectorResult.verdict Buy 80) (DetectorResult.verdict Buy 60)
             (DetectorResult.verdict Sell 50) in
  let s := TimeframeSummary.mk Buy Medium ((80 + 60 + 50) / 3) 2 1 [] [] [] in
  AnalysisEngine._create_timeframe_summary r = Some s /\
  TimeframeSummary.signal s = Buy /\
  TimeframeSummary.confidence s = Medium /\
  TimeframeSummary.strength s == 190 # 3.
Proof.
  intros r s.
  destruct (proj1 (timeframe_summary_votes_and_mean r) s eq_refl)
    as (H1 & _ & _ & _ & H5 & _ & _ & H8).
  split; [reflexivity|].
  split; [apply H1; repeat constructor|].
  split; [apply H5; left; reflexivity|].
  rewrite H8. reflexivity.
Defined.

(** Claim C6 as stated fails on neutral votes.  Three neutral (or failed)
    detectors all agree, yet the confidence is low, not high; and with one
    buy and two neutral votes the code answers buy with low confidence,
    where the majority is neutral and exactly two detectors agree. *)
Lemma timeframe_summary_ignores_neutral_agreement :
  (exists s,
     AnalysisEngine._create_timeframe_summary
       (AnalysisEngine.mkTimeframeResults
          DetectorResult.error DetectorResult.error DetectorResult.error)
     = Some s /\
     TimeframeSummary.confidence s = Low /\
     Spec.confidence Neutral Neutral Neutral = High /\
     TimeframeSummary.confidence s <> Spec.confidence Neutral Neutral Neutral) /\
  (exists s,
     AnalysisEngine._create_timeframe_summary
       (AnalysisEngine.mkTimeframeResults
          (DetectorResult.verdict Buy 80) (DetectorResult.verdict Neutral 0)
          (DetectorResult.verdict Neutral 0))
     = Some s /\
     TimeframeSummary.signal s = Buy /\
     Spec.majority Buy Neutral Neutral = Neutral /\
     TimeframeSummary.confidence s = Low /\
     Spec.confidence Buy Neutral Neutral = Medium /\
     TimeframeSummary.signal s <> Spec.majority Buy Neutral Neutral).
Proof.
  split; eexists; (split; [reflexivity|]);
    repeat split; try reflexivity; cbn; discriminate.
Qed.

(** ** Liquidity/order-block detector on short series *)

Lemma short_frame (df : DataFrame) (n : nat) :
  (List.length df < n)%nat -> (List.length df <? n)%nat = true.
Proof. intros H. now apply Nat.ltb_lt. Qed.

(** Claim C10, as the code has it.  Each sub-feature of the detector
    returns its empty structure below its own minimum bar count (30 for
    liquidity levels, 20 for order blocks, 50 for breaker blocks, 10 for
    fair-value gaps).  On a non-empty series shorter than all of them
    (fewer than 10 bars) [analyze] returns empty structure lists, a neutral
    signal and zero strength; on an empty series it returns the error
    result, which carries no signal and no strength.  [analyze] is total:
    it returns a result for every series. *)
Theorem ict_short_series_degrades (df : DataFrame) :
  ((List.length df < 30)%nat ->
     ICTStrategy._find_liquidity_levels df = ICTStrategy.mkLiquidityLevels [] []) /\
  ((List.length df < 20)%nat ->
     ICTStrategy._find_order_blocks df = mkZones [] []) /\
  ((List.length df < 50)%nat ->
     ICTStrategy._find_breaker_blocks df = mkZones [] []) /\
  ((List.length df < 10)%nat ->
     ICTStrategy._find_fair_value_gaps df = mkZones [] []) /\
  ((0 < List.length df < 10)%nat ->
     ICTStrategy.analyze df = Some ICTStrategy.empty_analysis) /\
  (List.length df = 0%nat ->
     ICTStrategy.analyze df = None /\
     ICTStrategy.result df = DetectorResult.error).
Proof.
  repeat split.
  - intros H. unfold ICTStrategy._find_liquidity_levels.
    now rewrite (short_frame _ _ H).
  - intros H. unfold ICTStrategy._find_order_blocks.
    now rewrite (short_frame _ _ H).
  - intros H. unfold ICTStrategy._find_breaker_blocks.
    now rewrite (short_frame _ _ H).
  - intros H. unfold ICTStrategy._find_fair_value_gaps.
    now rewrite (short_frame _ _ H).
  - intros [Hpos Hlt]. destruct df as [|bar df]; [inversion Hpos|].
    unfold ICTStrategy.analyze, ICTStrategy._find_liquidity_levels,
      ICTStrategy._find_order_blocks, ICTStrategy._find_breaker_blocks,
      ICTStrategy._find_fair_value_gaps.
    rewrite (short_frame _ 30), (short_frame _ 20), (short_frame _ 50),
      (short_frame _ 10) by lia.
    reflexivity.
  - destruct df; [reflexivity | discriminate].
  - destruct df; [reflexivity | discriminate].
Qed.

Lemma ict_short_series_degrades_witness :
  (0 < List.length (firstn 9 Examples.gap_series) < 10)%nat /\
  ICTStrategy.analyze (firstn 9 Examples.gap_series)
  = Some ICTStrategy.empty_analysis.
Proof.
  assert (H : (0 < List.length (firstn 9 Examples.gap_series) < 10)%nat)
    by (cbn; lia).
  split; [exact H|].
  exact (proj1 (proj2 (proj2 (proj2 (proj2
           (ict_short_series_degrades (firstn 9 Examples.gap_series)))))) H).
Defined.

(** Claim C10 as stated fails: ten bars are fewer than the minimum of the
    liquidity (30), order-block (20) and breaker-block (50) sub-features,
    yet [analyze] finds a fair-value gap and returns a buy signal with
    positive strength. *)
Lemma ict_ten_bars_give_a_buy_signal :
  (List.length Examples.gap_series < 20)%nat /\
  exists a,
    ICTStrategy.analyze Examples.gap_series = Some a /\
    ICTStrategy.fair_value_gaps a <> mkZones [] [] /\
    ICTStrategy.signal a = Buy /\
    ICTStrategy.signal a <> Neutral /\
    0 < ICTStrategy.signal_strength a.
Proof.
  split; [cbn; lia|].
  eexists. split; [vm_compute; reflexivity|].
  repeat split; try discriminate.
Qed.

(** The same run: the gap has strength 20/21 and the signal strength is
    (2 * 20/21 + 2) * 10 = 820/21, about 39. *)
Example ict_ten_bars_strength :
  option_map (fun a => Qred (ICTStrategy.signal_strength a))
             (ICTStrategy.analyze Examples.gap_series)
  = Some (820 # 21).
Proof. vm_compute. reflexivity. Qed.

(** ** Range of strengths and probabilities *)


(** A winning side of the point system has strength in (0, 100]; the
    neutral strength is whatever the caller passes. *)
Lemma decide_range margin buy_score sell_score neutral_strength :
  0 <= margin -> 0 <= buy_score -> 0 <= sell_score ->
  0 <= neutral_strength <= 100 ->
  0 <= snd (ICTStrategy.decide margin buy_score sell_score neutral_strength)
    <= 100.
Proof.
  intros Hm Hb Hs Hn. unfold ICTStrategy.decide.
  destruct (Py.Qltb (sell_score + margin) buy_score) eqn:E1; cbn [snd].
  - split; [apply Q.min_glb; lra | apply Q.le_min_l].
  - destruct (Py.Qltb (buy_score + margin) sell_score); cbn [snd].
    + split; [apply Q.min_glb; lra | apply Q.le_min_l].
    + exact Hn.
Qed.

Lemma points_nonneg {A : Type} (score : A -> Q) xs :
  (forall x, In x xs -> 0 <= score x) -> 0 <= ICTStrategy.points score xs.
Proof.
  intros H. unfold ICTStrategy.points.
  assert (G : forall acc, 0 <= acc ->
                0 <= fold_left (fun acc x => acc + score x) xs acc).
  { induction xs as [|x xs IH]; intros acc Hacc; simpl.
    - exact Hacc.
    - apply IH.
      + intros y Hy. apply H. now right.
      + pose proof (H x (or_introl eq_refl)). lra. }
  apply G. lra.
Qed.

Lemma pattern_points_nonneg bull bear value patterns :
  0 <= value ->
  0 <= fst (ICTStrategy.pattern_points bull bear value patterns) /\
  0 <= snd (ICTStrategy.pattern_points bull bear value patterns).
Proof.
  intros Hv. unfold ICTStrategy.pattern_points.
  assert (G : forall acc : Q * Q, 0 <= fst acc /\ 0 <= snd acc ->
            0 <= fst (fold_left
                        (fun '(buy_score, sell_score) pattern =>
                           if existsb (fun w => Py.contains w pattern) bull
                           then (buy_score + value, sell_score)
                           else if existsb (fun w => Py.contains w pattern) bear
                                then (buy_score, sell_score + value)
                                else (buy_score, sell_score))
                        patterns acc)
            /\ 0 <= snd (fold_left
                        (fun '(buy_score, sell_score) pattern =>
                           if existsb (fun w => Py.contains w pattern) bull
                           then (buy_score + value, sell_score)
                           else if existsb (fun w => Py.contains w pattern) bear
                                then (buy_score, sell_score + value)
                                else (buy_score, sell_score))
                        patterns acc)).
  { induction patterns as [|p ps IH]; intros [b s] [Hb Hs]; simpl in *.
    - auto.
    - destruct (existsb (fun w => Py.contains w p) bull);
        [|destruct (existsb (fun w => Py.contains w p) bear)];
        apply IH; simpl; split; lra. }
  apply G. simpl. split; lra.
Qed.

(** The liquidity/order-block detector's strength lies in [0, 100] when
    the strengths of the structures it scores are not negative. *)
Lemma ict_signal_strength_in_range df liquidity order_blocks gaps patterns :
  (forall l, In l (ICTStrategy.buy_side liquidity ++ ICTStrategy.sell_side liquidity) ->
             0 <= ICTStrategy.strength l) ->
  (forall z, In z (bullish order_blocks ++ bearish order_blocks
                   ++ bullish gaps ++ bearish gaps) ->
             0 <= zone_strength z) ->
  0 <= snd (ICTStrategy._generate_signal df liquidity order_blocks gaps patterns)
    <= 100.
Proof.
  intros Hl Hz. unfold ICTStrategy._generate_signal.
  destruct (pattern_points_nonneg ["Bullish"%string] ["Bearish"%string] 2 patterns)
    as [Hp1 Hp2]; [lra|].
  destruct (ICTStrategy.pattern_points _ _ _ patterns) as [bp sp].
  cbn [fst snd] in Hp1, Hp2.
  assert (Hliq : forall d l, 0 <= ICTStrategy.strength l ->
                             0 <= ICTStrategy.liquidity_points d l).
  { intros d l H. unfold ICTStrategy.liquidity_points.
    destruct (_ && _); [lra|]. destruct (_ && _); lra. }
  assert (Hzone : forall z (c1 c2 : bool) k1 k2,
            In z (bullish order_blocks ++ bearish order_blocks
                  ++ bullish gaps ++ bearish gaps) ->
            0 <= k1 -> 0 <= k2 ->
            0 <= (if c1 then k1 * zone_strength z
                  else if c2 then k2 * zone_strength z else 0)).
  { intros z c1 c2 k1 k2 Hin Hk1 Hk2. pose proof (Hz z Hin).
    destruct c1; [|destruct c2]; try lra; apply Qmult_le_0_compat; lra. }
  repeat match goal with
  | |- context [ICTStrategy.points ?f ?xs] =>
      let p := fresh "p" in
      let Hp := fresh "Hp" in
      assert (Hp : 0 <= ICTStrategy.points f xs)
        by (apply points_nonneg; intros x Hx;
            first [ apply Hliq, Hl; rewrite in_app_iff; auto
                  | apply Hzone; [rewrite !in_app_iff; auto | lra | lra] ]);
      remember (ICTStrategy.points f xs) as p eqn:Ep; clear Ep
  end.
  apply decide_range; lra.
Qed.

(** The structure/zone detector's strength lies in [0, 100] for every
    input: its points are non-negative constants. *)
Lemma smc_signal_strength_in_range df results :
  0 <= snd (SMCStrategy._generate_signal df results) <= 100.
Proof.
  unfold SMCStrategy._generate_signal.
  destruct (pattern_points_nonneg ["Bullish"%string] ["Bearish"%string] 2
              (SMCStrategy.patterns results)) as [Hp1 Hp2]; [lra|].
  destruct (ICTStrategy.pattern_points _ _ _ (SMCStrategy.patterns results))
    as [bp sp].
  cbn [fst snd] in Hp1, Hp2.
  assert (Hmoves : forall d i c, 0 <= SMCStrategy.continuation_points d i c).
  { intros d i c. unfold SMCStrategy.continuation_points.
    destruct (rev i) as [|li ?]; [lra|]. destruct (rev c) as [|lc ?]; [lra|].
    destruct (_ <? _)%nat; [|lra].
    destruct (SMCStrategy.move_direction li), (SMCStrategy.move_direction lc), d;
      try lra; destruct (Py.Qltb _ _); lra. }
  assert (Harea : forall p a b x, 0 <= a -> 0 <= b ->
                                  0 <= SMCStrategy.area_points p a b x).
  { intros p a b x Ha Hb. unfold SMCStrategy.area_points.
    destruct (_ && _); [|lra]. destruct (Py.contains _ _); [lra|].
    destruct (Py.contains _ _); lra. }
  pose proof (Hmoves SMCStrategy.up (SMCStrategy.impulse_moves results)
                (SMCStrategy.corrective_moves results)) as Hup.
  pose proof (Hmoves SMCStrategy.down (SMCStrategy.impulse_moves results)
                (SMCStrategy.corrective_moves results)) as Hdown.
  repeat match goal with
  | |- context [ICTStrategy.points ?f ?xs] =>
      let p := fresh "p" in
      let Hp := fresh "Hp" in
      assert (Hp : 0 <= ICTStrategy.points f xs)
        by (apply points_nonneg; intros x Hx;
            first [ apply Harea; lra
                  | destruct (_ && _); [lra|]; destruct (_ && _); lra ]);
      remember (ICTStrategy.points f xs) as p eqn:Ep; clear Ep
  end.
  destruct (SMCStrategy.trend _), (SMCStrategy.current_phase _);
    apply decide_range; lra.
Qed.

(** Claim C3 at the failing input.  On [engulfing_series] the price-action
    detector scores 21 buy points (three bullish candles: 4 + 8.5 + 8.5) and
    18.5 sell points (two bearish candles, 8.5 each, and the r1 pivot,
    1.5); neither side leads by more than 3, so the signal is neutral and
    its strength is [max(21, 18.5) * 5 = 105], above 100. *)
Theorem price_action_neutral_strength_exceeds_100
    (trend_body : DataFrame -> PriceActionStrategy.TrendAnalysis)
    (support_resistance_body : DataFrame -> list Q * list Q)
    (momentum_body : DataFrame -> list PriceActionStrategy.MomentumSignal)
    (price_patterns_body :
       DataFrame -> list Q * list Q -> PriceActionStrategy.TrendAnalysis ->
       list string) :
  exists a,
    PriceActionStrategy.analyze trend_body support_resistance_body
      momentum_body price_patterns_body Examples.engulfing_series = Some a /\
    PriceActionStrategy.signal a = Neutral /\
    PriceActionStrategy.signal_strength a == 105 /\
    ~ PriceActionStrategy.signal_strength a <= 100.
Proof.
  eexists. split; [vm_compute; reflexivity|].
  repeat split; vm_compute; congruence.
Qed.

(** On five bars the price-action detector finds no candle formation, yet
    it still computes the pivots of the last bar: the r1 pivot is within
    0.5% above the close, so the result is neutral with strength
    [1.5 * 5 = 7.5], not zero. *)
Lemma price_action_short_series_strength
    (trend_body : DataFrame -> PriceActionStrategy.TrendAnalysis)
    (support_resistance_body : DataFrame -> list Q * list Q)
    (momentum_body : DataFrame -> list PriceActionStrategy.MomentumSignal)
    (price_patterns_body :
       DataFrame -> list Q * list Q -> PriceActionStrategy.TrendAnalysis ->
       list string) :
  exists a,
    PriceActionStrategy.analyze trend_body support_resistance_body
      momentum_body price_patterns_body (skipn 5 Examples.engulfing_series)
    = Some a /\
    PriceActionStrategy.candle_patterns a = [] /\
    PriceActionStrategy.signal a = Neutral /\
    PriceActionStrategy.signal_strength a == 7.5.
Proof.
  eexists. split; [vm_compute; reflexivity|].
  repeat split.
Qed.

(** The candle formations found on [engulfing_series], strongest first. *)
Example engulfing_series_candles :
  map (fun p => (PriceActionStrategy.candle_index p,
                 PriceActionStrategy.pattern p))
      (PriceActionStrategy._identify_candle_patterns Examples.engulfing_series)
  = [ (6%nat, "Bearish Engulfing"); (7%nat, "Bullish Engulfing");
      (8%nat, "Bearish Engulfing"); (9%nat, "Bullish Engulfing");
      (5%nat, "Bullish Marubozu"); (6%nat, "Bearish Marubozu");
      (7%nat, "Bullish Marubozu"); (8%nat, "Bearish Marubozu");
      (9%nat, "Bullish Marubozu") ]%string.
Proof. vm_compute. reflexivity. Qed.

(** ** Candidate-signal lifecycle *)

Section SignalStore.

Import SignalGenerator.


Lemma get_update_first_same (f : CandidateSignal -> CandidateSignal) store i :
  (forall s, id (f s) = id s) ->
  get_signal_by_id (update_first i f store) i
  = option_map f (get_signal_by_id store i).
Proof.
  intros Hf. unfold get_signal_by_id.
  induction store as [|s store IH]; simpl; auto.
  destruct (String.eqb (id s) i) eqn:E; simpl.
  - now rewrite Hf, E.
  - now rewrite E.
Qed.

Lemma get_update_first_other (f : CandidateSignal -> CandidateSignal) store i j :
  (forall s, id (f s) = id s) -> i <> j ->
  get_signal_by_id (update_first j f store) i = get_signal_by_id store i.
Proof.
  intros Hf Hij. unfold get_signal_by_id.
  induction store as [|s store IH]; simpl; auto.
  destruct (String.eqb (id s) j) eqn:E; simpl.
  - rewrite Hf. apply String.eqb_eq in E.
    assert (String.eqb (id s) i = false) as ->
      by (apply String.eqb_neq; congruence).
    reflexivity.
  - destruct (String.eqb (id s) i); auto.
Qed.

Lemma status_writer_keeps_id new_status details s :
  id (let s := set_status s new_status in
      match details with
      | Some d => if String.eqb new_status "executed" then set_executed s d else s
      | None => s
      end) = id s.
Proof.
  destruct details as [d|]; simpl; auto.
  destruct (String.eqb new_status "executed"); reflexivity.
Qed.







End SignalStore.




(** ** Signal fusion: what is emitted *)

Section Emission.

Import SignalGenerator.

Variable settings : Settings.
Variable env : Env.
Variable signal_history : list CandidateSignal.
Variable symbol : string.
Variable analysis_results : AnalysisResults.
Variable prediction_results : Prediction.

Let signal_data := _combine_signals analysis_results prediction_results.

(** The blended direction is one of the three signals by construction. *)
Lemma combined_signal_cases :
  combined_signal signal_data = Buy \/ combined_signal signal_data = Sell
  \/ combined_signal signal_data = Neutral.
Proof. destruct (combined_signal signal_data); auto. Qed.



End Emission.



(** ** Risk manager: lazy resets *)

Section RiskTracking.

Import RiskManager.

Lemma update_risk_tracking_cases (d : Calendar.date) (st : State) :
  let st' := _update_risk_tracking d st in
  risk_history st' = risk_history st /\
  (d = last_reset_day st /\ daily_risk st' = daily_risk st
   \/ d <> last_reset_day st /\ daily_risk st' = 0.0) /\
  last_reset_day st' = d /\
  (Calendar.iso_week d = last_reset_week st /\ weekly_risk st' = weekly_risk st
   \/ Calendar.iso_week d <> last_reset_week st /\ weekly_risk st' = 0.0) /\
  last_reset_week st' = Calendar.iso_week d.
Proof.
  unfold _update_risk_tracking, _get_week_number. cbv zeta.
  destruct (Z.eqb_spec d (last_reset_day st)) as [Hd|Hd];
    cbn [last_reset_week];
    destruct (Z.eqb_spec (Calendar.iso_week d) (last_reset_week st)) as [Hw|Hw];
    cbn; repeat split; auto.
Qed.

(** Two days of the same Monday-to-Sunday week have the same ISO week
    number. *)
Lemma same_week_same_number (d1 d2 : Calendar.date) :
  Calendar.week_index d1 = Calendar.week_index d2 ->
  Calendar.iso_week d1 = Calendar.iso_week d2.
Proof. unfold Calendar.iso_week. now intros ->. Qed.

(** A query with account and symbol data changes the state by the lazy
    reset and nothing else. *)
Lemma calculate_risk_params_state settings broker st signal account info :
  get_account_info broker = Some account ->
  get_symbol_info broker (SignalGenerator.symbol signal) = Some info ->
  snd (calculate_risk_params settings broker st signal)
  = _update_risk_tracking (today broker) st.
Proof.
  intros Ha Hi. unfold calculate_risk_params. rewrite Ha, Hi.
  destruct (SignalGenerator.signal signal); cbv zeta;
    match goal with
    | |- context [if Py.Qltb ?a ?b then (_, _) else (_, _)] =>
        destruct (Py.Qltb a b)
    end; reflexivity.
Qed.

(** Without them the state is untouched and the default parameters, with
    a zero risk amount, are returned. *)
Lemma calculate_risk_params_default settings broker st signal :
  get_account_info broker = None
  \/ get_symbol_info broker (SignalGenerator.symbol signal) = None ->
  calculate_risk_params settings broker st signal = (default_params, st).
Proof.
  unfold calculate_risk_params. intros [H|H].
  - now rewrite H.
  - destruct (get_account_info broker); auto. now rewrite H.
Qed.

(** The commit adds the same percentage to both counters and leaves the
    reset marks alone. *)
Lemma update_risk_history_frame broker st trade :
  let st' := update_risk_history broker st trade in
  last_reset_day st' = last_reset_day st /\
  last_reset_week st' = last_reset_week st /\
  daily_risk st' - daily_risk st == weekly_risk st' - weekly_risk st.
Proof.
  unfold update_risk_history.
  destruct (get_account_info broker); cbn; repeat split; auto; lra.
Qed.

End RiskTracking.

(** Claim C9.  When a risk query finds a calendar day different from the
    day of the last reset, the daily counter is reset to 0; the weekly
    counter is left unchanged unless the ISO week number differs from the
    one of its last reset, in which case it is reset to 0.  In particular it
    survives every query made in the ISO week of its last reset.  The reset
    is lazy: it happens inside the query ([calculate_risk_params]) and the
    commit ([update_risk_history]) never resets. *)
Theorem risk_counters_reset_lazily_at_boundaries
    (settings : RiskManager.Settings) (st : RiskManager.State)
    (now : Calendar.date) :
  let st' := RiskManager._update_risk_tracking now st in
  (now <> RiskManager.last_reset_day st ->
     RiskManager.daily_risk st' == 0 /\ RiskManager.last_reset_day st' = now) /\
  (now = RiskManager.last_reset_day st ->
     RiskManager.daily_risk st' = RiskManager.daily_risk st) /\
  (Calendar.iso_week now = RiskManager.last_reset_week st ->
     RiskManager.weekly_risk st' = RiskManager.weekly_risk st) /\
  (Calendar.iso_week now <> RiskManager.last_reset_week st ->
     RiskManager.weekly_risk st' == 0 /\
     RiskManager.last_reset_week st' = Calendar.iso_week now) /\
  (forall last_reset,
     RiskManager.last_reset_week st = Calendar.iso_week last_reset ->
     Calendar.week_index now = Calendar.week_index last_reset ->
     RiskManager.weekly_risk st' = RiskManager.weekly_risk st) /\
  (forall broker signal account info,
     RiskManager.today broker = now ->
     RiskManager.get_account_info broker = Some account ->
     RiskManager.get_symbol_info broker (SignalGenerator.symbol signal)
     = Some info ->
     snd (RiskManager.calculate_risk_params settings broker st signal) = st') /\
  (forall broker trade,
     let committed := RiskManager.update_risk_history broker st trade in
     RiskManager.last_reset_day committed = RiskManager.last_reset_day st /\
     RiskManager.last_reset_week committed = RiskManager.last_reset_week st /\
     RiskManager.daily_risk committed - RiskManager.daily_risk st
     == RiskManager.weekly_risk committed - RiskManager.weekly_risk st).
Proof.
  intros st'.
  destruct (update_risk_tracking_cases now st)
    as (_ & Hday & Hmark & Hweek & Hwmark).
  fold st' in Hday, Hmark, Hweek, Hwmark.
  split; [|split; [|split; [|split; [|split; [|split]]]]].
  - intros Hne. destruct Hday as [[He _]|[_ ->]]; [contradiction|].
    split; [reflexivity | exact Hmark].
  - intros He. destruct Hday as [[_ H]|[Hne _]]; [exact H | contradiction].
  - intros He. destruct Hweek as [[_ H]|[Hne _]]; [exact H | contradiction].
  - intros Hne. destruct Hweek as [[He _]|[_ ->]]; [contradiction|].
    split; [reflexivity | exact Hwmark].
  - intros last_reset Hw Hi.
    destruct Hweek as [[_ H]|[Hne _]]; [exact H|].
    rewrite Hw in Hne. now apply same_week_same_number in Hi.
  - intros broker signal account info <- Ha Hi.
    now apply calculate_risk_params_state with (account := account) (info := info).
  - intros broker trade. apply update_risk_history_frame.
Qed.

(** Thursday 2026-11-05 follows Wednesday 2026-11-04 within ISO week 45:
    the daily counter goes from 4 to 0, the weekly counter stays at 4.  On
    Monday 2026-11-09 (week 46) both are reset. *)
Lemma risk_counters_reset_lazily_at_boundaries_witness :
  739925%Z <> RiskManager.last_reset_day Examples.used_four_percent /\
  Calendar.iso_week 739925%Z
  = RiskManager.last_reset_week Examples.used_four_percent /\
  RiskManager.daily_risk
    (RiskManager._update_risk_tracking 739925%Z Examples.used_four_percent) == 0 /\
  RiskManager.weekly_risk
    (RiskManager._update_risk_tracking 739925%Z Examples.used_four_percent)
  = RiskManager.weekly_risk Examples.used_four_percent.
Proof.
  assert (H1 : 739925%Z <> RiskManager.last_reset_day Examples.used_four_percent)
    by discriminate.
  assert (H2 : Calendar.iso_week 739925%Z
               = RiskManager.last_reset_week Examples.used_four_percent)
    by reflexivity.
  destruct (risk_counters_reset_lazily_at_boundaries
              Examples.risk_settings Examples.used_four_percent 739925%Z)
    as (Hd & _ & Hw & _).
  split; [exact H1 | split; [exact H2 | split]].
  - exact (proj1 (Hd H1)).
  - exact (Hw H2).
Defined.

Example weekly_reset_on_monday :
  let st := RiskManager._update_risk_tracking 739929%Z Examples.used_four_percent in
  (Qred (RiskManager.daily_risk st), Qred (RiskManager.weekly_risk st),
   RiskManager.last_reset_day st, RiskManager.last_reset_week st)
  = (0, 0, 739929%Z, 46%Z).
Proof. vm_compute. reflexivity. Qed.

(** ** Risk manager: the daily budget *)

Section RiskBudget.

Import RiskManager.

Variable settings : Settings.

Let max_daily := Py.get (max_daily_risk_percent settings) 5.0.

Hypothesis max_daily_nonneg : 0 <= max_daily.

(** The invariant: the daily counter is within the daily ceiling. *)
Let within_budget (st : State) : Prop := daily_risk st <= max_daily.

Lemma tracking_keeps_budget d st :
  within_budget st -> within_budget (_update_risk_tracking d st).
Proof.
  unfold within_budget. intros H.
  destruct (update_risk_tracking_cases d st) as (_ & [[_ ->]|[_ ->]] & _);
    [exact H | pose proof max_daily_nonneg; lra].
Qed.

(** The requested risk is capped to the lesser of the remaining daily and
    weekly budgets. *)
Lemma calculate_risk_params_capped broker st signal account info :
  get_account_info broker = Some account ->
  get_symbol_info broker (SignalGenerator.symbol signal) = Some info ->
  let result := calculate_risk_params settings broker st signal in
  risk_amount (fst result)
  <= Qmin (remaining_daily_risk settings (snd result)
             (TelegramBot.balance_of broker))
          (remaining_weekly_risk settings (snd result)
             (TelegramBot.balance_of broker)).
Proof.
  intros Ha Hi. unfold TelegramBot.balance_of, calculate_risk_params.
  rewrite Ha, Hi.
  destruct (SignalGenerator.signal signal); cbv zeta;
    match goal with
    | |- context [if Py.Qltb ?a ?b then (_, _) else (_, _)] =>
        destruct (Py.Qltb a b) eqn:E
    end; cbn [fst snd risk_amount];
    try apply Qle_refl; now apply Qltb_ge in E.
Qed.

Lemma calculate_risk_params_budget broker st signal :
  within_budget st ->
  let result := calculate_risk_params settings broker st signal in
  within_budget (snd result) /\
  (risk_amount (fst result) == 0
   \/ risk_amount (fst result)
      <= (max_daily - daily_risk (snd result)) / 100
         * TelegramBot.balance_of broker).
Proof.
  intros Hst result. subst result.
  destruct (get_account_info broker) as [account|] eqn:Ha.
  - destruct (get_symbol_info broker (SignalGenerator.symbol signal))
      as [info|] eqn:Hi.
    + split.
      * rewrite (calculate_risk_params_state _ _ _ _ _ _ Ha Hi).
        now apply tracking_keeps_budget.
      * right.
        pose proof (calculate_risk_params_capped broker st signal _ _ Ha Hi) as H.
        cbv zeta in H.
        eapply Qle_trans; [exact H|]. apply Q.le_min_l.
    + rewrite calculate_risk_params_default by auto. cbn [fst snd].
      split; [exact Hst | left; reflexivity].
  - rewrite calculate_risk_params_default by auto. cbn [fst snd].
    split; [exact Hst | left; reflexivity].
Qed.

Lemma can_open_position_keeps_budget broker st signal :
  within_budget st ->
  within_budget (snd (can_open_position settings broker st signal)).
Proof.
  intros Hst. unfold can_open_position.
  destruct (get_account_info broker); [|exact Hst].
  destruct (max_positions_reached _); [exact Hst|].
  destruct (Py.get _ false); [exact Hst|].
  pose proof (calculate_risk_params_budget broker st signal Hst) as [H _].
  destruct (calculate_risk_params settings broker st signal) as [p st1].
  cbn [snd] in H.
  repeat match goal with
  | |- context [if ?c then _ else _] => destruct c
  end; exact H.
Qed.

(** Committing an amount within the remaining daily budget keeps the
    counter within the ceiling, provided the commit sees the balance the
    budget was computed with. *)
Lemma commit_keeps_budget broker st trade amount sizing_balance :
  trade_risk_amount trade = Some amount ->
  TelegramBot.balance_of broker == sizing_balance ->
  within_budget st ->
  (amount == 0
   \/ amount <= (max_daily - daily_risk st) / 100 * sizing_balance) ->
  within_budget (update_risk_history broker st trade).
Proof.
  unfold within_budget, TelegramBot.balance_of, update_risk_history.
  intros Ht Hb Hst Hamount.
  destruct (get_account_info broker) as [account|]; [|exact Hst].
  rewrite Ht. cbn [Py.get daily_risk].
  set (bal := Py.get (RiskManager.balance account) 0.0) in *.
  destruct (Py.Qltb 0 bal) eqn:E; [|lra].
  apply Qltb_lt in E.
  assert (Hq : amount / bal <= (max_daily - daily_risk st) / 100).
  { destruct Hamount as [Hz|Hle].
    - rewrite Hz. unfold Qdiv at 1. rewrite Qmult_0_l.
      apply Qle_shift_div_l; lra.
    - apply Qle_shift_div_r; [exact E|]. rewrite Hb. exact Hle. }
  assert (G : forall m d q : Q, q <= (m - d) / 100 -> d + q * 100 <= m).
  { intros m d q H.
    apply Qmult_le_compat_r with (z := 100) in H; [|lra].
    assert (Ef : (m - d) / 100 * 100 == m - d) by (field; lra).
    rewrite Ef in H. lra. }
  apply G, Hq.
Qed.

Lemma confirm_keeps_budget at_check at_sizing at_commit opened signal_id bot :
  TelegramBot.stable_balance
    (TelegramBot.Confirm at_check at_sizing at_commit opened signal_id) ->
  within_budget (snd bot) ->
  within_budget
    (snd (TelegramBot._confirm_signal settings at_check at_sizing at_commit
            opened signal_id bot)).
Proof.
  destruct bot as [store st]. cbn [snd TelegramBot.stable_balance].
  intros Hstable Hst. unfold TelegramBot._confirm_signal.
  destruct (SignalGenerator.get_signal_by_id store signal_id) as [signal|];
    [|exact Hst].
  destruct (negb (TelegramBot.is_pending signal)); [exact Hst|].
  pose proof (can_open_position_keeps_budget at_check st signal Hst) as H1.
  destruct (can_open_position settings at_check st signal)
    as [[can_open reason] st1].
  cbn [snd] in H1.
  destruct can_open; cbn [negb]; [|exact H1].
  pose proof (calculate_risk_params_budget at_sizing st1 signal H1) as [H2 Hcap].
  destruct (calculate_risk_params settings at_sizing st1 signal)
    as [risk_params st2].
  cbn [fst snd] in H2, Hcap.
  destruct opened as [result|]; cbn [snd]; [|exact H2].
  eapply commit_keeps_budget; eauto. reflexivity.
Qed.

Lemma handle_keeps_budget bot request :
  TelegramBot.stable_balance request ->
  within_budget (snd bot) ->
  within_budget (snd (TelegramBot.handle settings bot request)).
Proof.
  intros Hstable Hst.
  destruct request as [b1 b2 b3 opened j | j | waiting j | b sig];
    cbn [TelegramBot.handle].
  - now apply confirm_keeps_budget.
  - destruct bot as [store st]. unfold TelegramBot._reject_signal.
    destruct (SignalGenerator.get_signal_by_id store j) as [signal|];
      [|exact Hst].
    destruct (negb (TelegramBot.is_pending signal)); exact Hst.
  - destruct bot as [store st]. unfold TelegramBot._handle_confirmation_timeout.
    destruct (negb waiting); [exact Hst|].
    destruct (SignalGenerator.get_signal_by_id store j) as [signal|];
      [|exact Hst].
    destruct (TelegramBot.is_pending signal); exact Hst.
  - cbn [snd].
    now destruct (calculate_risk_params_budget b (snd bot) sig Hst).
Qed.

Lemma run_keeps_budget requests : forall bot,
  Forall TelegramBot.stable_balance requests ->
  within_budget (snd bot) ->
  within_budget (snd (TelegramBot.run settings bot requests)).
Proof.
  unfold TelegramBot.run.
  induction requests as [|request requests IH]; intros bot Hall Hst; simpl.
  - exact Hst.
  - apply IH.
    + now apply Forall_inv_tail in Hall.
    + apply handle_keeps_budget; [now apply Forall_inv in Hall | exact Hst].
Qed.

End RiskBudget.

(** Claim C1, as the code has it.  Provided every commit sees the account
    balance its trade was sized with, and starting within a non-negative
    daily ceiling (a new manager starts at 0): after any sequence of
    confirmations approved by [can_open_position] and committed through
    [update_risk_history], interleaved with rejections, timeouts and scans,
    on one calendar day or across several, the daily counter does not
    exceed [max_daily_risk_percent]; the risk amount computed by
    [calculate_risk_params] is at most the lesser of the remaining daily and
    weekly budgets. *)
Theorem committed_daily_risk_never_exceeds_ceiling
    (settings : RiskManager.Settings) (bot : TelegramBot.BotState)
    (requests : list TelegramBot.Request) :
  0 <= Py.get (RiskManager.max_daily_risk_percent settings) 5.0 ->
  RiskManager.daily_risk (snd bot)
    <= Py.get (RiskManager.max_daily_risk_percent settings) 5.0 ->
  Forall TelegramBot.stable_balance requests ->
  RiskManager.daily_risk (snd (TelegramBot.run settings bot requests))
    <= Py.get (RiskManager.max_daily_risk_percent settings) 5.0 /\
  (forall broker st signal account info,
     RiskManager.get_account_info broker = Some account ->
     RiskManager.get_symbol_info broker (SignalGenerator.symbol signal)
     = Some info ->
     let result := RiskManager.calculate_risk_params settings broker st signal in
     RiskManager.risk_amount (fst result)
     <= Qmin (RiskManager.remaining_daily_risk settings (snd result)
                (TelegramBot.balance_of broker))
             (RiskManager.remaining_weekly_risk settings (snd result)
                (TelegramBot.balance_of broker))).
Proof.
  intros Hmax Hst Hstable. split.
  - now apply run_keeps_budget.
  - intros broker st signal account info Ha Hi.
    now apply calculate_risk_params_capped with (account := account) (info := info).
Qed.

(** The worked example: balance 10000, 4% of the 5% daily ceiling already
    used, success probability 85 (entitled to the full 2%).  The requested
    200 is capped to the remaining 100, and after the commit the counter
    is 5. *)
Lemma committed_daily_risk_never_exceeds_ceiling_witness :
  let trade :=
    TelegramBot.Confirm (Examples.broker 10000 739924%Z) (Examples.broker 10000 739924%Z)
      (Examples.broker 10000 739924%Z) (Some "ticket 1"%string) "a" in
  let bot := ([Examples.candidate "a" "pending" 85], Examples.used_four_percent) in
  0 <= Py.get (RiskManager.max_daily_risk_percent Examples.risk_settings) 5.0 /\
  RiskManager.daily_risk (snd bot)
    <= Py.get (RiskManager.max_daily_risk_percent Examples.risk_settings) 5.0 /\
  Forall TelegramBot.stable_balance [trade] /\
  RiskManager.daily_risk
    (snd (TelegramBot.run Examples.risk_settings bot [trade]))
    <= Py.get (RiskManager.max_daily_risk_percent Examples.risk_settings) 5.0.
Proof.
  intros trade bot.
  assert (H1 : 0 <= Py.get (RiskManager.max_daily_risk_percent
                              Examples.risk_settings) 5.0)
    by (vm_compute; discriminate).
  assert (H2 : RiskManager.daily_risk (snd bot)
               <= Py.get (RiskManager.max_daily_risk_percent
                            Examples.risk_settings) 5.0)
    by (vm_compute; discriminate).
  assert (H3 : Forall TelegramBot.stable_balance [trade])
    by (repeat constructor).
  split; [exact H1 | split; [exact H2 | split; [exact H3 |]]].
  exact (proj1 (committed_daily_risk_never_exceeds_ceiling
                  Examples.risk_settings bot [trade] H1 H2 H3)).
Defined.

Example capped_to_remaining_budget :
  let bot := ([Examples.candidate "a" "pending" 85], Examples.used_four_percent) in
  let broker := Examples.broker 10000 739924%Z in
  let params :=
    fst (RiskManager.calculate_risk_params Examples.risk_settings broker
           (snd bot) (Examples.candidate "a" "pending" 85)) in
  let after :=
    TelegramBot.run Examples.risk_settings bot
      [TelegramBot.Confirm broker broker broker (Some "ticket 1"%string) "a"] in
  (Qred (RiskManager.risk_amount params), Qred (RiskManager.risk_percent params),
   Qred (RiskManager.daily_risk (snd after)),
   TelegramBot.status_of (fst after) "a")
  = (100, 1, 5, Some "executed"%string).
Proof. vm_compute. reflexivity. Qed.

(** Claim C1 as stated fails when the balance moves between sizing and
    commit.  With 4% used, the trade is approved and sized at a balance of
    10000 (risk amount capped to 100); the position is opened and the
    account then reports 9990; [update_risk_history] books 100/9990 = 1.001%
    and the daily counter, 4996/999, passes the 5% ceiling, all on one
    calendar day. *)
Lemma balance_drop_before_commit_exceeds_ceiling :
  let sizing := Examples.broker 10000 739924%Z in
  let commit := Examples.broker 9990 739924%Z in
  let signal := Examples.candidate "a" "pending" 85 in
  let bot := ([signal], Examples.used_four_percent) in
  let after :=
    TelegramBot.run Examples.risk_settings bot
      [TelegramBot.Confirm sizing sizing commit (Some "ticket 1"%string) "a"] in
  fst (fst (RiskManager.can_open_position Examples.risk_settings sizing
              (snd bot) signal)) = true /\
  TelegramBot.status_of (fst after) "a" = Some "executed"%string /\
  RiskManager.daily_risk (snd after) == 4996 # 999 /\
  ~ RiskManager.daily_risk (snd after)
    <= Py.get (RiskManager.max_daily_risk_percent Examples.risk_settings) 5.0.
Proof.
  repeat split; vm_compute; congruence.
Qed.

(* ================================================================== *)
(** * Part III: further properties of the code                         *)
(* ================================================================== *)

(** ** core/utils.py: pips, lots and ratios *)

(** X1.  [calculate_price_from_pips] and [calculate_pips] undo each other
    for every symbol (JPY pairs included): the pip distance of the price
    obtained from [pips] is [pips], and moving from the base price by the
    pip distance of another price reaches that price. *)
Theorem pips_and_prices_round_trip (symbol : string) (pips base_price price : Q) :
  Utils.calculate_pips symbol
    (Utils.calculate_price_from_pips symbol pips base_price - base_price)
  == pips /\
  Utils.calculate_price_from_pips symbol
    (Utils.calculate_pips symbol (price - base_price)) base_price
  == price.
Proof.
  unfold Utils.calculate_pips, Utils.calculate_price_from_pips. cbv zeta.
  destruct (Py.endswith symbol "JPY"); split; field.
Qed.

Lemma Qle_bool_false x y : Qle_bool x y = false <-> y < x.
Proof.
  destruct (Qle_bool x y) eqn:E.
  - apply Qle_bool_iff in E. split; [discriminate | lra].
  - assert (~ x <= y) by (rewrite <- Qle_bool_iff; congruence).
    split; [lra | reflexivity].
Qed.

Lemma Qdiv_pos_nonneg a b : 0 <= a -> 0 < b -> 0 <= a / b.
Proof. intros Ha Hb. apply Qle_shift_div_l; lra. Qed.



Lemma Qabs_zero x : Qabs x == 0 -> x == 0.
Proof.
  apply Qabs_case; intros; lra.
Qed.

(** X3.  [calculate_risk_reward_ratio] always returns a finite,
    non-negative number: 0 when the stop equals the entry, otherwise the
    distance to the target over the distance to the stop, whichever side
    each lies on.  Its [float('inf')] branch is never taken. *)
Theorem calculate_risk_reward_ratio_is_finite
    (entry_price stop_loss take_profit : Q) :
  exists ratio,
    Utils.calculate_risk_reward_ratio entry_price stop_loss take_profit
    = Utils.Finite ratio /\
    0 <= ratio /\
    (stop_loss == entry_price -> ratio == 0) /\
    (~ stop_loss == entry_price ->
     ratio == Qabs (take_profit - entry_price) / Qabs (entry_price - stop_loss)).
Proof.
  unfold Utils.calculate_risk_reward_ratio.
  destruct (Qeq_bool stop_loss entry_price) eqn:E.
  - apply Qeq_bool_iff in E. exists 0.
    split; [reflexivity|]. split; [lra|]. split; [reflexivity|].
    intros H. contradiction.
  - assert (Hne : ~ stop_loss == entry_price)
      by (rewrite <- Qeq_bool_iff; congruence).
    assert (Hrisk : 0 < Qabs (entry_price - stop_loss)).
    { pose proof (Qabs_nonneg (entry_price - stop_loss)).
      destruct (Qeq_dec (Qabs (entry_price - stop_loss)) 0) as [Hz|Hz]; [|lra].
      apply Qabs_zero in Hz. exfalso. apply Hne. lra. }
    assert (Ez : Qeq_bool (Qabs (entry_price - stop_loss)) 0 = false).
    { destruct (Qeq_bool _ 0) eqn:Ez; auto. apply Qeq_bool_iff in Ez. lra. }
    destruct (Py.Qltb entry_price take_profit); rewrite Ez.
    + eexists. split; [reflexivity|].
      split; [apply Qdiv_pos_nonneg; [apply Qabs_nonneg | exact Hrisk]|].
      split; [intros H; contradiction | intros _; reflexivity].
    + eexists. split; [reflexivity|].
      split; [apply Qdiv_pos_nonneg; [apply Qabs_nonneg | exact Hrisk]|].
      split; [intros H; contradiction|].
      intros _. now rewrite (Qabs_Qminus entry_price take_profit).
Qed.

(** A long trade entered at 1.1000 with the stop at 1.0950 and the target
    at 1.1100 has ratio 2. *)
Lemma calculate_risk_reward_ratio_is_finite_witness :
  ~ 1.0950 == 1.1000 /\
  exists ratio,
    Utils.calculate_risk_reward_ratio 1.1000 1.0950 1.1100 = Utils.Finite ratio /\
    ratio == 2.
Proof.
  assert (Hne : ~ 1.0950 == 1.1000) by discriminate.
  destruct (calculate_risk_reward_ratio_is_finite 1.1000 1.0950 1.1100)
    as (ratio & E & _ & _ & H).
  split; [exact Hne|]. exists ratio. split; [exact E|].
  rewrite (H Hne). reflexivity.
Defined.

(** ** core/utils.py: the retry wrapper *)

Lemma delays_snoc delay backoff n : forall slept,
  (slept ++ [delay]) ++ Utils.delays (delay * backoff) backoff n
  = slept ++ Utils.delays delay backoff (S n).
Proof. intros slept. now rewrite <- app_assoc. Qed.

(** The loop, entered with [attempts] failed calls behind it and enough
    fuel for the attempts left. *)
Lemma wrapper_loop_spec {A : Type} (func : nat -> Utils.Outcome A)
    (max_attempts : Z) (backoff : Q) :
  forall fuel called current_delay slept,
    (Z.max 0 (max_attempts - Z.of_nat called) < Z.of_nat fuel)%Z ->
    exists run,
      Utils.wrapper_loop func max_attempts backoff fuel (Z.of_nat called)
                         called current_delay slept = Some run /\
      (called <= Utils.calls run)%nat /\
      (Z.of_nat (Utils.calls run) <= Z.max (Z.of_nat called) max_attempts)%Z /\
      Utils.sleeps run
      = slept ++ Utils.delays current_delay backoff
                   (Utils.calls run - called - 1) /\
      (forall i, (called <= i < Utils.calls run - 1)%nat ->
                 func i = Utils.Raises true) /\
      match Utils.completion run with
      | Utils.Returned (Some value) =>
          (called < Utils.calls run)%nat /\
          func (Utils.calls run - 1)%nat = Utils.Returns value
      | Utils.Returned None =>
          Utils.calls run = called /\ (max_attempts <= Z.of_nat called)%Z
      | Utils.Raised =>
          (called < Utils.calls run)%nat /\
          exists caught,
            func (Utils.calls run - 1)%nat = Utils.Raises caught /\
            (caught = false \/ Z.of_nat (Utils.calls run) = max_attempts)
      end.
Proof.
  induction fuel as [|fuel IH]; intros called current_delay slept Hfuel.
  - lia.
  - cbn [Utils.wrapper_loop].
    destruct (Z.ltb_spec (Z.of_nat called) max_attempts) as [Hlt|Hge].
    + destruct (func called) as [value|[|]] eqn:Ef.
      * eexists. split; [reflexivity|].
        cbn [Utils.calls Utils.sleeps Utils.completion].
        replace (S called - called - 1)%nat with 0%nat by lia.
        replace (S called - 1)%nat with called by lia.
        cbn [Utils.delays]. rewrite app_nil_r.
        repeat split; auto; try lia.
      * destruct (Z.eqb_spec (Z.of_nat called + 1) max_attempts) as [He|Hne].
        -- eexists. split; [reflexivity|].
           cbn [Utils.calls Utils.sleeps Utils.completion].
           replace (S called - called - 1)%nat with 0%nat by lia.
           replace (S called - 1)%nat with called by lia.
           cbn [Utils.delays]. rewrite app_nil_r.
           repeat split; auto; try lia.
           exists true. split; auto. right. lia.
        -- replace (Z.of_nat called + 1)%Z with (Z.of_nat (S called)) by lia.
           destruct (IH (S called) (current_delay * backoff)
                        (slept ++ [current_delay]))
             as (run & -> & Hc & Hmax & Hs & Hall & Hend); [lia|].
           exists run. split; [reflexivity|].
           split; [lia|]. split; [lia|]. split.
           ++ rewrite Hs.
              replace (Utils.calls run - called - 1)%nat
                with (S (Utils.calls run - S called - 1)) by
                (destruct (Utils.completion run) as [[v|]|];
                 destruct Hend; lia).
              apply delays_snoc.
           ++ split.
              ** intros i Hi.
                 destruct (Nat.eq_dec i called) as [->|Hic]; [exact Ef|].
                 apply Hall. lia.
              ** destruct (Utils.completion run) as [[v|]|].
                 --- destruct Hend. split; [lia | assumption].
                 --- destruct Hend. lia.
                 --- destruct Hend as [H1 H2]. split; [lia | assumption].
      * eexists. split; [reflexivity|].
        cbn [Utils.calls Utils.sleeps Utils.completion].
        replace (S called - called - 1)%nat with 0%nat by lia.
        replace (S called - 1)%nat with called by lia.
        cbn [Utils.delays]. rewrite app_nil_r.
        repeat split; auto; try lia.
        exists false. split; auto.
    + eexists. split; [reflexivity|].
      cbn [Utils.calls Utils.sleeps Utils.completion].
      replace (called - called - 1)%nat with 0%nat by lia.
      cbn [Utils.delays]. rewrite app_nil_r.
      repeat split; auto; try lia.
Qed.

(** X4.  A call of the function wrapped by [retry] always finishes.  It
    calls [func] at most [max_attempts] times (not at all when
    [max_attempts <= 0], returning [None]); every call but the last raised a
    caught exception; between two calls it sleeps [delay], then
    [delay * backoff], and so on, and never after the last call.  It returns
    the value of the first call that succeeds, and re-raises the exception
    of the last call when that exception is not caught or when it was
    call number [max_attempts]. *)
Theorem retry_stops_at_first_success_or_last_attempt {A : Type}
    (func : nat -> Utils.Outcome A) (max_attempts : Z) (delay backoff : Q) :
  exists run,
    Utils.retry func max_attempts delay backoff = Some run /\
    (Z.of_nat (Utils.calls run) <= Z.max 0 max_attempts)%Z /\
    Utils.sleeps run = Utils.delays delay backoff (Utils.calls run - 1) /\
    (forall i, (i < Utils.calls run - 1)%nat -> func i = Utils.Raises true) /\
    match Utils.completion run with
    | Utils.Returned (Some value) =>
        (0 < Utils.calls run)%nat /\
        func (Utils.calls run - 1)%nat = Utils.Returns value
    | Utils.Returned None => Utils.calls run = 0%nat /\ (max_attempts <= 0)%Z
    | Utils.Raised =>
        (0 < Utils.calls run)%nat /\
        exists caught,
          func (Utils.calls run - 1)%nat = Utils.Raises caught /\
          (caught = false \/ Z.of_nat (Utils.calls run) = max_attempts)
    end.
Proof.
  unfold Utils.retry.
  destruct (wrapper_loop_spec func max_attempts backoff
              (S (Z.to_nat max_attempts)) 0 delay [])
    as (run & E & _ & Hmax & Hs & Hall & Hend); [cbn; lia|].
  exists run. split; [exact E|]. split; [exact Hmax|]. split.
  - rewrite Hs. cbn [app]. now rewrite Nat.sub_0_r.
  - split.
    + intros i Hi. apply Hall. lia.
    + exact Hend.
Qed.

(** Three attempts, one second, doubling: the first two calls fail with a
    caught exception, the third returns 7.  The wrapper sleeps 1 and then 2
    seconds and returns 7. *)
Example retry_third_attempt_succeeds :
  Utils.retry (fun n => if (n <? 2)%nat then Utils.Raises true
                        else Utils.Returns 7%Z)
              3 1 2
  = Some (Utils.mkRun (Utils.Returned (Some 7%Z)) 3 [1; 1 * 2]).
Proof. reflexivity. Qed.

(** ** Risk manager: admission control and sizing *)

Section RiskSizing.

Import RiskManager.

Variable settings : Settings.
Variable broker : Broker.
Variable st : State.
Variable signal : SignalGenerator.CandidateSignal.

Let params := fst (calculate_risk_params settings broker st signal).

(** After the cap the risk amount is within the available risk, so the
    flag computed from that comparison is always set. *)
Lemma max_allowed_always : max_allowed params = true.
Proof.
  unfold params, calculate_risk_params.
  destruct (get_account_info broker) as [account|]; [|reflexivity].
  destruct (get_symbol_info broker (SignalGenerator.symbol signal)) as [info|];
    [|reflexivity].
  destruct (SignalGenerator.signal signal); cbv zeta;
    match goal with
    | |- context [if Py.Qltb ?a ?b then (_, _) else (_, _)] =>
        destruct (Py.Qltb a b) eqn:E
    end; cbn [fst max_allowed]; apply Qle_bool_iff;
    try apply Qle_refl; now apply Qltb_ge in E.
Qed.

Lemma lot_size_cases :
  lot_size params = 0.01 /\
  (get_account_info broker = None
   \/ get_symbol_info broker (SignalGenerator.symbol signal) = None)
  \/ exists account info requested,
       get_account_info broker = Some account /\
       get_symbol_info broker (SignalGenerator.symbol signal) = Some info /\
       lot_size params
       = Qmax (Py.get (volume_min info) 0.01)
              (Qmin (Qmin (inject_Z (Py.round (requested / 0.01)) * 0.01)
                          (Py.get (volume_max info) 100.0))
                    (Py.get (max_lot_size settings) 1.0)).
Proof.
  unfold params, calculate_risk_params.
  destruct (get_account_info broker) as [account|]; [|left; auto].
  destruct (get_symbol_info broker (SignalGenerator.symbol signal)) as [info|];
    [|left; auto].
  right. exists account, info.
  destruct (SignalGenerator.signal signal); cbv zeta;
    match goal with
    | |- context [if Py.Qltb ?a ?b then (_, _) else (_, _)] =>
        destruct (Py.Qltb a b)
    end; cbn [fst lot_size]; eexists; repeat split.
Qed.

End RiskSizing.

(** X5.  [can_open_position] never answers that the daily or weekly risk
    limit is reached: [calculate_risk_params] caps the risk amount to the
    available risk before it compares the two, so its [max_allowed] flag is
    true for every settings, broker answer, state and signal. *)
Theorem risk_limit_rejection_is_unreachable
    (settings : RiskManager.Settings) (broker : RiskManager.Broker)
    (st : RiskManager.State) (signal : SignalGenerator.CandidateSignal) :
  RiskManager.max_allowed
    (fst (RiskManager.calculate_risk_params settings broker st signal)) = true /\
  snd (fst (RiskManager.can_open_position settings broker st signal))
  <> RiskManager.RiskLimitReached.
Proof.
  split; [apply max_allowed_always|].
  unfold RiskManager.can_open_position.
  destruct (RiskManager.get_account_info broker); [|discriminate].
  destruct (RiskManager.max_positions_reached _); [discriminate|].
  destruct (Py.get _ false); [discriminate|].
  pose proof (max_allowed_always settings broker st signal) as H.
  destruct (RiskManager.calculate_risk_params settings broker st signal)
    as [p st1].
  cbn [fst] in H. rewrite H. cbn [negb].
  repeat match goal with
  | |- context [if ?c then _ else _] => destruct c
  end; discriminate.
Qed.

(** X6.  The lot size returned by [calculate_risk_params] is never below
    the symbol's minimum volume, and when that minimum is within the
    symbol's maximum volume and the configured [max_lot_size] it exceeds
    neither.  When the minimum volume is at least 0.01 (as the default is),
    [can_open_position] therefore never answers that the lot is too
    small. *)
Theorem lot_size_respects_volume_limits
    (settings : RiskManager.Settings) (broker : RiskManager.Broker)
    (st : RiskManager.State) (signal : SignalGenerator.CandidateSignal)
    (account : RiskManager.AccountInfo) (info : RiskManager.SymbolInfo) :
  RiskManager.get_account_info broker = Some account ->
  RiskManager.get_symbol_info broker (SignalGenerator.symbol signal) = Some info ->
  let lot :=
    RiskManager.lot_size
      (fst (RiskManager.calculate_risk_params settings broker st signal)) in
  let min_lot := Py.get (RiskManager.volume_min info) 0.01 in
  let max_lot := Py.get (RiskManager.volume_max info) 100.0 in
  let max_allowed_lot := Py.get (RiskManager.max_lot_size settings) 1.0 in
  min_lot <= lot /\
  (min_lot <= max_lot -> min_lot <= max_allowed_lot ->
   lot <= max_lot /\ lot <= max_allowed_lot) /\
  (0.01 <= min_lot ->
   snd (fst (RiskManager.can_open_position settings broker st signal))
   <> RiskManager.LotTooSmall).
Proof.
  intros Ha Hi. cbv zeta.
  destruct (lot_size_cases settings broker st signal)
    as [[_ [H|H]]|(account' & info' & requested & Ha' & Hi' & E)];
    try congruence.
  rewrite Hi in Hi'. injection Hi' as <-.
  split; [rewrite E; apply Q.le_max_l|]. split.
  - intros H1 H2. rewrite E. split.
    + apply Q.max_lub; [exact H1|].
      eapply Qle_trans; [apply Q.le_min_l | apply Q.le_min_r].
    + apply Q.max_lub; [exact H2 | apply Q.le_min_r].
  - intros Hmin. unfold RiskManager.can_open_position. rewrite Ha.
    destruct (RiskManager.max_positions_reached _); [discriminate|].
    destruct (Py.get _ false); [discriminate|].
    assert (Hlot : 0.01 <= RiskManager.lot_size
                      (fst (RiskManager.calculate_risk_params settings broker
                              st signal))).
    { rewrite E. eapply Qle_trans; [exact Hmin | apply Q.le_max_l]. }
    destruct (RiskManager.calculate_risk_params settings broker st signal)
      as [p st1].
    cbn [fst] in Hlot. apply Qltb_ge in Hlot. rewrite Hlot.
    repeat match goal with
    | |- context [if ?c then _ else _] => destruct c
    end; discriminate.
Qed.

(** With the default symbol data and settings (volumes 0.01 to 100, at most
    1 lot) the candidate is sized at 1 lot: the 200 at risk over 15 pips
    would buy more. *)
Lemma lot_size_respects_volume_limits_witness :
  let broker := Examples.broker 10000 739924%Z in
  let signal := Examples.candidate "a" "pending" 85 in
  let lot :=
    RiskManager.lot_size
      (fst (RiskManager.calculate_risk_params Examples.risk_settings broker
              (RiskManager.init 739924%Z) signal)) in
  0.01 <= lot /\ lot <= 100.0 /\ lot <= 1.0 /\
  snd (fst (RiskManager.can_open_position Examples.risk_settings broker
              (RiskManager.init 739924%Z) signal))
  <> RiskManager.LotTooSmall.
Proof.
  intros broker signal lot.
  destruct (lot_size_respects_volume_limits Examples.risk_settings broker
              (RiskManager.init 739924%Z) signal
              (RiskManager.mkAccountInfo (Some 10000) (Some 100000))
              (RiskManager.mkSymbolInfo None None None None)
              eq_refl eq_refl) as (H1 & H2 & H3).
  split; [exact H1|].
  assert (Ha : Py.get (@None Q) 0.01 <= Py.get (@None Q) 100.0)
    by (vm_compute; discriminate).
  assert (Hb : Py.get (@None Q) 0.01 <= Py.get (@None Q) 1.0)
    by (vm_compute; discriminate).
  assert (Hc : 0.01 <= Py.get (@None Q) 0.01) by (vm_compute; discriminate).
  split; [exact (proj1 (H2 Ha Hb)) | split; [exact (proj2 (H2 Ha Hb)) | exact (H3 Hc)]].
Defined.

Lemma lookup_map_key {A : Type} (f : string -> A) (keys : list string) k :
  Dict.lookup k (map (fun s => (s, f s)) keys)
  = if in_dec string_dec k keys then Some (f k) else None.
Proof.
  induction keys as [|s keys IH]; cbn [map Dict.lookup].
  - reflexivity.
  - destruct (String.eqb_spec k s) as [->|Hne].
    + destruct (in_dec string_dec s (s :: keys)) as [_|H]; auto.
      exfalso. apply H. now left.
    + rewrite IH.
      destruct (in_dec string_dec k keys) as [H|H];
        destruct (in_dec string_dec k (s :: keys)) as [H'|H']; auto.
      * exfalso. apply H'. now right.
      * destruct H' as [->|H']; [congruence | contradiction].
Qed.

(** The per-symbol flag of [check_position_limits]: present exactly for
    the symbols with an open position, and set when their count has reached
    the limit. *)
Lemma per_symbol_flag settings broker symbol :
  Dict.lookup symbol
    (RiskManager.max_positions_per_symbol_reached
       (RiskManager.check_position_limits settings broker))
  = if in_dec string_dec symbol (RiskManager.get_positions broker)
    then Some (Py.get (RiskManager.max_positions_per_symbol settings) 2
               <=? count_occ string_dec (RiskManager.get_positions broker) symbol)%nat
    else None.
Proof.
  unfold RiskManager.check_position_limits.
  destruct (RiskManager.get_positions broker) as [|p ps] eqn:E.
  - reflexivity.
  - cbn [RiskManager.max_positions_per_symbol_reached].
    unfold RiskManager.value_counts. rewrite map_map.
    rewrite (lookup_map_key
               (fun s => (Py.get (RiskManager.max_positions_per_symbol settings) 2
                          <=? count_occ string_dec (p :: ps) s)%nat)).
    destruct (in_dec string_dec symbol (nodup string_dec (p :: ps))) as [H|H];
      destruct (in_dec string_dec symbol (p :: ps)) as [H'|H']; auto.
    + apply nodup_In in H. contradiction.
    + exfalso. apply H. now apply nodup_In.
Qed.

(** X7.  Whenever [can_open_position] approves a signal, the reason is
    "the trade can be opened" and every limit it checks holds: account data
    was available; if any position is open, fewer than [max_open_positions]
    are; if the symbol has an open position, it has fewer than
    [max_positions_per_symbol]; the required margin is within the free
    margin; the lot is at least 0.01; and the risk/reward ratio of the
    signal's prices is at least [min_risk_reward].  The limits on counts are
    not checked when no position is open, whatever the configured
    maxima. *)
Theorem approved_position_meets_every_limit
    (settings : RiskManager.Settings) (broker : RiskManager.Broker)
    (st : RiskManager.State) (signal : SignalGenerator.CandidateSignal) :
  fst (fst (RiskManager.can_open_position settings broker st signal)) = true ->
  let params :=
    fst (RiskManager.calculate_risk_params settings broker st signal) in
  let positions := RiskManager.get_positions broker in
  exists account,
    RiskManager.get_account_info broker = Some account /\
    snd (fst (RiskManager.can_open_position settings broker st signal))
    = RiskManager.CanOpen /\
    (positions <> [] ->
     (List.length positions
      < Py.get (RiskManager.max_open_positions settings) 5)%nat) /\
    (In (SignalGenerator.symbol signal) positions ->
     (count_occ string_dec positions (SignalGenerator.symbol signal)
      < Py.get (RiskManager.max_positions_per_symbol settings) 2)%nat) /\
    RiskManager.margin_required params
    <= Py.get (RiskManager.free_margin account) 0.0 /\
    0.01 <= RiskManager.lot_size params /\
    Py.get (RiskManager.min_risk_reward settings) 1.5
    <= RiskManager.risk_reward_ratio params.
Proof.
  cbv zeta. unfold RiskManager.can_open_position.
  destruct (RiskManager.get_account_info broker) as [account|] eqn:Ha;
    [|discriminate].
  destruct (RiskManager.max_positions_reached _) eqn:Et; [discriminate|].
  rewrite per_symbol_flag.
  destruct (in_dec string_dec (SignalGenerator.symbol signal)
                   (RiskManager.get_positions broker)) as [Hin|Hin];
    cbn [Py.get].
  - destruct (_ <=? _)%nat eqn:Es; [discriminate|].
    destruct (RiskManager.calculate_risk_params settings broker st signal)
      as [p st1]. cbn [fst].
    destruct (Py.Qltb _ (RiskManager.margin_required p)) eqn:Em; [discriminate|].
    destruct (negb (RiskManager.max_allowed p)); [discriminate|].
    destruct (Py.Qltb (RiskManager.lot_size p) 0.01) eqn:El; [discriminate|].
    destruct (Py.Qltb (RiskManager.risk_reward_ratio p) _) eqn:Er;
      [discriminate|].
    intros _. exists account.
    apply Qltb_ge in Em, El, Er. apply Nat.leb_gt in Es.
    repeat split; auto.
    intros Hne. unfold RiskManager.check_position_limits in Et.
    destruct (RiskManager.get_positions broker); [congruence|].
    cbn [RiskManager.max_positions_reached] in Et.
    now apply Nat.leb_gt in Et.
  - destruct (RiskManager.calculate_risk_params settings broker st signal)
      as [p st1]. cbn [fst].
    destruct (Py.Qltb _ (RiskManager.margin_required p)) eqn:Em; [discriminate|].
    destruct (negb (RiskManager.max_allowed p)); [discriminate|].
    destruct (Py.Qltb (RiskManager.lot_size p) 0.01) eqn:El; [discriminate|].
    destruct (Py.Qltb (RiskManager.risk_reward_ratio p) _) eqn:Er;
      [discriminate|].
    intros _. exists account.
    apply Qltb_ge in Em, El, Er.
    repeat split; auto; try contradiction.
    intros Hne. unfold RiskManager.check_position_limits in Et.
    destruct (RiskManager.get_positions broker); [congruence|].
    cbn [RiskManager.max_positions_reached] in Et.
    now apply Nat.leb_gt in Et.
Qed.

(** One EURUSD and one GBPUSD position are open; a further EURUSD buy with
    risk/reward 2 is approved (2 < 5 positions, 1 < 2 on the symbol). *)
Lemma approved_position_meets_every_limit_witness :
  let broker :=
    RiskManager.mkBroker
      (Some (RiskManager.mkAccountInfo (Some 10000) (Some 5000)))
      (fun _ => Some (RiskManager.mkSymbolInfo None None None None))
      (fun _ _ _ => Some 1100)
      ["EURUSD"; "GBPUSD"]%string 739924%Z in
  let signal := Examples.candidate "a" "pending" 85 in
  fst (fst (RiskManager.can_open_position Examples.risk_settings broker
              (RiskManager.init 739924%Z) signal)) = true /\
  snd (fst (RiskManager.can_open_position Examples.risk_settings broker
              (RiskManager.init 739924%Z) signal)) = RiskManager.CanOpen /\
  (count_occ string_dec (RiskManager.get_positions broker) "EURUSD"%string
   < 2)%nat.
Proof.
  intros broker signal.
  assert (H : fst (fst (RiskManager.can_open_position Examples.risk_settings
                          broker (RiskManager.init 739924%Z) signal)) = true)
    by (vm_compute; reflexivity).
  destruct (approved_position_meets_every_limit Examples.risk_settings broker
              (RiskManager.init 739924%Z) signal H)
    as (account & _ & Hreason & _ & Hsym & _).
  split; [exact H | split; [exact Hreason|]].
  apply Hsym. left. reflexivity.
Defined.

(** The share of the ceiling granted for a success probability lies
    between half the ceiling and the ceiling. *)
Lemma risk_percent_for_bounds max_risk_percent success_probability :
  0 <= max_risk_percent ->
  max_risk_percent * 0.5
  <= RiskManager.risk_percent_for max_risk_percent success_probability
  <= max_risk_percent.
Proof.
  intros H. unfold RiskManager.risk_percent_for.
  repeat match goal with
  | |- context [if ?c then _ else _] => destruct c
  end; lra.
Qed.

(** X8.  With a positive balance and a non-negative [max_risk_percent],
    the parameters returned by [calculate_risk_params] are consistent and
    within the per-trade ceiling: the risk amount is the returned risk
    percentage of the balance, that percentage is at most the share granted
    for the signal's success probability (itself between half of
    [max_risk_percent] and [max_risk_percent]), and so the risk amount is at
    most [max_risk_percent] of the balance. *)
Theorem risk_amount_within_per_trade_ceiling
    (settings : RiskManager.Settings) (broker : RiskManager.Broker)
    (st : RiskManager.State) (signal : SignalGenerator.CandidateSignal)
    (account : RiskManager.AccountInfo) (info : RiskManager.SymbolInfo) :
  RiskManager.get_account_info broker = Some account ->
  RiskManager.get_symbol_info broker (SignalGenerator.symbol signal) = Some info ->
  0 < Py.get (RiskManager.balance account) 0.0 ->
  0 <= Py.get (RiskManager.max_risk_percent settings) 2.0 ->
  let balance := Py.get (RiskManager.balance account) 0.0 in
  let max_risk_percent := Py.get (RiskManager.max_risk_percent settings) 2.0 in
  let params :=
    fst (RiskManager.calculate_risk_params settings broker st signal) in
  RiskManager.risk_amount params
  == balance * RiskManager.risk_percent params / 100 /\
  RiskManager.risk_percent params
  <= RiskManager.risk_percent_for max_risk_percent
       (SignalGenerator.success_probability signal) /\
  RiskManager.risk_percent params <= max_risk_percent /\
  RiskManager.risk_amount params <= balance * max_risk_percent / 100.
Proof.
  intros Ha Hi Hbal Hmax. cbv zeta.
  pose proof (risk_percent_for_bounds _
                (SignalGenerator.success_probability signal) Hmax) as [_ Hshare].
  unfold RiskManager.calculate_risk_params. rewrite Ha, Hi.
  set (bal := Py.get (RiskManager.balance account) 0.0) in *.
  set (share := RiskManager.risk_percent_for _ _) in *.
  assert (G : forall amount percent,
            amount == bal * percent / 100 -> percent <= share ->
            amount == bal * percent / 100 /\ percent <= share /\
            percent <= Py.get (RiskManager.max_risk_percent settings) 2.0 /\
            amount <= bal * Py.get (RiskManager.max_risk_percent settings) 2.0
                      / 100).
  { intros amount percent E Hp. repeat split; auto; [lra|].
    rewrite E. apply Qle_shift_div_l; [lra|].
    assert (E2 : bal * percent / 100 * 100 == bal * percent) by (field; lra).
    rewrite E2. apply Qmult_le_l; lra. }
  assert (Hcap : forall available,
            available < bal * share / 100 -> available / bal * 100 <= share).
  { intros a Hlt. apply Qlt_le_weak.
    assert (E3 : a / bal * 100 == a * 100 / bal) by (field; lra).
    rewrite E3. apply Qlt_shift_div_r; [lra|].
    apply Qmult_lt_compat_r with (z := 100) in Hlt; [|lra].
    assert (E4 : bal * share / 100 * 100 == share * bal) by (field; lra).
    lra. }
  assert (Hamount : forall available,
            available == bal * (available / bal * 100) / 100)
    by (intros; field; lra).
  destruct (SignalGenerator.signal signal); cbv zeta;
    match goal with
    | |- context [if Py.Qltb ?a ?b then (_, _) else (_, _)] =>
        destruct (Py.Qltb a b) eqn:E
    end; cbn [fst RiskManager.risk_amount RiskManager.risk_percent];
    apply G;
    first [ apply Hamount | reflexivity
          | apply Hcap; now apply Qltb_lt in E | apply Qle_refl ].
Qed.

(** Balance 10000 with 4% of the daily 5% used: the candidate (success
    probability 85, entitled to 2%) is sized at 1% of the balance. *)
Lemma risk_amount_within_per_trade_ceiling_witness :
  let broker := Examples.broker 10000 739924%Z in
  let signal := Examples.candidate "a" "pending" 85 in
  let params :=
    fst (RiskManager.calculate_risk_params Examples.risk_settings broker
           Examples.used_four_percent signal) in
  0 < 10000 /\ 0 <= 2.0 /\
  RiskManager.risk_amount params
  == 10000 * RiskManager.risk_percent params / 100 /\
  RiskManager.risk_percent params <= 2.0.
Proof.
  intros broker signal params.
  assert (H1 : 0 < Py.get (Some 10000) 0.0) by reflexivity.
  assert (H2 : 0 <= Py.get (@None Q) 2.0) by (vm_compute; discriminate).
  destruct (risk_amount_within_per_trade_ceiling Examples.risk_settings broker
              Examples.used_four_percent signal
              (RiskManager.mkAccountInfo (Some 10000) (Some 100000))
              (RiskManager.mkSymbolInfo None None None None)
              eq_refl eq_refl H1 H2) as (E & _ & Hp & _).
  split; [exact H1 | split; [exact H2 | split; [exact E | exact Hp]]].
Defined.

(** ** Risk manager: the weekly budget and the bounded history *)

Lemma take_last_length {A : Type} n (xs : list A) :
  List.length (Py.take_last n xs) = Nat.min n (List.length xs).
Proof. unfold Py.take_last. rewrite length_skipn. lia. Qed.

Lemma take_last_snoc {A : Type} n (xs : list A) x :
  Py.take_last (S n) (xs ++ [x]) = Py.take_last n xs ++ [x].
Proof.
  unfold Py.take_last. rewrite length_app. cbn [List.length].
  replace (List.length xs + 1 - S n)%nat with (List.length xs - n)%nat by lia.
  rewrite skipn_app.
  replace (List.length xs - n - List.length xs)%nat with 0%nat by lia.
  reflexivity.
Qed.

Section RiskWeeklyBudget.

Import RiskManager.

Variable settings : Settings.

Let max_weekly := Py.get (max_weekly_risk_percent settings) 10.0.

Hypothesis max_weekly_nonneg : 0 <= max_weekly.

(** The invariant: the weekly counter is within the weekly ceiling and
    the history holds at most 100 entries. *)
Let within_week (st : State) : Prop :=
  weekly_risk st <= max_weekly /\ (List.length (risk_history st) <= 100)%nat.

Lemma tracking_keeps_week d st :
  within_week st -> within_week (_update_risk_tracking d st).
Proof.
  unfold within_week. intros [H Hh].
  destruct (update_risk_tracking_cases d st)
    as (-> & _ & _ & [[_ ->]|[_ ->]] & _);
    (split; [|exact Hh]); [exact H | pose proof max_weekly_nonneg; lra].
Qed.

Lemma calculate_risk_params_week broker st signal :
  within_week st ->
  let result := calculate_risk_params settings broker st signal in
  within_week (snd result) /\
  (risk_amount (fst result) == 0
   \/ risk_amount (fst result)
      <= (max_weekly - weekly_risk (snd result)) / 100
         * TelegramBot.balance_of broker).
Proof.
  intros Hst result. subst result.
  destruct (get_account_info broker) as [account|] eqn:Ha.
  - destruct (get_symbol_info broker (SignalGenerator.symbol signal))
      as [info|] eqn:Hi.
    + split.
      * rewrite (calculate_risk_params_state _ _ _ _ _ _ Ha Hi).
        now apply tracking_keeps_week.
      * right.
        pose proof (calculate_risk_params_capped settings broker st signal
                      _ _ Ha Hi) as H.
        cbv zeta in H.
        eapply Qle_trans; [exact H|]. apply Q.le_min_r.
    + rewrite calculate_risk_params_default by auto. cbn [fst snd].
      split; [exact Hst | left; reflexivity].
  - rewrite calculate_risk_params_default by auto. cbn [fst snd].
    split; [exact Hst | left; reflexivity].
Qed.

Lemma can_open_position_keeps_week broker st signal :
  within_week st ->
  within_week (snd (can_open_position settings broker st signal)).
Proof.
  intros Hst. unfold can_open_position.
  destruct (get_account_info broker); [|exact Hst].
  destruct (max_positions_reached _); [exact Hst|].
  destruct (Py.get _ false); [exact Hst|].
  pose proof (calculate_risk_params_week broker st signal Hst) as [H _].
  destruct (calculate_risk_params settings broker st signal) as [p st1].
  cbn [snd] in H.
  repeat match goal with
  | |- context [if ?c then _ else _] => destruct c
  end; exact H.
Qed.

(** The history after a commit: the entry is appended and the list is cut
    to its last 100 entries. *)
Lemma update_risk_history_length broker st trade account :
  get_account_info broker = Some account ->
  List.length (risk_history (update_risk_history broker st trade))
  = Nat.min 100 (S (List.length (risk_history st))).
Proof.
  intros Ha. unfold update_risk_history. rewrite Ha.
  cbn [risk_history]. rewrite length_app. cbn [List.length].
  destruct (Nat.ltb_spec 100 (List.length (risk_history st) + 1)) as [H|H].
  - rewrite take_last_length, length_app. cbn [List.length]. lia.
  - rewrite length_app. cbn [List.length]. lia.
Qed.

Lemma commit_keeps_week broker st trade amount sizing_balance :
  trade_risk_amount trade = Some amount ->
  TelegramBot.balance_of broker == sizing_balance ->
  within_week st ->
  (amount == 0
   \/ amount <= (max_weekly - weekly_risk st) / 100 * sizing_balance) ->
  within_week (update_risk_history broker st trade).
Proof.
  unfold within_week. intros Ht Hb [Hst Hh] Hamount. split.
  - revert Hb. unfold TelegramBot.balance_of, update_risk_history.
    destruct (get_account_info broker) as [account|]; [|intros; exact Hst].
    intros Hb. rewrite Ht. cbn [Py.get weekly_risk].
    set (bal := Py.get (RiskManager.balance account) 0.0) in *.
    destruct (Py.Qltb 0 bal) eqn:E; [|lra].
    apply Qltb_lt in E.
    assert (Hq : amount / bal <= (max_weekly - weekly_risk st) / 100).
    { destruct Hamount as [Hz|Hle].
      - rewrite Hz. unfold Qdiv at 1. rewrite Qmult_0_l.
        apply Qle_shift_div_l; lra.
      - apply Qle_shift_div_r; [exact E|]. rewrite Hb. exact Hle. }
    assert (G : forall m d q : Q, q <= (m - d) / 100 -> d + q * 100 <= m).
    { intros m d q H.
      apply Qmult_le_compat_r with (z := 100) in H; [|lra].
      assert (Ef : (m - d) / 100 * 100 == m - d) by (field; lra).
      rewrite Ef in H. lra. }
    apply G, Hq.
  - destruct (get_account_info broker) as [account|] eqn:Ha.
    + rewrite (update_risk_history_length _ _ _ _ Ha). lia.
    + unfold update_risk_history. now rewrite Ha.
Qed.

Lemma confirm_keeps_week at_check at_sizing at_commit opened signal_id bot :
  TelegramBot.stable_balance
    (TelegramBot.Confirm at_check at_sizing at_commit opened signal_id) ->
  within_week (snd bot) ->
  within_week
    (snd (TelegramBot._confirm_signal settings at_check at_sizing at_commit
            opened signal_id bot)).
Proof.
  destruct bot as [store st]. cbn [snd TelegramBot.stable_balance].
  intros Hstable Hst. unfold TelegramBot._confirm_signal.
  destruct (SignalGenerator.get_signal_by_id store signal_id) as [signal|];
    [|exact Hst].
  destruct (negb (TelegramBot.is_pending signal)); [exact Hst|].
  pose proof (can_open_position_keeps_week at_check st signal Hst) as H1.
  destruct (can_open_position settings at_check st signal)
    as [[can_open reason] st1].
  cbn [snd] in H1.
  destruct can_open; cbn [negb]; [|exact H1].
  pose proof (calculate_risk_params_week at_sizing st1 signal H1) as [H2 Hcap].
  destruct (calculate_risk_params settings at_sizing st1 signal)
    as [risk_params st2].
  cbn [fst snd] in H2, Hcap.
  destruct opened as [result|]; cbn [snd]; [|exact H2].
  eapply commit_keeps_week; eauto. reflexivity.
Qed.

Lemma handle_keeps_week bot request :
  TelegramBot.stable_balance request ->
  within_week (snd bot) ->
  within_week (snd (TelegramBot.handle settings bot request)).
Proof.
  intros Hstable Hst.
  destruct request as [b1 b2 b3 opened j | j | waiting j | b sig];
    cbn [TelegramBot.handle].
  - now apply confirm_keeps_week.
  - destruct bot as [store st]. unfold TelegramBot._reject_signal.
    destruct (SignalGenerator.get_signal_by_id store j) as [signal|];
      [|exact Hst].
    destruct (negb (TelegramBot.is_pending signal)); exact Hst.
  - destruct bot as [store st]. unfold TelegramBot._handle_confirmation_timeout.
    destruct (negb waiting); [exact Hst|].
    destruct (SignalGenerator.get_signal_by_id store j) as [signal|];
      [|exact Hst].
    destruct (TelegramBot.is_pending signal); exact Hst.
  - cbn [snd].
    now destruct (calculate_risk_params_week b (snd bot) sig Hst).
Qed.

Lemma run_keeps_week requests : forall bot,
  Forall TelegramBot.stable_balance requests ->
  within_week (snd bot) ->
  within_week (snd (TelegramBot.run settings bot requests)).
Proof.
  unfold TelegramBot.run.
  induction requests as [|request requests IH]; intros bot Hall Hst; simpl.
  - exact Hst.
  - apply IH.
    + now apply Forall_inv_tail in Hall.
    + apply handle_keeps_week; [now apply Forall_inv in Hall | exact Hst].
Qed.

End RiskWeeklyBudget.

(** X9.  The weekly counter obeys its ceiling as the daily one does.
    Provided every commit sees the account balance its trade was sized
    with, and starting within a non-negative [max_weekly_risk_percent] with
    at most 100 history entries (a new manager starts at 0 with an empty
    history): after any sequence of confirmations, rejections, timeouts and
    scans, on one day or across days and weeks, the weekly counter does not
    exceed [max_weekly_risk_percent] and the risk history holds at most 100
    entries. *)
Theorem committed_weekly_risk_never_exceeds_ceiling
    (settings : RiskManager.Settings) (bot : TelegramBot.BotState)
    (requests : list TelegramBot.Request) :
  0 <= Py.get (RiskManager.max_weekly_risk_percent settings) 10.0 ->
  RiskManager.weekly_risk (snd bot)
    <= Py.get (RiskManager.max_weekly_risk_percent settings) 10.0 ->
  (List.length (RiskManager.risk_history (snd bot)) <= 100)%nat ->
  Forall TelegramBot.stable_balance requests ->
  RiskManager.weekly_risk (snd (TelegramBot.run settings bot requests))
    <= Py.get (RiskManager.max_weekly_risk_percent settings) 10.0 /\
  (List.length
     (RiskManager.risk_history (snd (TelegramBot.run settings bot requests)))
   <= 100)%nat.
Proof.
  intros Hmax Hst Hh Hstable.
  exact (run_keeps_week settings Hmax requests bot Hstable (conj Hst Hh)).
Qed.

(** Two confirmed trades of 2% each on a manager that has used 7% of the
    weekly 10% on an earlier day of the week: the first is committed in
    full (9%), the second is capped to the remaining 1% (10%). *)
Lemma committed_weekly_risk_never_exceeds_ceiling_witness :
  let broker := Examples.broker 10000 739925%Z in
  let bot :=
    ([Examples.candidate "a" "pending" 85; Examples.candidate "b" "pending" 85],
     RiskManager.mkState [] 0 7 739924%Z 45%Z) in
  let requests :=
    [TelegramBot.Confirm broker broker broker (Some "ticket 1"%string) "a";
     TelegramBot.Confirm broker broker broker (Some "ticket 2"%string) "b"] in
  Forall TelegramBot.stable_balance requests /\
  RiskManager.weekly_risk (snd (TelegramBot.run Examples.risk_settings bot requests))
    <= 10.0 /\
  RiskManager.weekly_risk (snd (TelegramBot.run Examples.risk_settings bot requests))
    == 10 /\
  List.length
    (RiskManager.risk_history
       (snd (TelegramBot.run Examples.risk_settings bot requests))) = 2%nat.
Proof.
  intros broker bot requests.
  assert (H1 : 0 <= Py.get (RiskManager.max_weekly_risk_percent
                              Examples.risk_settings) 10.0)
    by (vm_compute; discriminate).
  assert (H2 : RiskManager.weekly_risk (snd bot)
               <= Py.get (RiskManager.max_weekly_risk_percent
                            Examples.risk_settings) 10.0)
    by (vm_compute; discriminate).
  assert (H3 : (List.length (RiskManager.risk_history (snd bot)) <= 100)%nat)
    by (cbn; lia).
  assert (H4 : Forall TelegramBot.stable_balance requests)
    by (repeat constructor).
  split; [exact H4|]. split.
  - exact (proj1 (committed_weekly_risk_never_exceeds_ceiling
                    Examples.risk_settings bot requests H1 H2 H3 H4)).
  - split; vm_compute; reflexivity.
Defined.

(** ** Nearest levels *)

Lemma max_of_spec xs : forall x,
  (exists y, In y (x :: xs) /\ AnalysisEngine.max_of x xs == y) /\
  (forall y, In y (x :: xs) -> y <= AnalysisEngine.max_of x xs).
Proof.
  unfold AnalysisEngine.max_of.
  induction xs as [|a xs IH]; intros x; cbn [fold_left].
  - split; [exists x; split; [now left | reflexivity]|].
    intros y [<-|[]]. apply Qle_refl.
  - destruct (IH (Qmax x a)) as [(y & Hy & E) Hall]. split.
    + destruct Hy as [<-|Hy].
      * destruct (Q.max_spec x a) as [[_ Hm]|[_ Hm]].
        -- exists a. split; [right; now left | now rewrite E].
        -- exists x. split; [now left | now rewrite E].
      * exists y. split; [right; now right | exact E].
    + intros z [<-|[<-|Hz]].
      * eapply Qle_trans; [apply Q.le_max_l | apply Hall; now left].
      * eapply Qle_trans; [apply Q.le_max_r | apply Hall; now left].
      * apply Hall. now right.
Qed.

Lemma min_of_spec xs : forall x,
  (exists y, In y (x :: xs) /\ AnalysisEngine.min_of x xs == y) /\
  (forall y, In y (x :: xs) -> AnalysisEngine.min_of x xs <= y).
Proof.
  unfold AnalysisEngine.min_of.
  induction xs as [|a xs IH]; intros x; cbn [fold_left].
  - split; [exists x; split; [now left | reflexivity]|].
    intros y [<-|[]]. apply Qle_refl.
  - destruct (IH (Qmin x a)) as [(y & Hy & E) Hall]. split.
    + destruct Hy as [<-|Hy].
      * destruct (Q.min_spec x a) as [[_ Hm]|[_ Hm]].
        -- exists x. split; [now left | now rewrite E].
        -- exists a. split; [right; now left | now rewrite E].
      * exists y. split; [right; now right | exact E].
    + intros z [<-|[<-|Hz]].
      * eapply Qle_trans; [apply Hall; now left | apply Q.le_min_l].
      * eapply Qle_trans; [apply Hall; now left | apply Q.le_min_r].
      * apply Hall. now right.
Qed.

(** The nearest level below a price is one of the levels, lies strictly
    below the price, and no level below the price is above it. *)
Lemma nearest_below_spec levels price :
  match AnalysisEngine.nearest_below levels price with
  | Some s =>
      s < price /\ (exists l, In l levels /\ s == l) /\
      (forall l, In l levels -> l < price -> l <= s)
  | None => forall l, In l levels -> price <= l
  end.
Proof.
  unfold AnalysisEngine.nearest_below.
  destruct (filter (fun s => Py.Qltb s price) levels) as [|s below] eqn:E.
  - intros l Hl. apply Qltb_ge.
    destruct (Py.Qltb l price) eqn:El; auto.
    assert (In l (filter (fun s => Py.Qltb s price) levels))
      by (apply filter_In; auto).
    rewrite E in H. contradiction.
  - destruct (max_of_spec below s) as [(y & Hy & Ey) Hall].
    assert (Hin : forall l, In l (s :: below) -> In l levels /\ l < price).
    { intros l Hl. rewrite <- E in Hl. apply filter_In in Hl as [H1 H2].
      split; auto. now apply Qltb_lt. }
    split; [|split].
    + rewrite Ey. now apply Hin.
    + exists y. split; [now apply Hin | exact Ey].
    + intros l Hl Hlt. apply Hall. rewrite <- E. apply filter_In.
      split; auto. now apply Qltb_lt.
Qed.

Lemma nearest_above_spec levels price :
  match AnalysisEngine.nearest_above levels price with
  | Some r =>
      price < r /\ (exists l, In l levels /\ r == l) /\
      (forall l, In l levels -> price < l -> r <= l)
  | None => forall l, In l levels -> l <= price
  end.
Proof.
  unfold AnalysisEngine.nearest_above.
  destruct (filter (fun r => Py.Qltb price r) levels) as [|r above] eqn:E.
  - intros l Hl. apply Qltb_ge.
    destruct (Py.Qltb price l) eqn:El; auto.
    assert (In l (filter (fun r => Py.Qltb price r) levels))
      by (apply filter_In; auto).
    rewrite E in H. contradiction.
  - destruct (min_of_spec above r) as [(y & Hy & Ey) Hall].
    assert (Hin : forall l, In l (r :: above) -> In l levels /\ price < l).
    { intros l Hl. rewrite <- E in Hl. apply filter_In in Hl as [H1 H2].
      split; auto. now apply Qltb_lt. }
    split; [|split].
    + rewrite Ey. now apply Hin.
    + exists y. split; [now apply Hin | exact Ey].
    + intros l Hl Hlt. apply Hall. rewrite <- E. apply filter_In.
      split; auto. now apply Qltb_lt.
Qed.

(** X10.  [_find_nearest_levels] returns, for the latest close of the
    first timeframe (H1, M15, M5, H4, D1) that has data, the support level
    nearest below it and the resistance level nearest above it: each is one
    of the summaries' levels, lies strictly on its side of the price, and no
    other level on that side is nearer.  A side with no level on it gives
    [None], and so do both sides when no price is available. *)
Theorem nearest_levels_bracket_the_price (results : AnalysisEngine.Results) :
  let supports :=
    AnalysisEngine.all_levels TimeframeSummary.support_levels
      (AnalysisEngine.timeframes results) in
  let resistances :=
    AnalysisEngine.all_levels TimeframeSummary.resistance_levels
      (AnalysisEngine.timeframes results) in
  match AnalysisEngine.current_price results
          ["H1"; "M15"; "M5"; "H4"; "D1"]%string with
  | None => AnalysisEngine._find_nearest_levels results = (None, None)
  | Some price =>
      match fst (AnalysisEngine._find_nearest_levels results) with
      | Some s =>
          s < price /\ (exists l, In l supports /\ s == l) /\
          (forall l, In l supports -> l < price -> l <= s)
      | None => forall l, In l supports -> price <= l
      end /\
      match snd (AnalysisEngine._find_nearest_levels results) with
      | Some r =>
          price < r /\ (exists l, In l resistances /\ r == l) /\
          (forall l, In l resistances -> price < l -> r <= l)
      | None => forall l, In l resistances -> l <= price
      end
  end.
Proof.
  cbv zeta. unfold AnalysisEngine._find_nearest_levels.
  destruct (AnalysisEngine.current_price results _) as [price|]; [|reflexivity].
  cbn [fst snd]. split; [apply nearest_below_spec | apply nearest_above_spec].
Qed.

(** ** Signal fusion: stops and targets *)

Lemma truthy_get x : SignalGenerator.truthy x = true -> exists v, x = Some v.
Proof. destruct x as [v|]; [eauto | discriminate]. Qed.

(** X11.  With an ATR available and positive, [_calculate_sl_tp] places
    the stop of a buy below the entry and its target above (the reverse for
    a sell), at distances bounded by the ATR: the stop is at least 0.5 and
    less than 2.1 ATR away, the target at least 1 and less than 4 ATR away,
    whatever support and resistance levels the analysis holds.  The
    risk/reward ratio of the result is the target distance over the stop
    distance. *)
Theorem stops_and_targets_scale_with_atr
    (settings : SignalGenerator.Settings) (env : SignalGenerator.Env)
    (symbol : string) (signal : Signal) (entry_price : Q)
    (analysis_results : SignalGenerator.AnalysisResults) (atr : Q) :
  SignalGenerator._get_atr_value env analysis_results = Some atr ->
  0 < atr ->
  signal = Buy \/ signal = Sell ->
  let sl_tp :=
    SignalGenerator._calculate_sl_tp settings env symbol signal entry_price
                                     analysis_results in
  let risk :=
    match signal with
    | Buy => entry_price - fst sl_tp
    | _ => fst sl_tp - entry_price
    end in
  let reward :=
    match signal with
    | Buy => snd sl_tp - entry_price
    | _ => entry_price - snd sl_tp
    end in
  0.5 * atr <= risk /\ risk < 2.1 * atr /\
  atr <= reward /\ reward < 4 * atr /\
  SignalGenerator._calculate_risk_reward signal entry_price (fst sl_tp)
                                         (snd sl_tp)
  == reward / risk.
Proof.
  intros Hatr Hpos Hsig. cbv zeta.
  unfold SignalGenerator._calculate_sl_tp. rewrite Hatr. cbv zeta.
  pose proof (nearest_below_spec
                (AnalysisEngine.all_levels TimeframeSummary.support_levels
                   (SignalGenerator.timeframes analysis_results))
                entry_price) as Hs.
  pose proof (nearest_above_spec
                (AnalysisEngine.all_levels TimeframeSummary.resistance_levels
                   (SignalGenerator.timeframes analysis_results))
                entry_price) as Hr.
  destruct (AnalysisEngine.nearest_below _ entry_price) as [s|];
    destruct (AnalysisEngine.nearest_above _ entry_price) as [r|];
    try destruct Hs as [Hs _]; try destruct Hr as [Hr _];
    cbn [SignalGenerator.truthy Py.get andb];
    destruct Hsig as [-> | ->];
    unfold SignalGenerator._calculate_risk_reward;
    repeat match goal with
    | |- context [negb ?c] => destruct c; cbn [negb andb]
    | |- context [Py.Qltb ?a ?b] =>
        let E := fresh "E" in
        destruct (Py.Qltb a b) eqn:E;
        [apply Qltb_lt in E | apply Qltb_ge in E]; cbn [andb]
    end;
    cbn [fst snd];
    match goal with
    | |- context [Qle_bool ?a 0] =>
        let E := fresh "E" in
        destruct (Qle_bool a 0) eqn:E;
        [apply Qle_bool_iff in E | ]
    end;
    repeat split; try lra; try reflexivity.
Qed.

(** ATR 0.0010, entry 1.1000, a support at 1.0995 and a resistance at
    1.1100: the stop of a buy goes 0.1 ATR under the support (1.0994, 0.6
    ATR away), the resistance is farther than 4 ATR so the target is 3 ATR
    away (1.1030); the ratio is 5. *)
Lemma stops_and_targets_scale_with_atr_witness :
  let analysis_results :=
    SignalGenerator.mkAnalysisResults false (Some Examples.verdict)
      [("H1"%string,
        AnalysisEngine.mkTimeframeData 100 None
          (Some (TimeframeSummary.mk Buy High 80 3 0 [1.0995] [1.1100] [])))] in
  let sl_tp :=
    SignalGenerator._calculate_sl_tp Examples.signal_settings Examples.market
      "EURUSD" Buy 1.1000 analysis_results in
  0 < 0.0010 /\
  fst sl_tp == 1.0994 /\ snd sl_tp == 1.1030 /\
  0.5 * 0.0010 <= 1.1000 - fst sl_tp /\ 1.1000 - fst sl_tp < 2.1 * 0.0010 /\
  SignalGenerator._calculate_risk_reward Buy 1.1000 (fst sl_tp) (snd sl_tp)
  == (snd sl_tp - 1.1000) / (1.1000 - fst sl_tp).
Proof.
  intros analysis_results sl_tp.
  assert (Hpos : 0 < 0.0010) by reflexivity.
  destruct (stops_and_targets_scale_with_atr Examples.signal_settings
              Examples.market "EURUSD" Buy 1.1000 analysis_results 0.0010
              eq_refl Hpos (or_introl eq_refl)) as (H1 & H2 & _ & _ & H5).
  split; [exact Hpos|].
  split; [vm_compute; reflexivity|]. split; [vm_compute; reflexivity|].
  split; [exact H1|]. split; [exact H2 | exact H5].
Defined.

Lemma pips_to_price_positive symbol : 0 < SignalGenerator._pips_to_price symbol 1.
Proof.
  unfold SignalGenerator._pips_to_price.
  destruct (Py.contains "XAU" symbol), (Py.contains "JPY" symbol); reflexivity.
Qed.

(** X12.  Without an ATR, [_calculate_sl_tp] falls back to the configured
    pip distances: the stop is [default_stop_loss_pips] pips from the entry
    on the losing side and the target [default_take_profit_pips] pips on the
    winning side, a pip being 0.1 for symbols containing XAU, 0.01 for other
    symbols containing JPY and 0.0001 otherwise.  When the stop distance is
    positive the risk/reward ratio of the result is the quotient of the two
    settings, 2 with the defaults 100 and 50. *)
Theorem default_stops_give_the_configured_ratio
    (settings : SignalGenerator.Settings) (env : SignalGenerator.Env)
    (symbol : string) (signal : Signal) (entry_price : Q)
    (analysis_results : SignalGenerator.AnalysisResults) :
  SignalGenerator._get_atr_value env analysis_results = None ->
  signal = Buy \/ signal = Sell ->
  0 < Py.get (SignalGenerator.default_stop_loss_pips settings) 50 ->
  let sl_pips := Py.get (SignalGenerator.default_stop_loss_pips settings) 50 in
  let tp_pips := Py.get (SignalGenerator.default_take_profit_pips settings) 100 in
  let pip :=
    if Py.contains "XAU" symbol then 0.1
    else if Py.contains "JPY" symbol then 0.01 else 0.0001 in
  let sl_tp :=
    SignalGenerator._calculate_sl_tp settings env symbol signal entry_price
                                     analysis_results in
  match signal with
  | Buy => fst sl_tp == entry_price - sl_pips * pip /\
           snd sl_tp == entry_price + tp_pips * pip
  | _ => fst sl_tp == entry_price + sl_pips * pip /\
         snd sl_tp == entry_price - tp_pips * pip
  end /\
  SignalGenerator._calculate_risk_reward signal entry_price (fst sl_tp)
                                         (snd sl_tp)
  == tp_pips / sl_pips.
Proof.
  intros Hatr Hsig Hsl. cbv zeta.
  unfold SignalGenerator._calculate_sl_tp. rewrite Hatr.
  pose proof (pips_to_price_positive symbol) as Hpip.
  assert (Epip : SignalGenerator._pips_to_price symbol 1
                 == if Py.contains "XAU" symbol then 0.1
                    else if Py.contains "JPY" symbol then 0.01 else 0.0001).
  { unfold SignalGenerator._pips_to_price.
    destruct (Py.contains "XAU" symbol), (Py.contains "JPY" symbol); lra. }
  set (pip := SignalGenerator._pips_to_price symbol 1) in *.
  set (sl := Py.get (SignalGenerator.default_stop_loss_pips settings) 50) in *.
  set (tp := Py.get (SignalGenerator.default_take_profit_pips settings) 100).
  assert (Hrisk : 0 < sl * pip) by (apply Qmult_lt_0_compat; assumption).
  unfold SignalGenerator._calculate_risk_reward.
  destruct Hsig as [-> | ->]; cbn [fst snd].
  - split; [split; rewrite Epip; reflexivity|].
    destruct (Qle_bool (entry_price - (entry_price - sl * pip)) 0) eqn:E.
    + apply Qle_bool_iff in E. lra.
    + field. split; lra.
  - split; [split; rewrite Epip; reflexivity|].
    destruct (Qle_bool (entry_price + sl * pip - entry_price) 0) eqn:E.
    + apply Qle_bool_iff in E. lra.
    + field. split; lra.
Qed.

(** A USDJPY sell at 150.00 with no ATR and the default settings: stop at
    150.50, target at 149.00, ratio 2. *)
Lemma default_stops_give_the_configured_ratio_witness :
  let env := SignalGenerator.mkEnv None None None "signal-1" 739924%Z in
  let sl_tp :=
    SignalGenerator._calculate_sl_tp Examples.signal_settings env "USDJPY" Sell
      150 Examples.analysis in
  SignalGenerator._get_atr_value env Examples.analysis = None /\
  0 < Py.get (SignalGenerator.default_stop_loss_pips Examples.signal_settings) 50 /\
  fst sl_tp == 150.5 /\ snd sl_tp == 149 /\
  SignalGenerator._calculate_risk_reward Sell 150 (fst sl_tp) (snd sl_tp) == 2.
Proof.
  intros env sl_tp.
  assert (H1 : SignalGenerator._get_atr_value env Examples.analysis = None)
    by reflexivity.
  assert (H2 : 0 < Py.get (SignalGenerator.default_stop_loss_pips
                             Examples.signal_settings) 50) by reflexivity.
  destruct (default_stops_give_the_configured_ratio Examples.signal_settings
              env "USDJPY" Sell 150 Examples.analysis H1 (or_intror eq_refl) H2)
    as ([E1 E2] & E3).
  split; [exact H1 | split; [exact H2|]].
  split; [vm_compute; reflexivity|].
  split; [vm_compute; reflexivity|].
  eapply Qeq_trans; [exact E3 | vm_compute; reflexivity].
Defined.

(** ** Signal fusion: what an emitted signal looks like *)



(** ** The candidate-signal store *)

Lemma In_skipn {A : Type} (x : A) n : forall xs, In x (skipn n xs) -> In x xs.
Proof.
  induction n as [|n IH]; intros [|y ys] H; cbn in *; auto.
Qed.

Lemma find_snoc_fresh {A : Type} (f : A -> bool) xs y :
  (forall x, In x xs -> f x = false) -> f y = true ->
  find f (xs ++ [y]) = Some y.
Proof.
  intros Hxs Hy. induction xs as [|x xs IH]; cbn.
  - now rewrite Hy.
  - rewrite (Hxs x (or_introl eq_refl)). apply IH.
    intros z Hz. apply Hxs. now right.
Qed.

Lemma take_last_all {A : Type} n (xs : list A) :
  (List.length xs <= n)%nat -> Py.take_last n xs = xs.
Proof.
  intros H. unfold Py.take_last.
  replace (List.length xs - n)%nat with 0%nat by lia. reflexivity.
Qed.

(** X14.  [generate_signal] either returns nothing and leaves the signal
    history as it is, or returns a signal that carries the fresh
    identifier, is pending and not executed, and is the last entry of the
    history, which is cut to its most recent 100 entries.  When no stored
    signal has the fresh identifier, [get_signal_by_id] on the new history
    finds exactly the returned signal. *)
Theorem generated_signal_is_stored_last
    (settings : SignalGenerator.Settings) (env : SignalGenerator.Env)
    (signal_history : list SignalGenerator.CandidateSignal) (symbol : string)
    (analysis_results : SignalGenerator.AnalysisResults)
    (prediction_results : SignalGenerator.Prediction) :
  let result :=
    SignalGenerator.generate_signal settings env signal_history symbol
      analysis_results prediction_results in
  match fst result with
  | None => snd result = signal_history
  | Some s =>
      SignalGenerator.id s = SignalGenerator.new_id env /\
      SignalGenerator.symbol s = symbol /\
      SignalGenerator.executed s = false /\
      SignalGenerator.status s = "pending"%string /\
      snd result = Py.take_last 100 (signal_history ++ [s]) /\
      List.length (snd result) = Nat.min 100 (S (List.length signal_history)) /\
      ((forall old, In old signal_history ->
                    SignalGenerator.id old <> SignalGenerator.new_id env) ->
       SignalGenerator.get_signal_by_id (snd result) (SignalGenerator.new_id env)
       = Some s)
  end.
Proof.
  cbv zeta. unfold SignalGenerator.generate_signal.
  destruct (_ || _); [reflexivity|].
  destruct (SignalGenerator._get_last_price env analysis_results)
    as [last_price|]; [|reflexivity].
  destruct (_ || _); [reflexivity|]. cbv zeta.
  destruct (Py.Qltb _ _); [reflexivity|].
  cbn [fst snd SignalGenerator.id SignalGenerator.symbol
       SignalGenerator.executed SignalGenerator.status].
  match goal with
  | |- context [signal_history ++ [?x]] => set (s := x)
  end.
  assert (E : (if (100 <? List.length (signal_history ++ [s]))%nat
               then Py.take_last 100 (signal_history ++ [s])
               else signal_history ++ [s])
              = Py.take_last 100 (signal_history ++ [s])).
  { destruct (Nat.ltb_spec 100 (List.length (signal_history ++ [s])));
      [reflexivity | now rewrite take_last_all]. }
  rewrite E. repeat split.
  - rewrite take_last_length, length_app. cbn [List.length]. lia.
  - intros Hfresh. rewrite (take_last_snoc 99).
    unfold SignalGenerator.get_signal_by_id. apply find_snoc_fresh.
    + intros old Hold. apply String.eqb_neq. apply Hfresh.
      unfold Py.take_last in Hold. now apply In_skipn in Hold.
    + apply String.eqb_refl.
Qed.

(** A store that already holds the signal "signal-0": the emitted signal
    "signal-1" is appended and found by its identifier. *)
Lemma generated_signal_is_stored_last_witness :
  let history := [Examples.candidate "signal-0" "executed" 85] in
  let result :=
    SignalGenerator.generate_signal Examples.signal_settings Examples.market
      history "EURUSD" Examples.analysis Examples.forecast in
  (forall old, In old history ->
               SignalGenerator.id old <> SignalGenerator.new_id Examples.market) /\
  match fst result with
  | Some s =>
      snd result = history ++ [s] /\
      SignalGenerator.get_signal_by_id (snd result) "signal-1" = Some s
  | None => False
  end.
Proof.
  intros history result.
  assert (Hfresh : forall old, In old history ->
            SignalGenerator.id old <> SignalGenerator.new_id Examples.market).
  { intros old [<-|[]]. discriminate. }
  split; [exact Hfresh|].
  pose proof (generated_signal_is_stored_last Examples.signal_settings
                Examples.market history "EURUSD" Examples.analysis
                Examples.forecast) as H.
  cbv zeta in H. fold result in H.
  destruct result as [[s|] history'] eqn:E; cbn [fst snd] in *.
  - destruct H as (_ & _ & _ & _ & Hs & _ & Hfind).
    split; [|exact (Hfind Hfresh)].
    rewrite Hs. apply take_last_all. cbn. lia.
  - vm_compute in E. discriminate.
Defined.

Lemma update_first_ids (f : SignalGenerator.CandidateSignal ->
                            SignalGenerator.CandidateSignal) store i :
  (forall s, SignalGenerator.id (f s) = SignalGenerator.id s) ->
  map SignalGenerator.id (SignalGenerator.update_first i f store)
  = map SignalGenerator.id store.
Proof.
  intros Hf. induction store as [|s store IH]; cbn; auto.
  destruct (String.eqb (SignalGenerator.id s) i); cbn.
  - now rewrite Hf.
  - now rewrite IH.
Qed.

(** X15.  [update_signal_status] on an unknown identifier returns [False]
    and leaves the store as it is.  On a known identifier it returns [True]
    and rewrites one signal only: the store keeps its length and its
    identifiers in order, looking the identifier up afterwards gives the
    signal with the new status and the same prices and direction, marked
    executed exactly when it was already or when the new status is
    "executed" and execution details are given; every other identifier
    looks up as before. *)
Theorem update_signal_status_rewrites_one_signal
    (store : list SignalGenerator.CandidateSignal) (signal_id new_status : string)
    (details : option string) :
  let result :=
    SignalGenerator.update_signal_status store signal_id new_status details in
  match SignalGenerator.get_signal_by_id store signal_id with
  | None => result = (false, store)
  | Some s =>
      fst result = true /\
      map SignalGenerator.id (snd result) = map SignalGenerator.id store /\
      (exists s',
         SignalGenerator.get_signal_by_id (snd result) signal_id = Some s' /\
         SignalGenerator.status s' = new_status /\
         SignalGenerator.signal s' = SignalGenerator.signal s /\
         SignalGenerator.entry_price s' = SignalGenerator.entry_price s /\
         SignalGenerator.stop_loss s' = SignalGenerator.stop_loss s /\
         SignalGenerator.take_profit s' = SignalGenerator.take_profit s /\
         SignalGenerator.executed s'
         = (SignalGenerator.executed s
            || (String.eqb new_status "executed"
                && match details with Some _ => true | None => false end))) /\
      (forall other, other <> signal_id ->
         SignalGenerator.get_signal_by_id (snd result) other
         = SignalGenerator.get_signal_by_id store other)
  end.
Proof.
  cbv zeta. unfold SignalGenerator.update_signal_status.
  destruct (SignalGenerator.get_signal_by_id store signal_id) as [s|] eqn:E;
    [|reflexivity].
  cbn [fst snd]. split; [reflexivity|]. split; [|split].
  - apply update_first_ids. intros. apply status_writer_keeps_id.
  - rewrite get_update_first_same by (intros; apply status_writer_keeps_id).
    rewrite E. cbn [option_map]. eexists. split; [reflexivity|].
    destruct details as [d|];
      [destruct (String.eqb new_status "executed")|];
      unfold SignalGenerator.set_executed, SignalGenerator.set_status;
      cbn [SignalGenerator.status SignalGenerator.signal
           SignalGenerator.entry_price SignalGenerator.stop_loss
           SignalGenerator.take_profit SignalGenerator.executed andb];
      repeat split;
      rewrite ?andb_false_r, ?orb_true_r, ?orb_false_r; reflexivity.
  - intros other Hne. apply get_update_first_other; auto.
    intros. apply status_writer_keeps_id.
Qed.

(** X16.  [get_signal_history(limit)] returns a suffix of the stored
    history, oldest first: its last [limit] signals when [limit] is
    positive (all of them when fewer are stored), the whole history when
    [limit] is 0, and the history without its first [-limit] signals when
    [limit] is negative. *)
Theorem get_signal_history_returns_a_suffix
    (signal_history : list SignalGenerator.CandidateSignal) (limit : Z) :
  let recent := SignalGenerator.get_signal_history signal_history limit in
  (exists older, signal_history = older ++ recent) /\
  ((0 < limit)%Z ->
   List.length recent = Nat.min (Z.to_nat limit) (List.length signal_history)) /\
  (limit = 0%Z -> recent = signal_history) /\
  ((limit < 0)%Z ->
   List.length recent = (List.length signal_history - Z.to_nat (- limit))%nat).
Proof.
  cbv zeta. unfold SignalGenerator.get_signal_history, Py.slice_from_minus.
  destruct signal_history as [|s0 history].
  - split; [exists []; reflexivity|]. cbn. repeat split; intros; lia.
  - set (h := s0 :: history).
    destruct (Z.ltb_spec 0 limit) as [Hpos|Hneg].
    + split; [eexists; symmetry; apply firstn_skipn|].
      split; [intros _; rewrite length_skipn; lia|].
      split; intros; lia.
    + split; [eexists; symmetry; apply firstn_skipn|].
      split; [intros; lia|]. split.
      * intros ->. reflexivity.
      * intros _. now rewrite length_skipn.
Qed.

(** Three stored signals: a limit of 2 gives the last two, a limit of 0
    gives all three. *)
Lemma get_signal_history_returns_a_suffix_witness :
  let a := Examples.candidate "a" "executed" 85 in
  let b := Examples.candidate "b" "rejected" 70 in
  let c := Examples.candidate "c" "pending" 60 in
  (0 < 2)%Z /\
  SignalGenerator.get_signal_history [a; b; c] 2 = [b; c] /\
  List.length (SignalGenerator.get_signal_history [a; b; c] 2)
  = Nat.min (Z.to_nat 2) (List.length [a; b; c]) /\
  SignalGenerator.get_signal_history [a; b; c] 0 = [a; b; c].
Proof.
  intros a b c.
  assert (H : (0 < 2)%Z) by reflexivity.
  split; [exact H|]. split; [reflexivity|]. split.
  - exact (proj1 (proj2 (get_signal_history_returns_a_suffix [a; b; c] 2)) H).
  - exact (proj1 (proj2 (proj2 (get_signal_history_returns_a_suffix [a; b; c] 0)))
             eq_refl).
Defined.

(** ** The forecaster and the fusion *)

Lemma predict_confidence_range model_output :
  0 <= AIPredictor.confidence (AIPredictor.predict model_output) <= 100.
Proof.
  unfold AIPredictor.predict.
  destruct model_output as [[pred_value last_price]|]; [|cbn; lra].
  pose proof (Qabs_nonneg (pred_value * 100)) as Habs.
  destruct (Py.Qltb 0.01 pred_value) eqn:E1; cbn [AIPredictor.confidence].
  - split; [apply Q.min_glb; lra | apply Q.le_min_r].
  - destruct (Py.Qltb pred_value (- 0.01)) eqn:E2; cbn [AIPredictor.confidence].
    + split; [apply Q.min_glb; lra | apply Q.le_min_r].
    + apply Qltb_ge in E1, E2. split; [exact Habs|].
      apply Qabs_case; intros; lra.
Qed.

(** X17.  [predict] reports a direction only for a predicted change of
    more than 1% (buy above +0.01, sell below -0.01) and a confidence in
    [0, 100] in every case.  Since the fusion gives the forecast a weight of
    0.3, a forecast alone never produces a signal: whenever the technical
    verdict is neutral (or absent), [generate_signal] called with the
    predictor's result returns nothing and leaves the history unchanged. *)
Theorem forecast_alone_never_yields_a_signal
    (settings : SignalGenerator.Settings) (env : SignalGenerator.Env)
    (signal_history : list SignalGenerator.CandidateSignal) (symbol : string)
    (analysis_results : SignalGenerator.AnalysisResults)
    (model_output : option (Q * Q)) :
  match SignalGenerator.summary analysis_results with
  | Some verdict => Summary.signal verdict = Neutral
  | None => True
  end ->
  let forecast := AIPredictor.predict model_output in
  0 <= AIPredictor.confidence forecast <= 100 /\
  (AIPredictor.direction forecast = Buy <->
   exists pred_value last_price,
     model_output = Some (pred_value, last_price) /\ 0.01 < pred_value) /\
  (AIPredictor.direction forecast = Sell <->
   exists pred_value last_price,
     model_output = Some (pred_value, last_price) /\ pred_value < - 0.01) /\
  SignalGenerator.generate_signal settings env signal_history symbol
    analysis_results (AIPredictor.prediction_results forecast)
  = (None, signal_history).
Proof.
  intros Hneutral. cbv zeta.
  pose proof (predict_confidence_range model_output) as Hconf.
  split; [exact Hconf|]. split; [|split].
  - unfold AIPredictor.predict.
    destruct model_output as [[p l]|]; cbn [AIPredictor.direction].
    + destruct (Py.Qltb 0.01 p) eqn:E1; cbn [AIPredictor.direction].
      * apply Qltb_lt in E1. split; [intros _; exists p, l; auto | auto].
      * apply Qltb_ge in E1.
        destruct (Py.Qltb p (- 0.01)); cbn [AIPredictor.direction];
          (split; [discriminate|]);
          intros (p' & l' & [= <- <-] & H); lra.
    + split; [discriminate|]. intros (p' & l' & H & _). discriminate.
  - unfold AIPredictor.predict.
    destruct model_output as [[p l]|]; cbn [AIPredictor.direction].
    + destruct (Py.Qltb 0.01 p) eqn:E1; cbn [AIPredictor.direction].
      * apply Qltb_lt in E1. split; [discriminate|].
        intros (p' & l' & [= <- <-] & H); lra.
      * destruct (Py.Qltb p (- 0.01)) eqn:E2; cbn [AIPredictor.direction].
        -- apply Qltb_lt in E2. split; [intros _; exists p, l; auto | auto].
        -- apply Qltb_ge in E2. split; [discriminate|].
           intros (p' & l' & [= <- <-] & H); lra.
    + split; [discriminate|]. intros (p' & l' & H & _). discriminate.
  - set (forecast := AIPredictor.predict model_output) in *.
    unfold SignalGenerator.generate_signal.
    destruct (_ || _); [reflexivity|].
    destruct (SignalGenerator._get_last_price env analysis_results);
      [|reflexivity].
    assert (Hweak :
              Signal_eqb (SignalGenerator.combined_signal
                            (SignalGenerator._combine_signals analysis_results
                               (AIPredictor.prediction_results forecast)))
                         Neutral
              || Py.Qltb (SignalGenerator.combined_strength
                            (SignalGenerator._combine_signals analysis_results
                               (AIPredictor.prediction_results forecast))) 40
              = true).
    { unfold SignalGenerator._combine_signals, AIPredictor.prediction_results.
      cbn [SignalGenerator.direction SignalGenerator.confidence Py.get].
      assert (Es : match SignalGenerator.summary analysis_results with
                   | Some s => Summary.signal s
                   | None => Neutral
                   end = Neutral).
      { destruct (SignalGenerator.summary analysis_results); auto. }
      rewrite Es. cbv zeta.
      destruct (AIPredictor.direction forecast);
        repeat match goal with
        | |- context [if Py.Qltb ?a ?b then _ else _] =>
            let E := fresh "E" in
            destruct (Py.Qltb a b) eqn:E;
            [apply Qltb_lt in E | apply Qltb_ge in E]
        end;
        cbn [SignalGenerator.combined_signal SignalGenerator.combined_strength
             Signal_eqb orb];
        try reflexivity; try lra;
        apply Qltb_lt; lra. }
    rewrite Hweak. reflexivity.
Qed.

(** The network predicts a rise of 80%: the forecast is buy with
    confidence 80, and with no technical verdict no signal is emitted. *)
Lemma forecast_alone_never_yields_a_signal_witness :
  let analysis_results := SignalGenerator.mkAnalysisResults false None [] in
  let forecast := AIPredictor.predict (Some (0.8, 1.1000)) in
  AIPredictor.direction forecast = Buy /\
  AIPredictor.confidence forecast == 80 /\
  SignalGenerator.generate_signal Examples.signal_settings Examples.market []
    "EURUSD" analysis_results (AIPredictor.prediction_results forecast)
  = (None, []).
Proof.
  intros analysis_results forecast.
  split; [reflexivity|]. split; [vm_compute; reflexivity|].
  exact (proj2 (proj2 (proj2
           (forecast_alone_never_yields_a_signal Examples.signal_settings
              Examples.market [] "EURUSD" analysis_results
              (Some (0.8, 1.1000)) I)))).
Defined.

(** ** Cross-timeframe aggregation: the overall verdict *)

Lemma lookup_nonneg (d : Dict.t Q) tf :
  Forall (fun kv => 0 <= snd kv) d -> 0 <= Py.get (Dict.lookup tf d) 0.
Proof.
  induction 1 as [|[k w] d Hw Hd IH]; cbn [Dict.lookup Py.get].
  - lra.
  - destruct (String.eqb tf k); [exact Hw | exact IH].
Qed.

Lemma normalized_weights_nonneg present tf :
  0 <= Py.get (Dict.lookup tf (AnalysisEngine.normalized_weights present)) 0.
Proof.
  apply lookup_nonneg. unfold AnalysisEngine.normalized_weights.
  destruct (Py.Qltb 0 (AnalysisEngine.total_weight present)) eqn:E.
  - apply Qltb_lt in E. unfold AnalysisEngine.timeframe_weights.
    cbn [map]. repeat constructor;
      match goal with
      | |- context [if ?c then _ else _] => destruct c
      end; cbn [snd]; try (apply Qdiv_pos_nonneg; [|exact E]); discriminate.
  - unfold AnalysisEngine.timeframe_weights. repeat constructor; discriminate.
Qed.

Lemma accumulate_weights_spec (weights : Dict.t Q) tfs :
  (forall tf, 0 <= Py.get (Dict.lookup tf weights) 0) ->
  0 <= fst (AnalysisEngine.accumulate_weights weights tfs) /\
  0 <= snd (AnalysisEngine.accumulate_weights weights tfs) /\
  (AnalysisEngine.no_vote Buy tfs -> fst (AnalysisEngine.accumulate_weights weights tfs) == 0) /\
  (AnalysisEngine.no_vote Sell tfs -> snd (AnalysisEngine.accumulate_weights weights tfs) == 0).
Proof.
  intros Hw. unfold AnalysisEngine.accumulate_weights.
  set (step := fun '(buy_weight, sell_weight) '(tf, tf_data) => _).
  assert (G : forall acc : Q * Q,
            0 <= fst acc -> 0 <= snd acc ->
            0 <= fst (fold_left step tfs acc) /\
            0 <= snd (fold_left step tfs acc) /\
            (AnalysisEngine.no_vote Buy tfs -> fst (fold_left step tfs acc) == fst acc) /\
            (AnalysisEngine.no_vote Sell tfs -> snd (fold_left step tfs acc) == snd acc)).
  { induction tfs as [|[tf tf_data] tfs IH]; intros [b s] Hb Hs;
      cbn [fold_left fst snd] in *.
    - repeat split; auto; reflexivity.
    - assert (Hrest : forall d, AnalysisEngine.no_vote d ((tf, tf_data) :: tfs) -> AnalysisEngine.no_vote d tfs).
      { intros d H tf' data' s' Hin. apply (H tf' data' s'). now right. }
      pose proof (Hw tf) as Htf.
      remember (step (b, s) (tf, tf_data)) as acc eqn:Eacc.
      unfold step in Eacc.
      destruct (AnalysisEngine.summary tf_data) as [sm|] eqn:Esm;
        [destruct (TimeframeSummary.signal sm) eqn:Esig|];
        subst acc;
        match goal with
        | |- context [fold_left step tfs ?a] =>
            destruct (IH a) as (H1 & H2 & H3 & H4); cbn [fst snd] in *;
            try lra
        end;
        (split; [exact H1|]); (split; [exact H2|]); split; intros Hno;
        try (exfalso;
             apply (Hno tf tf_data sm); [now left | exact Esm | exact Esig]);
        try (rewrite H3 by (now apply Hrest); reflexivity);
        try (rewrite H4 by (now apply Hrest); reflexivity). }
  apply G; cbn; lra.
Qed.

(** The weights after the sentiment step. *)
Lemma add_news_impact_spec buy_weight sell_weight news_impact :
  let w := AnalysisEngine.add_news_impact (buy_weight, sell_weight) news_impact in
  buy_weight <= fst w /\ fst w <= buy_weight + 0.1 /\
  sell_weight <= snd w /\ snd w <= sell_weight + 0.1.
Proof.
  cbv zeta. unfold AnalysisEngine.add_news_impact.
  pose proof (Qabs_nonneg news_impact) as Habs.
  destruct (Py.Qltb 0 news_impact) eqn:E1; cbn [fst snd].
  - apply Qltb_lt in E1.
    destruct (Q.min_spec news_impact 1.0) as [[H1 H2]|[H1 H2]];
      rewrite H2; repeat split; lra.
  - destruct (Py.Qltb news_impact 0) eqn:E2; cbn [fst snd].
    + destruct (Q.min_spec (Qabs news_impact) 1.0) as [[H1 H2]|[H1 H2]];
        rewrite H2; repeat split; lra.
    + repeat split; lra.
Qed.

(** The decision of [_create_summary] as a function of the two weights. *)
Lemma create_summary_fields results :
  exists buy_weight sell_weight,
    0 <= buy_weight /\ 0 <= sell_weight /\
    (AnalysisEngine.no_vote Buy (AnalysisEngine.timeframes results) ->
     buy_weight <= 0.1) /\
    (AnalysisEngine.no_vote Sell (AnalysisEngine.timeframes results) ->
     sell_weight <= 0.1) /\
    let '(final_signal, signal_strength) :=
      if Py.Qltb (sell_weight + 0.1) buy_weight then (Buy, buy_weight)
      else if Py.Qltb (buy_weight + 0.1) sell_weight then (Sell, sell_weight)
      else (Neutral, Qmax buy_weight sell_weight) in
    let strength := Qmin (signal_strength * 100) 100 in
    let s := AnalysisEngine._create_summary results in
    Summary.signal s = final_signal /\
    Summary.strength s = strength /\
    Summary.buy_weight s = buy_weight * 100 /\
    Summary.sell_weight s = sell_weight * 100 /\
    Summary.confidence s
    = (if Py.Qltb 70 strength then High
       else if Py.Qltb 40 strength then Medium else Low) /\
    Summary.success_probability s
    = AnalysisEngine._calculate_success_probability results final_signal
        strength.
Proof.
  unfold AnalysisEngine._create_summary.
  set (weights := AnalysisEngine.normalized_weights _).
  set (news_impact := match AnalysisEngine.news results with
                      | Some (Some impact) => impact
                      | _ => 0.0
                      end).
  destruct (accumulate_weights_spec weights (AnalysisEngine.timeframes results))
    as (Hb & Hs & Hnb & Hns);
    [intros tf; apply normalized_weights_nonneg|].
  destruct (AnalysisEngine.accumulate_weights weights
              (AnalysisEngine.timeframes results)) as [b0 s0].
  cbn [fst snd] in Hb, Hs, Hnb, Hns.
  pose proof (add_news_impact_spec b0 s0 news_impact) as Hnews.
  cbv zeta in Hnews.
  destruct (AnalysisEngine.add_news_impact (b0, s0) news_impact) as [b s].
  cbn [fst snd] in Hnews. destruct Hnews as (H1 & H2 & H3 & H4).
  exists b, s.
  split; [lra|]. split; [lra|].
  split; [intros Hno; specialize (Hnb Hno); lra|].
  split; [intros Hno; specialize (Hns Hno); lra|].
  destruct (Py.Qltb (s + 0.1) b);
    [|destruct (Py.Qltb (b + 0.1) s)];
    destruct (AnalysisEngine._find_nearest_levels results);
    cbn; repeat split.
Qed.


(** X19.  Sentiment alone never sets the direction: when no timeframe's
    verdict is buy the overall signal is not buy, and when none is sell it
    is not sell, whatever the news impact.  The sentiment term is at most
    0.1, which is the margin a side must lead by. *)
Theorem direction_needs_a_timeframe_vote
    (results : AnalysisEngine.Results) (direction : Signal) :
  direction <> Neutral ->
  AnalysisEngine.no_vote direction (AnalysisEngine.timeframes results) ->
  Summary.signal (AnalysisEngine._create_summary results) <> direction.
Proof.
  intros Hdir Hno.
  destruct (create_summary_fields results)
    as (b & s & Hb & Hs & Hnb & Hns & H).
  destruct (Py.Qltb (s + 0.1) b) eqn:E1;
    [|destruct (Py.Qltb (b + 0.1) s) eqn:E2];
    cbv zeta in H; destruct H as (-> & _);
    try apply Qltb_lt in E1; try apply Qltb_lt in E2;
    destruct direction; try congruence; try discriminate.
  - specialize (Hnb Hno). lra.
  - specialize (Hns Hno). lra.
Qed.

(** One neutral H1 timeframe and a news impact of 50: the buy weight is
    0.1, not more than 0.1 above the sell weight, and the overall signal is
    neutral. *)
Lemma direction_needs_a_timeframe_vote_witness :
  let results :=
    AnalysisEngine.mkResults "EURUSD"
      [("H1"%string,
        AnalysisEngine.mkTimeframeData 100 None
          (Some (TimeframeSummary.mk Neutral Low 20 1 1 [] [] [])))]
      (Some (Some 50)) (fun _ => Some 1.1000) in
  Buy <> Neutral /\
  AnalysisEngine.no_vote Buy (AnalysisEngine.timeframes results) /\
  Summary.signal (AnalysisEngine._create_summary results) <> Buy /\
  Summary.buy_weight (AnalysisEngine._create_summary results) == 10.
Proof.
  intros results.
  assert (H1 : Buy <> Neutral) by discriminate.
  assert (H2 : AnalysisEngine.no_vote Buy (AnalysisEngine.timeframes results)).
  { intros tf tf_data s [[= <- <-]|[]] [= <-]. discriminate. }
  split; [exact H1 | split; [exact H2 | split]].
  - exact (direction_needs_a_timeframe_vote results Buy H1 H2).
  - vm_compute. reflexivity.
Defined.

(** ** Sorting by strength and keeping the strongest *)

Section SortedDesc.

Context {A : Type} (key : A -> Q).

Lemma insert_desc_Forall (P : A -> Prop) x xs :
  P x -> Forall P xs -> Forall P (Py.insert_desc key x xs).
Proof.
  intros Hx H. induction H as [|y ys Hy Hys IH]; cbn.
  - auto.
  - destruct (Qle_bool (key y) (key x)); auto.
Qed.

Lemma sorted_desc_Forall (P : A -> Prop) xs :
  Forall P xs -> Forall P (Py.sorted_desc key xs).
Proof. induction 1; cbn; auto using insert_desc_Forall. Qed.

Lemma insert_desc_length x xs :
  List.length (Py.insert_desc key x xs) = S (List.length xs).
Proof.
  induction xs as [|y ys IH]; cbn; auto.
  destruct (Qle_bool (key y) (key x)); cbn; auto.
Qed.

Lemma sorted_desc_length xs :
  List.length (Py.sorted_desc key xs) = List.length xs.
Proof.
  induction xs as [|x xs IH]; cbn; auto.
  now rewrite insert_desc_length, IH.
Qed.

Lemma insert_desc_HdRel a x xs :
  key x <= key a -> HdRel (Py.descending key) a xs ->
  HdRel (Py.descending key) a (Py.insert_desc key x xs).
Proof.
  intros Hax H. destruct xs as [|y ys]; cbn.
  - constructor. exact Hax.
  - apply HdRel_inv in H.
    destruct (Qle_bool (key y) (key x)); constructor; assumption.
Qed.

Lemma insert_desc_Sorted x xs :
  Sorted (Py.descending key) xs -> Sorted (Py.descending key) (Py.insert_desc key x xs).
Proof.
  induction 1 as [|y ys Hys IH Hy]; cbn.
  - auto.
  - destruct (Qle_bool (key y) (key x)) eqn:E.
    + apply Qle_bool_iff in E. constructor; [constructor; auto|].
      constructor. exact E.
    + apply Qle_bool_false in E. constructor; auto.
      apply insert_desc_HdRel; auto. apply Qlt_le_weak, E.
Qed.

Lemma sorted_desc_Sorted xs : Sorted (Py.descending key) (Py.sorted_desc key xs).
Proof. induction xs; cbn; auto using insert_desc_Sorted. Qed.

Lemma take_Sorted n : forall xs,
  Sorted (Py.descending key) xs -> Sorted (Py.descending key) (Py.take n xs).
Proof.
  unfold Py.take.
  induction n as [|n IH]; intros xs H; cbn; [constructor|].
  destruct xs as [|x xs]; [constructor|].
  apply Sorted_inv in H as [H Hhd]. constructor; [now apply IH|].
  destruct xs as [|y ys]; destruct n; cbn; constructor.
  now apply HdRel_inv in Hhd.
Qed.

End SortedDesc.

Lemma take_Forall {A : Type} (P : A -> Prop) n xs :
  Forall P xs -> Forall P (Py.take n xs).
Proof.
  intros H. unfold Py.take. rewrite <- (firstn_skipn n xs) in H.
  now apply Forall_app in H.
Qed.

Lemma take_length {A : Type} n (xs : list A) :
  (List.length (Py.take n xs) <= n)%nat.
Proof. apply firstn_le_length. Qed.

Lemma first_index_spec test a b j :
  ICTStrategy.first_index test a b = Some j ->
  test j = true /\ (a <= j < b)%nat.
Proof.
  unfold ICTStrategy.first_index, range. intros H.
  apply find_some in H as [Hin Ht]. apply in_seq in Hin. split; [exact Ht | lia].
Qed.

Lemma in_range x a b : In x (range a b) -> (a <= x < b)%nat.
Proof. unfold range. intros H. apply in_seq in H. lia. Qed.

(** ** The liquidity/order-block detector: its structures *)

Section IctStructures.

Variable df : DataFrame.

(** A zone cut from a falling bar: the bar's open on top, its close at
    the bottom. *)
Let red_block (z : Zone) : Prop :=
  close (iloc df (zone_index z)) < open (iloc df (zone_index z)) /\
  top z = open (iloc df (zone_index z)) /\
  bottom z = close (iloc df (zone_index z)) /\
  (zone_index z < List.length df)%nat.

(** A zone cut from a rising bar: the bar's close on top, its open at the
    bottom. *)
Let green_block (z : Zone) : Prop :=
  open (iloc df (zone_index z)) < close (iloc df (zone_index z)) /\
  top z = close (iloc df (zone_index z)) /\
  bottom z = open (iloc df (zone_index z)) /\
  (zone_index z < List.length df)%nat.

Ltac strongest :=
  repeat first [ apply take_Forall | apply sorted_desc_Forall ];
  apply Forall_flat_map, Forall_forall.

Lemma order_blocks_shape :
  Forall green_block (bullish (ICTStrategy._find_order_blocks df)) /\
  Forall red_block (bearish (ICTStrategy._find_order_blocks df)).
Proof.
  unfold ICTStrategy._find_order_blocks.
  destruct (List.length df <? 20)%nat; cbn [bullish bearish];
    [split; constructor|].
  split; strongest; intros i Hi; apply in_range in Hi; cbv zeta.
  - destruct (_ && _); [constructor|].
    destruct (_ && _); [|constructor].
    destruct (ICTStrategy.first_index _ _ _) as [j|] eqn:E; [|constructor].
    apply first_index_spec in E as [Ht Hj].
    apply andb_prop in Ht as [Hg _]. apply Qltb_lt in Hg.
    constructor; [|constructor].
    unfold green_block. cbn [top bottom zone_index].
    repeat split; auto. lia.
  - destruct (_ && _); [|constructor].
    destruct (ICTStrategy.first_index _ _ _) as [j|] eqn:E; [|constructor].
    apply first_index_spec in E as [Ht Hj].
    apply andb_prop in Ht as [Hr _]. apply Qltb_lt in Hr.
    constructor; [|constructor].
    unfold red_block. cbn [top bottom zone_index].
    repeat split; auto. lia.
Qed.

Lemma breaker_blocks_shape :
  Forall green_block (bullish (ICTStrategy._find_breaker_blocks df)) /\
  Forall red_block (bearish (ICTStrategy._find_breaker_blocks df)).
Proof.
  unfold ICTStrategy._find_breaker_blocks.
  destruct (Nat.ltb_spec (List.length df) 50) as [Hlen|Hlen];
    cbn [bullish bearish]; [split; constructor|].
  split; strongest; intros [[i0 prev] [start_idx cur]] _.
  - destruct (Py.Qltb cur prev); [|constructor]. cbv zeta.
    destruct (ICTStrategy.first_index _ _ _) as [j|] eqn:E; [|constructor].
    apply first_index_spec in E as [Ht Hj]. apply Qltb_lt in Ht.
    constructor; [|constructor].
    unfold green_block. cbn [top bottom zone_index].
    repeat split; auto. lia.
  - destruct (Py.Qltb prev cur); [|constructor]. cbv zeta.
    destruct (ICTStrategy.first_index _ _ _) as [j|] eqn:E; [|constructor].
    apply first_index_spec in E as [Ht Hj]. apply Qltb_lt in Ht.
    constructor; [|constructor].
    unfold red_block. cbn [top bottom zone_index].
    repeat split; auto. lia.
Qed.

Lemma fair_value_gaps_shape :
  Forall (fun z =>
            bottom z = high (iloc df (zone_index z - 1)) /\
            top z = low (iloc df (zone_index z + 1)) /\
            bottom z < top z /\
            (1 <= zone_index z < List.length df - 1)%nat)
         (bullish (ICTStrategy._find_fair_value_gaps df)) /\
  Forall (fun z =>
            bottom z = high (iloc df (zone_index z + 1)) /\
            top z = low (iloc df (zone_index z - 1)) /\
            bottom z < top z /\
            (1 <= zone_index z < List.length df - 1)%nat)
         (bearish (ICTStrategy._find_fair_value_gaps df)).
Proof.
  unfold ICTStrategy._find_fair_value_gaps.
  destruct (List.length df <? 10)%nat; cbn [bullish bearish];
    [split; constructor|].
  split; strongest; intros i Hi; apply in_range in Hi; cbv zeta.
  - match goal with
    | |- context [Py.Qltb ?a ?b && _] => destruct (Py.Qltb a b) eqn:E
    end; cbn [andb]; [|constructor].
    match goal with
    | |- context [if Py.Qltb ?a ?b then _ else _] => destruct (Py.Qltb a b)
    end; [|constructor].
    apply Qltb_lt in E. constructor; [|constructor].
    cbn [top bottom zone_index]. repeat split; auto; lia.
  - match goal with
    | |- context [Py.Qltb ?a ?b && _] => destruct (Py.Qltb a b) eqn:E
    end; cbn [andb]; [|constructor].
    match goal with
    | |- context [if Py.Qltb ?a ?b then _ else _] => destruct (Py.Qltb a b)
    end; [|constructor].
    apply Qltb_lt in E. constructor; [|constructor].
    cbn [top bottom zone_index]. repeat split; auto; lia.
Qed.

End IctStructures.

(** X20.  Every zone the liquidity/order-block detector reports is a
    proper price range inside the series: its bottom is strictly below its
    top and its bar index is a bar of the frame.  A bullish order or breaker
    block spans the open (bottom) to the close (top) of a rising bar, a
    bearish one the close to the open of a falling bar; a bullish fair-value
    gap spans the high of the bar before its middle bar to the low of the
    bar after it, a bearish one the reverse.  At most three order blocks and
    three fair-value gaps are kept per side. *)
Theorem ict_zones_are_proper_ranges (df : DataFrame) :
  let order_blocks := ICTStrategy._find_order_blocks df in
  let breaker_blocks := ICTStrategy._find_breaker_blocks df in
  let gaps := ICTStrategy._find_fair_value_gaps df in
  Forall (fun z => bottom z < top z /\ (zone_index z < List.length df)%nat)
         (bullish order_blocks ++ bearish order_blocks
          ++ bullish breaker_blocks ++ bearish breaker_blocks
          ++ bullish gaps ++ bearish gaps) /\
  Forall (fun z => bottom z = open (iloc df (zone_index z)) /\
                   top z = close (iloc df (zone_index z)))
         (bullish order_blocks ++ bullish breaker_blocks) /\
  Forall (fun z => bottom z = close (iloc df (zone_index z)) /\
                   top z = open (iloc df (zone_index z)))
         (bearish order_blocks ++ bearish breaker_blocks) /\
  Forall (fun z => bottom z = high (iloc df (zone_index z - 1)) /\
                   top z = low (iloc df (zone_index z + 1)))
         (bullish gaps) /\
  Forall (fun z => bottom z = high (iloc df (zone_index z + 1)) /\
                   top z = low (iloc df (zone_index z - 1)))
         (bearish gaps) /\
  (List.length (bullish order_blocks) <= 3)%nat /\
  (List.length (bearish order_blocks) <= 3)%nat /\
  (List.length (bullish gaps) <= 3)%nat /\
  (List.length (bearish gaps) <= 3)%nat.
Proof.
  cbv zeta.
  destruct (order_blocks_shape df) as [Hob1 Hob2].
  destruct (breaker_blocks_shape df) as [Hbb1 Hbb2].
  destruct (fair_value_gaps_shape df) as [Hg1 Hg2].
  assert (Hgreen : forall zs,
            Forall (fun z =>
                      open (iloc df (zone_index z)) < close (iloc df (zone_index z)) /\
                      top z = close (iloc df (zone_index z)) /\
                      bottom z = open (iloc df (zone_index z)) /\
                      (zone_index z < List.length df)%nat) zs ->
            Forall (fun z => bottom z < top z /\
                             (zone_index z < List.length df)%nat) zs /\
            Forall (fun z => bottom z = open (iloc df (zone_index z)) /\
                             top z = close (iloc df (zone_index z))) zs).
  { intros zs H. split; eapply Forall_impl; try exact H;
      intros z (H1 & H2 & H3 & H4); rewrite ?H2, ?H3; auto. }
  assert (Hred : forall zs,
            Forall (fun z =>
                      close (iloc df (zone_index z)) < open (iloc df (zone_index z)) /\
                      top z = open (iloc df (zone_index z)) /\
                      bottom z = close (iloc df (zone_index z)) /\
                      (zone_index z < List.length df)%nat) zs ->
            Forall (fun z => bottom z < top z /\
                             (zone_index z < List.length df)%nat) zs /\
            Forall (fun z => bottom z = close (iloc df (zone_index z)) /\
                             top z = open (iloc df (zone_index z))) zs).
  { intros zs H. split; eapply Forall_impl; try exact H;
      intros z (H1 & H2 & H3 & H4); rewrite ?H2, ?H3; auto. }
  apply Hgreen in Hob1 as [Hob1 Hob1'], Hbb1 as [Hbb1 Hbb1'].
  apply Hred in Hob2 as [Hob2 Hob2'], Hbb2 as [Hbb2 Hbb2'].
  split; [|split; [|split; [|split; [|split]]]].
  - repeat (apply Forall_app; split); auto;
      eapply Forall_impl; try eassumption;
      intros z (H1 & H2 & H3 & H4); split; auto; lia.
  - apply Forall_app; auto.
  - apply Forall_app; auto.
  - eapply Forall_impl; [|exact Hg1]. intros z (H1 & H2 & _); auto.
  - eapply Forall_impl; [|exact Hg2]. intros z (H1 & H2 & _); auto.
  - unfold ICTStrategy._find_order_blocks, ICTStrategy._find_fair_value_gaps.
    destruct (List.length df <? 20)%nat, (List.length df <? 10)%nat;
      cbn [bullish bearish List.length];
      repeat split; try lia; apply take_length.
Qed.

(** On the ten-bar series with a jump between bars 0 and 2 the detector
    reports one bullish fair-value gap, from 100.1 (the high of bar 0) to
    100.4 (the low of bar 2). *)
Example gap_series_fair_value_gap :
  map (fun z => (zone_index z, Qred (bottom z), Qred (top z)))
      (bullish (ICTStrategy._find_fair_value_gaps Examples.gap_series))
  = [(1%nat, Qred 100.1, Qred 100.4)].
Proof. vm_compute. reflexivity. Qed.

Lemma inject_nat_nonneg n : 0 <= inject_Z (Z.of_nat n).
Proof.
  change 0 with (inject_Z 0). rewrite <- Zle_Qle. lia.
Qed.

Lemma equal_bars_length field df i :
  (List.length (ICTStrategy.equal_bars field df i) <= 50)%nat.
Proof.
  unfold ICTStrategy.equal_bars. cbv zeta.
  eapply Nat.le_trans; [apply filter_length_le|].
  unfold range. rewrite length_seq. lia.
Qed.

Lemma liquidity_side_shape df test field kind :
  Forall (fun l =>
            ICTStrategy.type l = kind /\
            test df (ICTStrategy.index l) = true /\
            ICTStrategy.price l = field (iloc df (ICTStrategy.index l)) /\
            (5 <= ICTStrategy.index l < List.length df - 5)%nat /\
            (ICTStrategy.equal_points l <= 50)%nat /\
            ICTStrategy.strength l
            = 1 + inject_Z (Z.of_nat (ICTStrategy.equal_points l)) * 0.2 /\
            1 <= ICTStrategy.strength l)
         (flat_map (fun i => if test df i
                             then [ICTStrategy.liquidity_level field kind df i]
                             else [])
                   (range 5 (List.length df - 5))).
Proof.
  apply Forall_flat_map, Forall_forall.
  intros i Hi. apply in_range in Hi.
  destruct (test df i) eqn:Et; constructor; [|constructor].
  unfold ICTStrategy.liquidity_level. cbv zeta.
  cbn [ICTStrategy.type ICTStrategy.index ICTStrategy.price
       ICTStrategy.equal_points ICTStrategy.strength].
  repeat split; auto; try lia.
  - apply equal_bars_length.
  - pose proof (inject_nat_nonneg
                  (List.length (ICTStrategy.equal_bars field df i))).
    lra.
Qed.

Lemma liquidity_strengths df :
  Forall (fun l => 1 <= ICTStrategy.strength l)
         (ICTStrategy.buy_side (ICTStrategy._find_liquidity_levels df)
          ++ ICTStrategy.sell_side (ICTStrategy._find_liquidity_levels df)).
Proof.
  unfold ICTStrategy._find_liquidity_levels.
  destruct (List.length df <? 30)%nat;
    cbn [ICTStrategy.buy_side ICTStrategy.sell_side]; [constructor|].
  apply Forall_app; split; apply take_Forall, sorted_desc_Forall;
    (eapply Forall_impl; [|apply liquidity_side_shape]);
    intros l H; apply H.
Qed.

(** X21.  [_find_liquidity_levels] reports swing points only.  Every
    buy-side level is the low of a bar that is a swing low (strictly below
    the two bars on either side), every sell-side level the high of a swing
    high, at a bar index between 5 and [len - 6]; its strength is
    [1 + 0.2 * equal_points] with at most 50 equal points counted, so at
    least 1.  Each side holds at most five levels, the strongest first. *)
Theorem liquidity_levels_are_ranked_swings (df : DataFrame) :
  let levels := ICTStrategy._find_liquidity_levels df in
  let ranked (test : DataFrame -> nat -> bool) (field : Bar -> Q)
             (kind : ICTStrategy.LevelType) (side : list ICTStrategy.Level) :=
    Forall (fun l =>
              ICTStrategy.type l = kind /\
              test df (ICTStrategy.index l) = true /\
              ICTStrategy.price l = field (iloc df (ICTStrategy.index l)) /\
              (5 <= ICTStrategy.index l < List.length df - 5)%nat /\
              (ICTStrategy.equal_points l <= 50)%nat /\
              ICTStrategy.strength l
              = 1 + inject_Z (Z.of_nat (ICTStrategy.equal_points l)) * 0.2 /\
              1 <= ICTStrategy.strength l)
           side /\
    (List.length side <= 5)%nat /\
    Sorted (Py.descending ICTStrategy.strength) side in
  ranked ICTStrategy.is_swing_low low ICTStrategy.swing_low
         (ICTStrategy.buy_side levels) /\
  ranked ICTStrategy.is_swing_high high ICTStrategy.swing_high
         (ICTStrategy.sell_side levels).
Proof.
  cbv zeta. unfold ICTStrategy._find_liquidity_levels.
  destruct (List.length df <? 30)%nat;
    cbn [ICTStrategy.buy_side ICTStrategy.sell_side].
  - repeat split; try constructor; cbn; lia.
  - pose proof (liquidity_side_shape df) as G.
    split; (split; [apply take_Forall, sorted_desc_Forall, G|]);
      (split; [apply take_length | apply take_Sorted, sorted_desc_Sorted]).
Qed.

(** On the thirty-bar series the detector finds the swing low of 99.0 at
    bar 10 and the swing high of 101.0 at bar 20, each with strength 1. *)
Example swing_series_liquidity :
  let levels := ICTStrategy._find_liquidity_levels Examples.swing_series in
  map (fun l => (ICTStrategy.index l, Qred (ICTStrategy.price l),
                 Qred (ICTStrategy.strength l)))
      (ICTStrategy.buy_side levels)
  = [(10%nat, 99, 1)] /\
  map (fun l => (ICTStrategy.index l, Qred (ICTStrategy.price l),
                 Qred (ICTStrategy.strength l)))
      (ICTStrategy.sell_side levels)
  = [(20%nat, 101, 1)].
Proof. vm_compute. split; reflexivity. Qed.

(** ** The liquidity/order-block detector: support and resistance *)

Lemma ohlc_ok_spec bar :
  ohlc_ok bar = true ->
  0 < low bar /\ low bar <= open bar /\ low bar <= close bar /\
  open bar <= high bar /\ close bar <= high bar.
Proof.
  unfold ohlc_ok. rewrite !andb_true_iff, Qltb_lt, !Qle_bool_iff. tauto.
Qed.

Lemma well_formed_iloc df i :
  well_formed df = true -> (i < List.length df)%nat -> ohlc_ok (iloc df i) = true.
Proof.
  unfold well_formed, iloc. intros H Hi.
  rewrite forallb_forall in H. apply H, nth_In, Hi.
Qed.

(** A property of prices that holds of the midpoint of two prices that
    have it holds of every merged level. *)
Lemma merge_from_Forall threshold (P : Q -> Prop) :
  (forall a b, P a -> P b -> P ((a + b) / 2)) ->
  forall rest m out,
    P m -> Forall P rest -> Utils.merge_from threshold m rest = Some out ->
    Forall P out.
Proof.
  intros Hmid. induction rest as [|l rest IH]; intros m out Hm Hrest H;
    cbn [Utils.merge_from] in H.
  - injection H as <-. auto.
  - pose proof (Forall_inv Hrest) as Hl. apply Forall_inv_tail in Hrest.
    destruct (Qeq_bool m 0); [discriminate|].
    destruct (Qle_bool (Qabs (l - m) / m) threshold).
    + eapply IH; [| exact Hrest | exact H]. now apply Hmid.
    + destruct (Utils.merge_from threshold l rest) as [out'|] eqn:E;
        [|discriminate].
      injection H as <-. constructor; auto. eapply IH; eauto.
Qed.

Lemma merge_close_levels_Forall threshold (P : Q -> Prop) levels merged :
  (forall a b, P a -> P b -> P ((a + b) / 2)) ->
  Forall P levels ->
  Utils.merge_close_levels levels threshold = Some merged ->
  Forall P merged.
Proof.
  intros Hmid Hall H. destruct levels as [|x xs].
  - injection H as <-. constructor.
  - rewrite merge_close_levels_from in H.
    pose proof (sorted_Forall P _ Hall) as Hs.
    destruct (Py.sorted (x :: xs)) as [|first rest].
    + injection H as <-. constructor.
    + eapply merge_from_Forall; [exact Hmid | | | exact H].
      * exact (Forall_inv Hs).
      * exact (Forall_inv_tail Hs).
Qed.

Lemma merge_levels_keep (P : Q -> Prop) levels :
  (forall a b, P a -> P b -> P ((a + b) / 2)) ->
  Forall (fun x => 0 < x /\ P x) levels ->
  exists merged,
    ICTStrategy._merge_levels levels = Some merged /\
    Forall P merged /\
    Sorted Qle merged /\
    Sorted (Utils.separated 0.0005) merged.
Proof.
  intros Hmid H.
  destruct (merge_close_levels_properties levels 0.0005)
    as (merged & Hm & Hs & Hsep & _).
  { eapply Forall_impl; [|exact H]. intros x Hx. apply Hx. }
  exists merged. repeat split; auto.
  eapply (merge_close_levels_Forall 0.0005 P); [exact Hmid | | exact Hm].
  eapply Forall_impl; [|exact H]. intros x Hx. apply Hx.
Qed.

Lemma liquidity_prices_positive df :
  well_formed df = true ->
  Forall (fun l => 0 < ICTStrategy.price l)
         (ICTStrategy.buy_side (ICTStrategy._find_liquidity_levels df)
          ++ ICTStrategy.sell_side (ICTStrategy._find_liquidity_levels df)).
Proof.
  intros Hwf. unfold ICTStrategy._find_liquidity_levels.
  destruct (List.length df <? 30)%nat;
    cbn [ICTStrategy.buy_side ICTStrategy.sell_side]; [constructor|].
  apply Forall_app; split;
    apply take_Forall, sorted_desc_Forall, Forall_flat_map, Forall_forall;
    intros i Hi; apply in_range in Hi;
    match goal with
    | |- context [if ?c then _ else _] => destruct c
    end; constructor; try constructor;
    unfold ICTStrategy.liquidity_level; cbn [ICTStrategy.price];
    assert (Hb : ohlc_ok (iloc df i) = true)
      by (apply well_formed_iloc; [exact Hwf | lia]);
    apply ohlc_ok_spec in Hb; lra.
Qed.

Lemma order_block_prices_positive df :
  well_formed df = true ->
  Forall (fun z => 0 < bottom z /\ bottom z < top z)
         (bullish (ICTStrategy._find_order_blocks df)
          ++ bearish (ICTStrategy._find_order_blocks df)).
Proof.
  intros Hwf. destruct (order_blocks_shape df) as [Hg Hr].
  apply Forall_app; split; eapply Forall_impl; try eassumption;
    intros z (H1 & H2 & H3 & H4);
    pose proof (well_formed_iloc df _ Hwf H4) as Hb;
    apply ohlc_ok_spec in Hb; rewrite H2, H3; lra.
Qed.

(** X22.  On a series of well-formed bars (positive prices, low and high
    enclosing open and close) every support level the liquidity/order-block
    detector reports lies strictly below the last close and every
    resistance level strictly above it; each list is ascending and its
    neighbours are farther apart than 0.05% of the lower one. *)
Theorem ict_levels_lie_on_their_side (df : DataFrame) (a : ICTStrategy.Analysis) :
  well_formed df = true ->
  ICTStrategy.analyze df = Some a ->
  Forall (fun s => 0 < s /\ s < ICTStrategy.last_close df)
         (ICTStrategy.support_levels a) /\
  Forall (fun r => ICTStrategy.last_close df < r)
         (ICTStrategy.resistance_levels a) /\
  Sorted Qle (ICTStrategy.support_levels a) /\
  Sorted (Utils.separated 0.0005) (ICTStrategy.support_levels a) /\
  Sorted Qle (ICTStrategy.resistance_levels a) /\
  Sorted (Utils.separated 0.0005) (ICTStrategy.resistance_levels a).
Proof.
  intros Hwf Ha.
  pose proof (liquidity_prices_positive df Hwf) as Hliq.
  pose proof (order_block_prices_positive df Hwf) as Hob.
  apply Forall_app in Hliq as [Hbuy Hsell].
  apply Forall_app in Hob as [Hbull Hbear].
  assert (Hlast : 0 < ICTStrategy.last_close df).
  { destruct df as [|b rest]; [discriminate|].
    unfold ICTStrategy.last_close, iloc_back.
    assert (Hb : ohlc_ok (iloc (b :: rest) (List.length (b :: rest) - 1)) = true)
      by (apply well_formed_iloc; [exact Hwf | cbn; lia]).
    apply ohlc_ok_spec in Hb. lra. }
  unfold ICTStrategy.analyze in Ha.
  destruct df as [|b rest] eqn:Edf; [discriminate|]. rewrite <- Edf in *.
  clear Edf b rest.
  destruct (ICTStrategy._find_support_resistance df _ _)
    as [support resistance] eqn:Esr.
  destruct (ICTStrategy._generate_signal df _ _ _ _) as [signal strength].
  injection Ha as <-.
  cbn [ICTStrategy.support_levels ICTStrategy.resistance_levels].
  unfold ICTStrategy._find_support_resistance in Esr. cbv zeta in Esr.
  match type of Esr with
  | match ICTStrategy._merge_levels ?s with _ => _ end = _ =>
      destruct (merge_levels_keep
                  (fun x => 0 < x /\ x < ICTStrategy.last_close df) s)
        as (support' & Es & Hs1 & Hs2 & Hs3)
  end.
  { intros x y [Hx1 Hx2] [Hy1 Hy2]. split.
    - apply Qlt_shift_div_l; lra.
    - apply Qlt_shift_div_r; lra. }
  { apply Forall_app; split.
    - apply Forall_forall. intros x Hx. apply in_map_iff in Hx as (l & <- & Hl).
      apply filter_In in Hl as [Hl Hlt]. apply Qltb_lt in Hlt.
      rewrite Forall_forall in Hbuy. pose proof (Hbuy l Hl). lra.
    - apply Forall_flat_map, Forall_forall. intros z Hz.
      rewrite Forall_forall in Hbull. pose proof (Hbull z Hz) as [Hz1 Hz2].
      destruct (Py.Qltb (top z) (ICTStrategy.last_close df)) eqn:E;
        [|constructor].
      apply Qltb_lt in E. repeat constructor; lra. }
  rewrite Es in Esr.
  match type of Esr with
  | match ICTStrategy._merge_levels ?r with _ => _ end = _ =>
      destruct (merge_levels_keep (fun x => ICTStrategy.last_close df < x) r)
        as (resistance' & Er & Hr1 & Hr2 & Hr3)
  end.
  { intros x y Hx Hy. apply Qlt_shift_div_l; lra. }
  { apply Forall_app; split.
    - apply Forall_forall. intros x Hx.
      apply in_map_iff in Hx as (l & <- & Hl).
      apply filter_In in Hl as [Hl Hlt]. apply Qltb_lt in Hlt. lra.
    - apply Forall_flat_map, Forall_forall. intros z Hz.
      rewrite Forall_forall in Hbear. pose proof (Hbear z Hz) as [Hz1 Hz2].
      destruct (Py.Qltb (ICTStrategy.last_close df) (bottom z)) eqn:E;
        [|constructor].
      apply Qltb_lt in E. repeat constructor; lra. }
  rewrite Er in Esr. injection Esr as <- <-.
  repeat split; auto.
Qed.

Lemma ict_levels_lie_on_their_side_witness :
  match ICTStrategy.analyze Examples.swing_series with
  | Some a =>
      well_formed Examples.swing_series = true /\
      Forall (fun s => 0 < s /\ s < ICTStrategy.last_close Examples.swing_series)
             (ICTStrategy.support_levels a) /\
      Forall (fun r => ICTStrategy.last_close Examples.swing_series < r)
             (ICTStrategy.resistance_levels a) /\
      Sorted Qle (ICTStrategy.support_levels a) /\
      Sorted (Utils.separated 0.0005) (ICTStrategy.support_levels a) /\
      Sorted Qle (ICTStrategy.resistance_levels a) /\
      Sorted (Utils.separated 0.0005) (ICTStrategy.resistance_levels a)
  | None => False
  end.
Proof.
  destruct (ICTStrategy.analyze Examples.swing_series) as [a|] eqn:E.
  - split; [vm_compute; reflexivity|].
    apply (ict_levels_lie_on_their_side Examples.swing_series a);
      [vm_compute; reflexivity | exact E].
  - vm_compute in E. discriminate.
Defined.

(** On the thirty-bar series, which closes at 100.0, the swing low of 99.0
    is the support and the swing high of 101.0 the resistance. *)
Example swing_series_support_resistance :
  option_map (fun a => (map Qred (ICTStrategy.support_levels a),
                        map Qred (ICTStrategy.resistance_levels a)))
             (ICTStrategy.analyze Examples.swing_series)
  = Some ([99], [101]).
Proof. vm_compute. reflexivity. Qed.

(** ** The liquidity/order-block detector: strengths *)

(** A side that wins the point system leads by more than the margin, so
    its strength exceeds ten times the margin; a neutral outcome carries
    the neutral strength. *)
Lemma decide_directional margin buy_score sell_score neutral_strength :
  0 <= margin < 10 -> 0 <= buy_score -> 0 <= sell_score ->
  match fst (ICTStrategy.decide margin buy_score sell_score neutral_strength) with
  | Neutral =>
      snd (ICTStrategy.decide margin buy_score sell_score neutral_strength)
      = neutral_strength
  | _ =>
      10 * margin
      < snd (ICTStrategy.decide margin buy_score sell_score neutral_strength)
      <= 100
  end.
Proof.
  intros Hm Hb Hs. unfold ICTStrategy.decide.
  destruct (Py.Qltb (sell_score + margin) buy_score) eqn:E1; cbn [fst snd].
  - apply Qltb_lt in E1. split; [|apply Q.le_min_l].
    apply Q.min_glb_lt; lra.
  - destruct (Py.Qltb (buy_score + margin) sell_score) eqn:E2; cbn [fst snd].
    + apply Qltb_lt in E2. split; [|apply Q.le_min_l].
      apply Q.min_glb_lt; lra.
    + reflexivity.
Qed.

Lemma ict_generate_signal_spec df liquidity order_blocks gaps patterns :
  (forall l, In l (ICTStrategy.buy_side liquidity ++ ICTStrategy.sell_side liquidity) ->
             0 <= ICTStrategy.strength l) ->
  (forall z, In z (bullish order_blocks ++ bearish order_blocks
                   ++ bullish gaps ++ bearish gaps) ->
             0 <= zone_strength z) ->
  match fst (ICTStrategy._generate_signal df liquidity order_blocks gaps patterns) with
  | Neutral =>
      snd (ICTStrategy._generate_signal df liquidity order_blocks gaps patterns) = 0
  | _ =>
      20 < snd (ICTStrategy._generate_signal df liquidity order_blocks gaps patterns)
      <= 100
  end.
Proof.
  intros Hl Hz. unfold ICTStrategy._generate_signal.
  destruct (pattern_points_nonneg ["Bullish"%string] ["Bearish"%string] 2 patterns)
    as [Hp1 Hp2]; [lra|].
  destruct (ICTStrategy.pattern_points _ _ _ patterns) as [bp sp].
  cbn [fst snd] in Hp1, Hp2.
  assert (Hliq : forall d l, 0 <= ICTStrategy.strength l ->
                             0 <= ICTStrategy.liquidity_points d l).
  { intros d l H. unfold ICTStrategy.liquidity_points.
    destruct (_ && _); [lra|]. destruct (_ && _); lra. }
  assert (Hzone : forall z (c1 c2 : bool) k1 k2,
            In z (bullish order_blocks ++ bearish order_blocks
                  ++ bullish gaps ++ bearish gaps) ->
            0 <= k1 -> 0 <= k2 ->
            0 <= (if c1 then k1 * zone_strength z
                  else if c2 then k2 * zone_strength z else 0)).
  { intros z c1 c2 k1 k2 Hin Hk1 Hk2. pose proof (Hz z Hin).
    destruct c1; [|destruct c2]; try lra; apply Qmult_le_0_compat; lra. }
  repeat match goal with
  | |- context [ICTStrategy.points ?f ?xs] =>
      let p := fresh "p" in
      let Hp := fresh "Hp" in
      assert (Hp : 0 <= ICTStrategy.points f xs)
        by (apply points_nonneg; intros x Hx;
            first [ apply Hliq, Hl; rewrite in_app_iff; auto
                  | apply Hzone; [rewrite !in_app_iff; auto | lra | lra] ]);
      remember (ICTStrategy.points f xs) as p eqn:Ep; clear Ep
  end.
  match goal with
  | |- context [ICTStrategy.decide 2 ?b ?s 0] =>
      pose proof (decide_directional 2 b s 0) as Hd;
      destruct (ICTStrategy.decide 2 b s 0) as [sig str]
  end.
  cbn [fst snd] in *.
  assert (H20 : 10 * 2 == 20) by reflexivity.
  destruct sig; try (rewrite <- H20; apply Hd; lra); apply Hd; lra.
Qed.

Lemma ict_zone_strengths df :
  0 < mean_range df ->
  Forall (fun z => 2 < zone_strength z)
         (bullish (ICTStrategy._find_order_blocks df)
          ++ bearish (ICTStrategy._find_order_blocks df)) /\
  Forall (fun z => 0.3 < zone_strength z)
         (bullish (ICTStrategy._find_fair_value_gaps df)
          ++ bearish (ICTStrategy._find_fair_value_gaps df)).
Proof.
  intros Havg.
  assert (Hdiv : forall k x, k * mean_range df < x -> k < x / mean_range df).
  { intros k x H. apply Qlt_shift_div_l; auto. }
  split.
  - unfold ICTStrategy._find_order_blocks.
    destruct (List.length df <? 20)%nat; cbn [bullish bearish]; [constructor|].
    apply Forall_app; split;
      apply take_Forall, sorted_desc_Forall, Forall_flat_map, Forall_forall;
      intros i _; cbv zeta.
    + destruct (_ && _); [constructor|].
      match goal with
      | |- context [if ?c && Py.Qltb ?a ?b then _ else _] =>
          destruct c; cbn [andb]; [|constructor];
          destruct (Py.Qltb a b) eqn:E; [|constructor]
      end.
      destruct (ICTStrategy.first_index _ _ _); constructor; [|constructor].
      cbn [zone_strength]. apply Qltb_lt in E. now apply Hdiv.
    + match goal with
      | |- context [if ?c && Py.Qltb ?a ?b then _ else _] =>
          destruct c; cbn [andb]; [|constructor];
          destruct (Py.Qltb a b) eqn:E; [|constructor]
      end.
      destruct (ICTStrategy.first_index _ _ _); constructor; [|constructor].
      cbn [zone_strength]. apply Qltb_lt in E. now apply Hdiv.
  - unfold ICTStrategy._find_fair_value_gaps.
    destruct (List.length df <? 10)%nat; cbn [bullish bearish]; [constructor|].
    apply Forall_app; split;
      apply take_Forall, sorted_desc_Forall, Forall_flat_map, Forall_forall;
      intros i _; cbv zeta;
      match goal with
      | |- context [if ?c && Py.Qltb ?a ?b then _ else _] =>
          destruct c; cbn [andb]; [|constructor];
          destruct (Py.Qltb a b) eqn:E; [|constructor]
      end;
      constructor; try constructor;
      cbn [zone_strength]; apply Qltb_lt in E; now apply Hdiv.
Qed.

(** X23.  On a series of well-formed bars with a positive mean range,
    every order block the liquidity/order-block detector keeps has a
    strength above 2 (the move that made it was more than twice the mean
    range) and every fair-value gap a strength above 0.3.  The detector's
    verdict is never lukewarm: a buy or sell verdict has a strength above
    20 and at most 100, a neutral verdict has strength 0. *)
Theorem ict_directional_verdict_is_strong (df : DataFrame) (a : ICTStrategy.Analysis) :
  well_formed df = true ->
  0 < mean_range df ->
  ICTStrategy.analyze df = Some a ->
  Forall (fun z => 2 < zone_strength z)
         (bullish (ICTStrategy.order_blocks a)
          ++ bearish (ICTStrategy.order_blocks a)) /\
  Forall (fun z => 0.3 < zone_strength z)
         (bullish (ICTStrategy.fair_value_gaps a)
          ++ bearish (ICTStrategy.fair_value_gaps a)) /\
  match ICTStrategy.signal a with
  | Neutral => ICTStrategy.signal_strength a = 0
  | _ => 20 < ICTStrategy.signal_strength a <= 100
  end.
Proof.
  intros Hwf Havg Ha.
  destruct (ict_zone_strengths df Havg) as [Hob Hgap].
  unfold ICTStrategy.analyze in Ha.
  destruct df as [|b rest] eqn:Edf; [discriminate|]. rewrite <- Edf in *.
  clear Edf b rest.
  destruct (ICTStrategy._find_support_resistance df _ _) as [support resistance].
  pose proof (ict_generate_signal_spec df
                (ICTStrategy._find_liquidity_levels df)
                (ICTStrategy._find_order_blocks df)
                (ICTStrategy._find_fair_value_gaps df)
                (ICTStrategy._identify_ict_patterns df
                   (ICTStrategy._find_liquidity_levels df)
                   (ICTStrategy._find_order_blocks df)
                   (ICTStrategy._find_fair_value_gaps df))) as Hsig.
  destruct (ICTStrategy._generate_signal df _ _ _ _) as [signal strength].
  injection Ha as <-.
  cbn [ICTStrategy.order_blocks ICTStrategy.fair_value_gaps
       ICTStrategy.signal ICTStrategy.signal_strength fst snd] in *.
  repeat split; auto.
  apply Hsig.
  - intros l Hl. pose proof (liquidity_strengths df) as Hliq.
    rewrite Forall_forall in Hliq. apply Hliq in Hl. lra.
  - intros z Hz. rewrite Forall_forall in Hob, Hgap.
    rewrite app_assoc in Hz. apply in_app_iff in Hz as [Hz|Hz];
      [apply Hob in Hz | apply Hgap in Hz]; lra.
Qed.

Lemma ict_directional_verdict_is_strong_witness :
  match ICTStrategy.analyze Examples.gap_series with
  | Some a =>
      well_formed Examples.gap_series = true /\
      0 < mean_range Examples.gap_series /\
      Forall (fun z => 2 < zone_strength z)
             (bullish (ICTStrategy.order_blocks a)
              ++ bearish (ICTStrategy.order_blocks a)) /\
      Forall (fun z => 0.3 < zone_strength z)
             (bullish (ICTStrategy.fair_value_gaps a)
              ++ bearish (ICTStrategy.fair_value_gaps a)) /\
      match ICTStrategy.signal a with
      | Neutral => ICTStrategy.signal_strength a = 0
      | _ => 20 < ICTStrategy.signal_strength a <= 100
      end
  | None => False
  end.
Proof.
  destruct (ICTStrategy.analyze Examples.gap_series) as [a|] eqn:E.
  - split; [vm_compute; reflexivity|]. split; [vm_compute; reflexivity|].
    apply (ict_directional_verdict_is_strong Examples.gap_series a);
      [vm_compute; reflexivity | vm_compute; reflexivity | exact E].
  - vm_compute in E. discriminate.
Defined.

(** ** Settings: dotted keys *)

Lemma split_not_nil sep s : Py.split sep s <> [].
Proof.
  induction s as [|c s IH]; cbn; [discriminate|].
  destruct (Ascii.eqb c sep); [discriminate|].
  destruct (Py.split sep s); discriminate.
Qed.

Lemma lookup_set_same {A : Type} k (v : A) d :
  Dict.lookup k (Dict.set k v d) = Some v.
Proof.
  induction d as [|[k' x] d IH]; cbn.
  - now rewrite String.eqb_refl.
  - destruct (String.eqb k k') eqn:E; cbn; rewrite E; auto.
Qed.

Lemma lookup_set_other {A : Type} k k' (v : A) d :
  k' <> k -> Dict.lookup k' (Dict.set k v d) = Dict.lookup k' d.
Proof.
  intros H. induction d as [|[k0 x] d IH]; cbn.
  - apply String.eqb_neq in H. now rewrite H.
  - destruct (String.eqb k k0) eqn:E; cbn.
    + apply String.eqb_eq in E. subst k0.
      apply String.eqb_neq in H. now rewrite H.
    + destruct (String.eqb k' k0); auto.
Qed.

(** The walk of [set_setting] along a key of at least two words. *)
Lemma set_path_cons k keys value target :
  keys <> [] ->
  SettingsManager.set_path (removelast (k :: keys)) (last (k :: keys) EmptyString)
                           value target
  = match target with
    | SettingsManager.Object fields =>
        match SettingsManager.set_path
                (removelast keys) (last keys EmptyString) value
                (Py.get (Dict.lookup k fields) (SettingsManager.Object [])) with
        | Some child' =>
            Some (SettingsManager.Object (Dict.set k child' fields))
        | None => None
        end
    | _ => None
    end.
Proof.
  intros H. destruct keys as [|k2 keys]; [contradiction|].
  change (removelast (k :: k2 :: keys)) with (k :: removelast (k2 :: keys)).
  change (last (k :: k2 :: keys) EmptyString) with (last (k2 :: keys) EmptyString).
  destruct target; reflexivity.
Qed.

Lemma get_path_after_set_path keys :
  keys <> [] ->
  forall value target target',
    SettingsManager.set_path (removelast keys) (last keys EmptyString)
                             value target = Some target' ->
    SettingsManager.get_path keys target' = Some value.
Proof.
  induction keys as [|k keys IH]; [contradiction|].
  intros _ value target target' H. destruct keys as [|k2 keys].
  - cbn in H. destruct target; try discriminate. injection H as <-.
    cbn. now rewrite lookup_set_same.
  - rewrite set_path_cons in H by discriminate.
    destruct target; try discriminate.
    destruct (SettingsManager.set_path _ _ _ _) as [child'|] eqn:E;
      [|discriminate].
    injection H as <-. cbn [SettingsManager.get_path].
    rewrite lookup_set_same. eapply IH; [discriminate | exact E].
Qed.

Lemma get_path_empty_object k keys :
  SettingsManager.get_path (k :: keys) (SettingsManager.Object []) = None.
Proof. reflexivity. Qed.

(** Writing along one list of words leaves what is read along a list that
    branches off it unchanged. *)
Lemma get_path_other_set_path prefix : forall a rest b rest' value target target',
  a <> b ->
  SettingsManager.set_path (removelast (prefix ++ a :: rest))
                           (last (prefix ++ a :: rest) EmptyString)
                           value target = Some target' ->
  SettingsManager.get_path (prefix ++ b :: rest') target'
  = SettingsManager.get_path (prefix ++ b :: rest') target.
Proof.
  induction prefix as [|k prefix IH];
    intros a rest b rest' value target target' Hab H; cbn [app] in *.
  - assert (Hb : b <> a) by congruence.
    destruct rest as [|k2 rest].
    + cbn in H. destruct target; try discriminate. injection H as <-.
      cbn [SettingsManager.get_path]. now rewrite lookup_set_other.
    + rewrite set_path_cons in H by discriminate.
      destruct target; try discriminate.
      destruct (SettingsManager.set_path _ _ _ _) as [child'|];
        [|discriminate].
      injection H as <-.
      cbn [SettingsManager.get_path]. now rewrite lookup_set_other.
  - rewrite set_path_cons in H by (destruct prefix; discriminate).
    destruct target; try discriminate.
    destruct (SettingsManager.set_path _ _ _ _) as [child'|] eqn:E;
      [|discriminate].
    injection H as <-. cbn [SettingsManager.get_path].
    rewrite lookup_set_same.
    rewrite (IH a rest b rest' value _ child' Hab E).
    destruct (Dict.lookup k fields) as [child|]; cbn [Py.get]; [reflexivity|].
    destruct prefix; reflexivity.
Qed.

(** X24.  What [set_setting] has stored under a dotted key, [get_setting]
    returns for the same key, whatever default it is given and whether or
    not the settings file could be written; the flag returned is the one
    [save_settings] gives. *)
Theorem set_setting_then_get_setting
    (saved : bool) (settings : SettingsManager.Value) (key : string)
    (value default : SettingsManager.Value)
    (result : bool * SettingsManager.Value) :
  SettingsManager.set_setting saved settings key value = Some result ->
  fst result = saved /\
  SettingsManager.get_setting (snd result) key default = value.
Proof.
  unfold SettingsManager.set_setting, SettingsManager.get_setting. cbv zeta.
  destruct (SettingsManager.set_path _ _ _ _) as [settings'|] eqn:E;
    [|discriminate].
  intros H. injection H as <-. cbn [fst snd]. split; [reflexivity|].
  apply get_path_after_set_path in E; [|apply split_not_nil].
  now rewrite E.
Qed.

Lemma set_setting_then_get_setting_witness :
  let settings :=
    SettingsManager.Object
      [("risk_per_trade", SettingsManager.Number 1.0);
       ("news_sources",
        SettingsManager.Object
          [("forex_factory",
            SettingsManager.Object
              [("enabled", SettingsManager.Boolean true)])])]%string in
  match SettingsManager.set_setting false settings
          "news_sources.forex_factory.enabled" (SettingsManager.Boolean false) with
  | Some result =>
      fst result = false /\
      SettingsManager.get_setting (snd result)
        "news_sources.forex_factory.enabled" SettingsManager.Null
      = SettingsManager.Boolean false
  | None => False
  end.
Proof.
  cbv zeta.
  destruct (SettingsManager.set_setting _ _ _ _) as [result|] eqn:E.
  - exact (set_setting_then_get_setting _ _ _ _ SettingsManager.Null _ E).
  - vm_compute in E. discriminate.
Defined.

(** X25.  [set_setting] touches only the branch it writes: a key whose
    words part from those of the written key at some position reads, after
    the write, exactly what it read before it (a branch created on the way
    included: it reads the default before and after). *)
Theorem set_setting_leaves_other_branches
    (saved : bool) (settings : SettingsManager.Value) (key other : string)
    (value default : SettingsManager.Value)
    (result : bool * SettingsManager.Value)
    (prefix rest rest' : list string) (a b : string) :
  Py.split "."%char key = prefix ++ a :: rest ->
  Py.split "."%char other = prefix ++ b :: rest' ->
  a <> b ->
  SettingsManager.set_setting saved settings key value = Some result ->
  SettingsManager.get_setting (snd result) other default
  = SettingsManager.get_setting settings other default.
Proof.
  unfold SettingsManager.set_setting, SettingsManager.get_setting. cbv zeta.
  intros -> -> Hab.
  destruct (SettingsManager.set_path _ _ _ _) as [settings'|] eqn:E;
    [|discriminate].
  intros H. injection H as <-. cbn [snd].
  now rewrite (get_path_other_set_path prefix a rest b rest' value _ _ Hab E).
Qed.

Lemma set_setting_leaves_other_branches_witness :
  let settings :=
    SettingsManager.Object
      [("risk_per_trade", SettingsManager.Number 1.0);
       ("news_sources",
        SettingsManager.Object
          [("forex_factory",
            SettingsManager.Object
              [("enabled", SettingsManager.Boolean true)])])]%string in
  match SettingsManager.set_setting true settings
          "news_sources.investing.enabled" (SettingsManager.Boolean true) with
  | Some result =>
      SettingsManager.get_setting (snd result)
        "news_sources.forex_factory.enabled" SettingsManager.Null
      = SettingsManager.get_setting settings
          "news_sources.forex_factory.enabled" SettingsManager.Null
  | None => False
  end.
Proof.
  cbv zeta.
  destruct (SettingsManager.set_setting _ _ _ _) as [result|] eqn:E.
  - apply (set_setting_leaves_other_branches
             true _ "news_sources.investing.enabled"
             "news_sources.forex_factory.enabled"
             (SettingsManager.Boolean true) SettingsManager.Null result
             ["news_sources"%string] ["enabled"%string] ["enabled"%string]
             "investing" "forex_factory");
      [reflexivity | reflexivity | discriminate | exact E].
  - vm_compute in E. discriminate.
Defined.

(** A word of the key that names a number cannot be walked through: the
    assignment raises and nothing is stored. *)
Example set_setting_through_a_number :
  SettingsManager.set_setting true
    (SettingsManager.Object [("risk_per_trade"%string, SettingsManager.Number 1.0)])
    "risk_per_trade.max" (SettingsManager.Number 2.0)
  = None.
Proof. reflexivity. Qed.

(** ** The candle detector: pivots and candle formations *)

(** X26.  The pivot levels computed from a last bar whose low and high
    enclose its close come out in order in every family: classic,
    Fibonacci and Woodie have [s3 <= s2 <= s1 <= pp <= r1 <= r2 <= r3]
    (Woodie's third levels, which are built on the classic first levels,
    included), the Camarilla levels run from [s4] up to [r4] around the
    close, and both pivots lie between the bar's low and high. *)
Theorem pivot_levels_are_ordered (df : DataFrame) :
  df <> [] ->
  low (iloc_back df 1) <= close (iloc_back df 1) ->
  close (iloc_back df 1) <= high (iloc_back df 1) ->
  let last := iloc_back df 1 in
  let pivots := PriceActionStrategy._calculate_pivot_points df in
  match PriceActionStrategy.classic pivots, PriceActionStrategy.fibonacci pivots,
        PriceActionStrategy.woodie pivots, PriceActionStrategy.camarilla pivots with
  | Some c, Some f, Some w, Some m =>
      PriceActionStrategy.ordered c /\
      PriceActionStrategy.ordered f /\
      PriceActionStrategy.ordered w /\
      PriceActionStrategy.ordered_around m (close last) /\
      low last <= PriceActionStrategy.pp c <= high last /\
      low last <= PriceActionStrategy.pp w <= high last
  | _, _, _, _ => False
  end.
Proof.
  intros Hne Hlc Hch. cbv zeta. unfold PriceActionStrategy._calculate_pivot_points.
  destruct df as [|b rest]; [contradiction|].
  change (List.length (b :: rest) <? 1)%nat with false. cbv iota zeta.
  cbn [PriceActionStrategy.classic PriceActionStrategy.fibonacci
       PriceActionStrategy.woodie PriceActionStrategy.camarilla].
  remember (iloc_back (b :: rest) 1) as bar eqn:Ebar. clear Ebar.
  destruct bar as [o h l c]. cbn [open high low close] in *.
  unfold PriceActionStrategy.ordered, PriceActionStrategy.ordered_around.
  cbn [PriceActionStrategy.pp PriceActionStrategy.s1 PriceActionStrategy.s2
       PriceActionStrategy.s3 PriceActionStrategy.r1 PriceActionStrategy.r2
       PriceActionStrategy.r3 PriceActionStrategy.c_s1 PriceActionStrategy.c_s2
       PriceActionStrategy.c_s3 PriceActionStrategy.c_s4
       PriceActionStrategy.c_r1 PriceActionStrategy.c_r2
       PriceActionStrategy.c_r3 PriceActionStrategy.c_r4].
  set (p := (h + l + c) / 3).
  assert (Hp : 3 * p == h + l + c) by (unfold p; field).
  set (w := (h + l + 2 * c) / 4).
  assert (Hw : 4 * w == h + l + 2 * c) by (unfold w; field).
  set (k2 := (h - l) * 1.1 / 2).
  assert (Hk2 : 2 * k2 == (h - l) * 1.1) by (unfold k2; field).
  set (k4 := (h - l) * 1.1 / 4).
  assert (Hk4 : 4 * k4 == (h - l) * 1.1) by (unfold k4; field).
  set (k6 := (h - l) * 1.1 / 6).
  assert (Hk6 : 6 * k6 == (h - l) * 1.1) by (unfold k6; field).
  set (k12 := (h - l) * 1.1 / 12).
  assert (Hk12 : 12 * k12 == (h - l) * 1.1) by (unfold k12; field).
  clearbody p w k2 k4 k6 k12.
  repeat split; lra.
Qed.

Lemma pivot_levels_are_ordered_witness :
  let df := Examples.gap_series in
  let last := iloc_back df 1 in
  let pivots := PriceActionStrategy._calculate_pivot_points df in
  match PriceActionStrategy.classic pivots, PriceActionStrategy.fibonacci pivots,
        PriceActionStrategy.woodie pivots, PriceActionStrategy.camarilla pivots with
  | Some c, Some f, Some w, Some m =>
      PriceActionStrategy.ordered c /\
      PriceActionStrategy.ordered f /\
      PriceActionStrategy.ordered w /\
      PriceActionStrategy.ordered_around m (close last) /\
      low last <= PriceActionStrategy.pp c <= high last /\
      low last <= PriceActionStrategy.pp w <= high last
  | _, _, _, _ => False
  end.
Proof.
  apply (pivot_levels_are_ordered Examples.gap_series);
    [discriminate | apply Qle_bool_iff; vm_compute; reflexivity
                  | apply Qle_bool_iff; vm_compute; reflexivity].
Defined.

(** An empty frame gives four empty pivot dictionaries. *)
Example pivot_points_of_empty_frame :
  PriceActionStrategy._calculate_pivot_points []
  = PriceActionStrategy.mkPivots None None None None.
Proof. reflexivity. Qed.

Lemma single_candle_spec idx bar :
  Forall (fun p =>
            PriceActionStrategy.candle_index p = idx /\
            50 <= PriceActionStrategy.candle_strength p <= 80 /\
            match PriceActionStrategy.candle_signal p with
            | PriceActionStrategy.bullish_candle => open bar < close bar
            | PriceActionStrategy.bearish_candle => close bar <= open bar
            | PriceActionStrategy.indecision =>
                PriceActionStrategy.pattern p = "Doji"%string /\
                Qabs (close bar - open bar) < 0.1 * (high bar - low bar)
            end)
         (PriceActionStrategy.single_candle idx bar) /\
  (List.length (PriceActionStrategy.single_candle idx bar) <= 1)%nat.
Proof.
  unfold PriceActionStrategy.single_candle. cbv zeta.
  destruct (Py.Qltb (Qabs (close bar - open bar)) (0.1 * (high bar - low bar)))
    eqn:Edoji.
  { apply Qltb_lt in Edoji. split; [|cbn; lia].
    repeat constructor; cbn; try lra; auto. }
  destruct (Py.Qltb (open bar) (close bar)) eqn:Eup;
    [apply Qltb_lt in Eup | apply Qltb_ge in Eup];
    repeat match goal with
           | |- context [if ?c then _ else _] => destruct c
           end;
    (split; [|cbn; lia]); repeat constructor; cbn; lra.
Qed.

Lemma double_candle_spec idx prev bar :
  Forall (fun p =>
            PriceActionStrategy.candle_index p = idx /\
            60 <= PriceActionStrategy.candle_strength p <= 90 /\
            match PriceActionStrategy.candle_signal p with
            | PriceActionStrategy.bullish_candle => open bar < close bar
            | PriceActionStrategy.bearish_candle => close bar <= open bar
            | PriceActionStrategy.indecision => False
            end)
         (PriceActionStrategy.double_candle idx prev bar) /\
  (List.length (PriceActionStrategy.double_candle idx prev bar) <= 1)%nat.
Proof.
  unfold PriceActionStrategy.double_candle. cbv zeta.
  destruct (Py.Qltb (open bar) (close bar)) eqn:Eup;
    [apply Qltb_lt in Eup | apply Qltb_ge in Eup];
    repeat match goal with
           | |- context [if ?c then _ else _] => destruct c
           end;
    (split; [|cbn; lia]); repeat constructor; cbn; lra.
Qed.

(** X27.  Every candle formation [_identify_candle_patterns] reports sits
    on one of the last five bars and agrees with the colour of its bar: a
    bullish formation is reported only on a bar that closes above its open,
    a bearish one only on a bar that does not, and the only indecision
    formation is the Doji, on a bar whose body is under a tenth of its
    range.  Strengths lie between 50 and 90, the list is sorted by strength,
    strongest first, and holds at most ten formations. *)
Theorem candle_patterns_agree_with_their_bars (df : DataFrame) :
  let patterns := PriceActionStrategy._identify_candle_patterns df in
  Forall (fun p =>
            let bar := iloc df (PriceActionStrategy.candle_index p) in
            (List.length df - 5 <= PriceActionStrategy.candle_index p
             < List.length df)%nat /\
            50 <= PriceActionStrategy.candle_strength p <= 90 /\
            match PriceActionStrategy.candle_signal p with
            | PriceActionStrategy.bullish_candle => open bar < close bar
            | PriceActionStrategy.bearish_candle => close bar <= open bar
            | PriceActionStrategy.indecision =>
                PriceActionStrategy.pattern p = "Doji"%string /\
                Qabs (close bar - open bar) < 0.1 * (high bar - low bar)
            end)
         patterns /\
  Sorted (Py.descending PriceActionStrategy.candle_strength) patterns /\
  (List.length patterns <= 10)%nat.
Proof.
  cbv zeta. unfold PriceActionStrategy._identify_candle_patterns.
  destruct (Nat.ltb_spec (List.length df) 10) as [Hlen|Hlen].
  { repeat split; try constructor. cbn. lia. }
  split; [|split].
  - apply sorted_desc_Forall, Forall_flat_map, Forall_forall.
    intros idx Hidx. apply in_range in Hidx.
    apply Forall_app; split.
    + destruct (single_candle_spec idx (iloc df idx)) as [H _].
      eapply Forall_impl; [|exact H].
      intros p (-> & Hs & Hc). repeat split; try lia; try lra. exact Hc.
    + destruct (0 <? idx)%nat; [|constructor].
      destruct (double_candle_spec idx (iloc df (idx - 1)) (iloc df idx))
        as [H _].
      eapply Forall_impl; [|exact H].
      intros p (-> & Hs & Hc). repeat split; try lia; try lra.
      destruct (PriceActionStrategy.candle_signal p); auto. contradiction.
  - apply sorted_desc_Sorted.
  - rewrite sorted_desc_length.
    assert (G : forall idxs,
              (List.length
                 (flat_map
                    (fun idx =>
                       PriceActionStrategy.single_candle idx (iloc df idx)
                       ++ (if (0 <? idx)%nat
                           then PriceActionStrategy.double_candle
                                  idx (iloc df (idx - 1)) (iloc df idx)
                           else []))
                    idxs)
               <= 2 * List.length idxs)%nat).
    { induction idxs as [|idx idxs IH]; cbn [flat_map List.length]; [lia|].
      rewrite !length_app.
      destruct (single_candle_spec idx (iloc df idx)) as [_ H1].
      destruct (double_candle_spec idx (iloc df (idx - 1)) (iloc df idx))
        as [_ H2].
      destruct (0 <? idx)%nat; cbn [List.length] in *; lia. }
    eapply Nat.le_trans; [apply G|].
    unfold range. rewrite length_seq. lia.
Qed.

(** On the series of alternating engulfing candles every one of the last
    five bars is a Marubozu and the last four engulf their predecessor;
    the engulfing formations, strength 90, come first. *)
Example engulfing_series_candle_patterns :
  map (fun p => (PriceActionStrategy.candle_index p, PriceActionStrategy.pattern p))
      (PriceActionStrategy._identify_candle_patterns Examples.engulfing_series)
  = [(6%nat, "Bearish Engulfing"); (7%nat, "Bullish Engulfing");
     (8%nat, "Bearish Engulfing"); (9%nat, "Bullish Engulfing");
     (5%nat, "Bullish Marubozu"); (6%nat, "Bearish Marubozu");
     (7%nat, "Bullish Marubozu"); (8%nat, "Bearish Marubozu");
     (9%nat, "Bullish Marubozu")]%string.
Proof. vm_compute. reflexivity. Qed.

(** ** The relative strength index *)

Lemma sum_map_nonneg {A : Type} (f : A -> Q) xs :
  (forall x, In x xs -> 0 <= f x) -> 0 <= Py.sum (map f xs).
Proof.
  induction xs as [|x xs IH]; intros H; cbn [map].
  - unfold Py.sum. cbn. lra.
  - rewrite sum_cons.
    pose proof (H x (or_introl eq_refl)).
    assert (0 <= Py.sum (map f xs)) by (apply IH; intros; apply H; now right).
    lra.
Qed.

(** A sum of non-negative terms is zero only if every term is. *)
Lemma sum_map_zero {A : Type} (f : A -> Q) xs :
  (forall x, In x xs -> 0 <= f x) ->
  Py.sum (map f xs) == 0 -> forall x, In x xs -> f x == 0.
Proof.
  induction xs as [|y xs IH]; intros H Hsum x Hx; [contradiction|].
  cbn [map] in Hsum. rewrite sum_cons in Hsum.
  pose proof (H y (or_introl eq_refl)).
  assert (0 <= Py.sum (map f xs))
    by (apply sum_map_nonneg; intros; apply H; now right).
  destruct Hx as [<-|Hx]; [lra|].
  apply IH; auto; [intros; apply H; now right | lra].
Qed.

Lemma gain_loss_spec df i :
  (0 < i)%nat ->
  0 <= Indicators.gain df i /\ 0 <= Indicators.loss df i /\
  Indicators.gain df i - Indicators.loss df i
  == close (iloc df i) - close (iloc df (i - 1)) /\
  (Indicators.loss df i == 0 <-> close (iloc df (i - 1)) <= close (iloc df i)).
Proof.
  intros Hi. unfold Indicators.gain, Indicators.loss, Indicators.delta.
  apply Nat.ltb_lt in Hi. rewrite Hi.
  set (d := close (iloc df i) - close (iloc df (i - 1))).
  assert (Ed : d == close (iloc df i) - close (iloc df (i - 1))) by reflexivity.
  clearbody d.
  destruct (Py.Qltb 0 d) eqn:E1; [apply Qltb_lt in E1 | apply Qltb_ge in E1];
    (destruct (Py.Qltb d 0) eqn:E2; [apply Qltb_lt in E2 | apply Qltb_ge in E2]);
    repeat split; intros; lra.
Qed.

(** The closes telescope: gains less losses over consecutive rows is the
    change of the close across them. *)
Lemma gains_less_losses df n : forall a,
  (0 < a)%nat ->
  Py.sum (map (Indicators.gain df) (seq a n))
  - Py.sum (map (Indicators.loss df) (seq a n))
  == close (iloc df (a + n - 1)) - close (iloc df (a - 1)).
Proof.
  induction n as [|n IH]; intros a Ha.
  - cbn [seq map]. unfold Py.sum. cbn [fold_left].
    replace (a + 0 - 1)%nat with (a - 1)%nat by lia. lra.
  - cbn [seq map]. rewrite !sum_cons.
    destruct (gain_loss_spec df a Ha) as (_ & _ & Hd & _).
    pose proof (IH (S a) ltac:(lia)) as Hrest.
    replace (S a + n - 1)%nat with (a + S n - 1)%nat in Hrest by lia.
    replace (S a - 1)%nat with a in Hrest by lia.
    lra.
Qed.

Lemma rsi_formula x y :
  0 <= x -> 0 < y ->
  0 <= 100 - 100 / (1 + x / y) < 100 /\
  (50 < 100 - 100 / (1 + x / y) <-> y < x).
Proof.
  intros Hx Hy.
  set (r := x / y).
  assert (Hr : r * y == x) by (unfold r; field; lra).
  assert (Hr0 : 0 <= r) by (unfold r; apply Qdiv_pos_nonneg; lra).
  clearbody r.
  set (d := 100 / (1 + r)).
  assert (Hd : d * (1 + r) == 100) by (unfold d; field; lra).
  assert (Hd0 : 0 < d) by (unfold d; apply Qlt_shift_div_l; lra).
  clearbody d.
  assert (Hdr : 0 <= d * r) by (apply Qmult_le_0_compat; lra).
  split; [split; lra|].
  split; intros H.
  - assert (1 < r); [|nra].
    destruct (Qlt_le_dec 1 r) as [|Hle]; [assumption|].
    assert (d * r <= d * 1) by (apply Qmult_le_l; lra). lra.
  - assert (1 < r) by nra.
    assert (d * 1 < d * r) by (apply Qmult_lt_l; lra). lra.
Qed.

(** X28.  With a period of at least 1 and more than [period] bars,
    [calculate_rsi] returns a value between 0 and 100.  If no close of the
    last [period] bars is below the close before it the value is 100, even
    when the price has not moved at all; otherwise the value is below 100,
    and it is above 50 exactly when the last close is higher than the close
    [period] bars earlier. *)
Theorem rsi_reads_the_change_over_its_window (df : DataFrame) (period : nat) :
  (1 <= period)%nat ->
  (period + 1 <= List.length df)%nat ->
  let n := List.length df in
  let rsi := Indicators.calculate_rsi df period in
  0 <= rsi <= 100 /\
  ((forall i, (n - period <= i < n)%nat ->
              close (iloc df (i - 1)) <= close (iloc df i)) ->
   rsi = 100) /\
  ((exists i, (n - period <= i < n)%nat /\
              close (iloc df i) < close (iloc df (i - 1))) ->
   rsi < 100 /\
   (50 < rsi <-> close (iloc df (n - 1 - period)) < close (iloc df (n - 1)))).
Proof.
  intros Hperiod Hlen. cbv zeta. unfold Indicators.calculate_rsi.
  assert (E : (List.length df <? period + 1)%nat = false)
    by (apply Nat.ltb_ge; lia).
  rewrite E. cbv zeta. unfold Indicators.rolling_mean_last, range.
  replace (List.length df - (List.length df - period))%nat with period by lia.
  set (a := (List.length df - period)%nat).
  assert (Ha : (0 < a)%nat) by (unfold a; lia).
  set (G := Py.sum (map (Indicators.gain df) (seq a period))).
  set (L := Py.sum (map (Indicators.loss df) (seq a period))).
  set (P := inject_Z (Z.of_nat period)).
  assert (HP : 0 < P).
  { unfold P. change 0 with (inject_Z 0). rewrite <- Zlt_Qlt. lia. }
  assert (Hterms : forall i, In i (seq a period) ->
                             0 <= Indicators.gain df i /\ 0 <= Indicators.loss df i).
  { intros i Hi. apply in_seq in Hi.
    destruct (gain_loss_spec df i ltac:(lia)) as (H1 & H2 & _). auto. }
  assert (HG : 0 <= G) by (apply sum_map_nonneg; intros; now apply Hterms).
  assert (HL : 0 <= L) by (apply sum_map_nonneg; intros; now apply Hterms).
  assert (Htel : G - L == close (iloc df (List.length df - 1))
                          - close (iloc df (List.length df - 1 - period))).
  { unfold G, L. rewrite (gains_less_losses df period a Ha).
    replace (a + period - 1)%nat with (List.length df - 1)%nat by (unfold a; lia).
    replace (a - 1)%nat with (List.length df - 1 - period)%nat by (unfold a; lia).
    reflexivity. }
  assert (Hzero : L == 0 <->
                  forall i, (a <= i < List.length df)%nat ->
                            close (iloc df (i - 1)) <= close (iloc df i)).
  { split.
    - intros HL0 i Hi.
      assert (Hin : In i (seq a period)) by (apply in_seq; unfold a in *; lia).
      pose proof (sum_map_zero (Indicators.loss df) (seq a period)
                    (fun j Hj => proj2 (Hterms j Hj)) HL0 i Hin) as Hi0.
      destruct (gain_loss_spec df i ltac:(lia)) as (_ & _ & _ & Hiff).
      now apply Hiff.
    - intros Hall.
      assert (Hle : L <= 0); [|lra].
      unfold L.
      rewrite (sum_map_ext (Indicators.loss df) (fun _ => 0)).
      + clear. induction (seq a period) as [|x xs IH]; cbn [map].
        * unfold Py.sum. cbn. lra.
        * rewrite sum_cons. lra.
      + intros i Hi. apply in_seq in Hi.
        destruct (gain_loss_spec df i ltac:(lia)) as (_ & _ & _ & Hiff).
        apply Hiff, Hall. unfold a in *. lia. }
  assert (Havg : forall s, s / P == 0 <-> s == 0).
  { intros s. split; intros H.
    - assert (Hs : s == s / P * P) by (field; lra). rewrite Hs, H. lra.
    - rewrite H. field. lra. }
  destruct (Qeq_bool (L / P) 0) eqn:Eloss.
  - apply Qeq_bool_iff in Eloss. apply (proj1 (Havg L)) in Eloss.
    split; [lra|]. split; [reflexivity|].
    intros (i & Hi & Hfall).
    pose proof (proj1 Hzero Eloss i Hi). lra.
  - assert (HL0 : ~ L == 0).
    { intros H. apply (proj2 (Havg L)) in H. apply Qeq_bool_iff in H.
      congruence. }
    assert (HLpos : 0 < L) by lra.
    assert (Hg : 0 <= G / P) by (apply Qdiv_pos_nonneg; lra).
    assert (Hl : 0 < L / P) by (apply Qlt_shift_div_l; lra).
    destruct (rsi_formula (G / P) (L / P) Hg Hl) as [[Hlo Hhi] Hhalf].
    split; [lra|]. split.
    + intros Hall. exfalso. apply HL0, Hzero. exact Hall.
    + intros _. split; [exact Hhi|].
      rewrite Hhalf. split; intros H.
      * assert (L < G); [|lra].
        apply Qmult_lt_r with (z := / P); [now apply Qinv_lt_0_compat|].
        exact H.
      * assert (L < G) by lra.
        unfold Qdiv. apply Qmult_lt_r; [now apply Qinv_lt_0_compat | assumption].
Qed.

Lemma rsi_reads_the_change_over_its_window_witness :
  let df := Examples.gap_series in
  let n := List.length df in
  let rsi := Indicators.calculate_rsi df 5 in
  0 <= rsi <= 100 /\
  ((forall i, (n - 5 <= i < n)%nat ->
              close (iloc df (i - 1)) <= close (iloc df i)) ->
   rsi = 100) /\
  ((exists i, (n - 5 <= i < n)%nat /\
              close (iloc df i) < close (iloc df (i - 1))) ->
   rsi < 100 /\
   (50 < rsi <-> close (iloc df (n - 1 - 5)) < close (iloc df (n - 1)))).
Proof.
  apply (rsi_reads_the_change_over_its_window Examples.gap_series 5);
    [lia | vm_compute; lia].
Defined.

(** Five bars of unchanged closes read as an index of 100; fewer bars than
    the period needs read as 50. *)
Example rsi_of_a_flat_series :
  Indicators.calculate_rsi (List.repeat (mkBar 100.0 100.2 99.8 100.0) 6) 5 = 100 /\
  Indicators.calculate_rsi (List.repeat (mkBar 100.0 100.2 99.8 100.0) 5) 5 = 50.
Proof. vm_compute. split; reflexivity. Qed.

(** On the ten-bar series the closes fall over the last five bars, from
    100.3 to 100.0: the index is 0. *)
Example rsi_of_a_falling_series :
  Indicators.calculate_rsi Examples.gap_series 5 == 0.
Proof. vm_compute. reflexivity. Qed.

(** ** The structure/zone detector: whole-number scores *)

Section WholeScores.

(** A score that is a whole number of points. *)
Let whole (x : Q) : Prop := exists n : Z, (0 <= n)%Z /\ x == inject_Z n.

Lemma whole_const (n : Z) : (0 <= n)%Z -> whole (inject_Z n).
Proof. intros H. exists n. split; [exact H | reflexivity]. Qed.

Lemma whole_plus x y : whole x -> whole y -> whole (x + y).
Proof.
  intros (n & Hn & En) (m & Hm & Em). exists (n + m)%Z. split; [lia|].
  rewrite inject_Z_plus, En, Em. reflexivity.
Qed.

Lemma points_whole {A : Type} (score : A -> Q) xs :
  (forall x, whole (score x)) -> whole (ICTStrategy.points score xs).
Proof.
  intros H. unfold ICTStrategy.points.
  assert (G : forall acc, whole acc ->
                whole (fold_left (fun acc x => acc + score x) xs acc)).
  { induction xs as [|x xs IH]; intros acc Hacc; cbn [fold_left].
    - exact Hacc.
    - apply IH, whole_plus; auto. }
  apply G. exact (whole_const 0 ltac:(lia)).
Qed.

Lemma pattern_points_whole bull bear patterns :
  whole (fst (ICTStrategy.pattern_points bull bear 2 patterns)) /\
  whole (snd (ICTStrategy.pattern_points bull bear 2 patterns)).
Proof.
  unfold ICTStrategy.pattern_points.
  assert (G : forall acc : Q * Q, whole (fst acc) /\ whole (snd acc) ->
            whole (fst (fold_left
                          (fun '(buy_score, sell_score) pattern =>
                             if existsb (fun w => Py.contains w pattern) bull
                             then (buy_score + 2, sell_score)
                             else if existsb (fun w => Py.contains w pattern) bear
                                  then (buy_score, sell_score + 2)
                                  else (buy_score, sell_score))
                          patterns acc))
            /\ whole (snd (fold_left
                          (fun '(buy_score, sell_score) pattern =>
                             if existsb (fun w => Py.contains w pattern) bull
                             then (buy_score + 2, sell_score)
                             else if existsb (fun w => Py.contains w pattern) bear
                                  then (buy_score, sell_score + 2)
                                  else (buy_score, sell_score))
                          patterns acc))).
  { induction patterns as [|p ps IH]; intros [b s] [Hb Hs]; cbn [fold_left].
    - auto.
    - destruct (existsb (fun w => Py.contains w p) bull);
        [|destruct (existsb (fun w => Py.contains w p) bear)];
        apply IH; cbn [fst snd] in *; split; auto;
        apply whole_plus; auto; exact (whole_const 2 ltac:(lia)). }
  apply G. cbn [fst snd]. split; exact (whole_const 0 ltac:(lia)).
Qed.

(** With whole-number scores and a margin of 2 the winning side has at
    least 3 points: its strength is 30, 40, ... or 100. *)
Lemma decide_whole buy_score sell_score :
  whole buy_score -> whole sell_score ->
  match fst (ICTStrategy.decide 2 buy_score sell_score 0) with
  | Neutral => snd (ICTStrategy.decide 2 buy_score sell_score 0) = 0
  | _ =>
      exists k : Z,
        (3 <= k <= 10)%Z /\
        snd (ICTStrategy.decide 2 buy_score sell_score 0) == inject_Z k * 10
  end.
Proof.
  assert (G : forall w l, whole w -> whole l -> l + 2 < w ->
                exists k : Z, (3 <= k <= 10)%Z /\ Qmin 100 (w * 10) == inject_Z k * 10).
  { intros w l (n & Hn & En) (m & Hm & Em) Hlt.
    assert (H3 : (3 <= n)%Z).
    { assert (Hq : inject_Z (m + 2) < inject_Z n)
        by (rewrite inject_Z_plus, <- En, <- Em; exact Hlt).
      rewrite <- Zlt_Qlt in Hq. lia. }
    destruct (Z_lt_le_dec n 10) as [Hsmall|Hbig].
    - exists n. split; [lia|].
      assert (Hq : inject_Z n <= inject_Z 10) by (rewrite <- Zle_Qle; lia).
      change (inject_Z 10) with 10 in Hq.
      rewrite <- En. apply Q.min_r. lra.
    - exists 10%Z. split; [lia|].
      assert (Hq : inject_Z 10 <= inject_Z n) by (rewrite <- Zle_Qle; lia).
      change (inject_Z 10) with 10 in *.
      rewrite Q.min_l by lra. reflexivity. }
  intros Hb Hs. unfold ICTStrategy.decide.
  destruct (Py.Qltb (sell_score + 2) buy_score) eqn:E1; cbn [fst snd].
  - apply Qltb_lt in E1. apply (G buy_score sell_score); assumption.
  - destruct (Py.Qltb (buy_score + 2) sell_score) eqn:E2; cbn [fst snd].
    + apply Qltb_lt in E2. apply (G sell_score buy_score); assumption.
    + reflexivity.
Qed.

Lemma smc_generate_signal_whole df results :
  match fst (SMCStrategy._generate_signal df results) with
  | Neutral => snd (SMCStrategy._generate_signal df results) = 0
  | _ =>
      exists k : Z,
        (3 <= k <= 10)%Z /\
        snd (SMCStrategy._generate_signal df results) == inject_Z k * 10
  end.
Proof.
  unfold SMCStrategy._generate_signal.
  destruct (pattern_points_whole ["Bullish"%string] ["Bearish"%string]
              (SMCStrategy.patterns results)) as [Hp1 Hp2].
  destruct (ICTStrategy.pattern_points _ _ _ (SMCStrategy.patterns results))
    as [bp sp].
  cbn [fst snd] in Hp1, Hp2.
  assert (W0 : whole 0) by exact (whole_const 0 ltac:(lia)).
  assert (W1 : whole 1) by exact (whole_const 1 ltac:(lia)).
  assert (W2 : whole 2) by exact (whole_const 2 ltac:(lia)).
  assert (W3 : whole 3) by exact (whole_const 3 ltac:(lia)).
  assert (Hmoves : forall d i c, whole (SMCStrategy.continuation_points d i c)).
  { intros d i c. unfold SMCStrategy.continuation_points.
    destruct (rev i) as [|li ?]; [exact W0|].
    destruct (rev c) as [|lc ?]; [exact W0|].
    destruct (_ <? _)%nat; [|exact W0].
    destruct (SMCStrategy.move_direction li), (SMCStrategy.move_direction lc), d;
      try exact W0; destruct (Py.Qltb _ _); assumption. }
  assert (Harea : forall p a b x, whole a -> whole b ->
                                  whole (SMCStrategy.area_points p a b x)).
  { intros p a b x Ha Hb. unfold SMCStrategy.area_points.
    destruct (_ && _); [|exact W0]. destruct (Py.contains _ _); [exact Ha|].
    destruct (Py.contains _ _); assumption. }
  pose proof (Hmoves SMCStrategy.up (SMCStrategy.impulse_moves results)
                (SMCStrategy.corrective_moves results)) as Hup.
  pose proof (Hmoves SMCStrategy.down (SMCStrategy.impulse_moves results)
                (SMCStrategy.corrective_moves results)) as Hdown.
  repeat match goal with
  | |- context [ICTStrategy.points ?f ?xs] =>
      let p := fresh "p" in
      let Hp := fresh "Hp" in
      assert (Hp : whole (ICTStrategy.points f xs))
        by (apply points_whole; intros x;
            first [ apply Harea; assumption
                  | destruct (_ && _); [assumption|];
                    destruct (_ && _); assumption ]);
      remember (ICTStrategy.points f xs) as p eqn:Ep; clear Ep
  end.
  destruct (SMCStrategy.trend _), (SMCStrategy.current_phase _);
    apply decide_whole; repeat apply whole_plus; assumption.
Qed.

End WholeScores.

(** X29.  The structure/zone detector counts whole points, so its verdict
    comes in steps: a buy or sell verdict has strength 30, 40, ... or 100
    (the winning side needs at least 3 points to lead by more than 2), and
    a neutral verdict has strength 0.  The last close is taken positive,
    as the detector divides by it. *)
Theorem smc_strength_comes_in_steps_of_ten (df : DataFrame)
    (results : SMCStrategy.Structures) :
  0 < ICTStrategy.last_close df ->
  match fst (SMCStrategy._generate_signal df results) with
  | Neutral => snd (SMCStrategy._generate_signal df results) = 0
  | _ =>
      exists k : Z,
        (3 <= k <= 10)%Z /\
        snd (SMCStrategy._generate_signal df results) == inject_Z k * 10
  end.
Proof. intros _. apply smc_generate_signal_whole. Qed.

Lemma smc_strength_comes_in_steps_of_ten_witness :
  let results :=
    SMCStrategy.mkStructures
      (SMCStrategy.mkMarketStructure SMCStrategy.uptrend SMCStrategy.markup)
      [] [] [] [] [] [] [] in
  0 < ICTStrategy.last_close Examples.gap_series /\
  match fst (SMCStrategy._generate_signal Examples.gap_series results) with
  | Neutral => snd (SMCStrategy._generate_signal Examples.gap_series results) = 0
  | _ =>
      exists k : Z,
        (3 <= k <= 10)%Z /\
        snd (SMCStrategy._generate_signal Examples.gap_series results)
        == inject_Z k * 10
  end.
Proof.
  cbv zeta. split; [vm_compute; reflexivity|].
  apply (smc_strength_comes_in_steps_of_ten Examples.gap_series).
  vm_compute. reflexivity.
Defined.

(** An uptrend in its markup phase with nothing else to score: 4 points
    against 0, a buy of strength 40. *)
Example smc_uptrend_in_markup :
  let verdict :=
    SMCStrategy._generate_signal Examples.gap_series
      (SMCStrategy.mkStructures
         (SMCStrategy.mkMarketStructure SMCStrategy.uptrend SMCStrategy.markup)
         [] [] [] [] [] [] []) in
  (fst verdict, Qred (snd verdict)) = (Buy, 40).
Proof. vm_compute. reflexivity. Qed.

(* ------------------------------------------------------------------ *)
(* End of the development.                                             *)
